(** * JUIT-OLX listing service: the request handlers of the three servers

    The repository holds three Express servers over the same listing entity:
    - the document-store server (MongoDB through Mongoose, images on
      Cloudinary), module [Mongo] below;
    - the file-backed server (one [products.json] in a remote repository,
      written with a version token), module [Github] below;
    - the minimal server appended to the file-backed one, module [Minimal].

    Handlers are written as small programs over the remote calls they await;
    an interpreter runs them against a model of the remote services. *)

From Stdlib Require Import ZArith List String Ascii Bool Lia QArith Sorted.
From Stdlib Require Import DecimalString DecimalZ OrdersEx RelationClasses.
From Stdlib Require Import Permutation.
Import ListNotations.
Local Open Scope string_scope.
Local Open Scope Z_scope.

(** ** JavaScript values and the primitives the handlers use *)

Module JS.

(** Values a request field can hold.  [VNum] covers the integer-valued
    numbers; [VObj] stands for an array or object and carries what
    [String(v)] yields for it, or nothing when that conversion throws: an
    object whose [toString] and [valueOf] are no functions, as a JSON body
    can hold one. *)
Inductive jsval : Type :=
| VUndefined
| VNull
| VBool (b : bool)
| VNum (n : Z)
| VStr (s : string)
| VObj (repr : option string).

(** Result of [parseInt]: not-a-number or an integer. *)
Inductive jsnum : Type :=
| NaN
| Num (z : Z).

Definition MAX_SAFE_INTEGER : Z := 2 ^ 53 - 1.

(** [!v] is [negb (truthy v)]. *)
Definition truthy (v : jsval) : bool :=
  match v with
  | VUndefined | VNull => false
  | VBool b => b
  | VNum n => negb (n =? 0)
  | VStr s => negb (String.eqb s "")
  | VObj _ => true
  end.

Definition string_of_Z (n : Z) : string :=
  NilZero.string_of_int (Z.to_int n).

(** [String(v)], the coercion applied by [RegExp.prototype.test] and
    [parseInt] to their argument; [None] when it throws a TypeError. *)
Definition ToString (v : jsval) : option string :=
  match v with
  | VUndefined => Some "undefined"
  | VNull => Some "null"
  | VBool true => Some "true"
  | VBool false => Some "false"
  | VNum n => Some (string_of_Z n)
  | VStr s => Some s
  | VObj r => r
  end.

(** White space in the sense of [String.prototype.trim], for the code units
    below 256: TAB, LF, VT, FF, CR, SP and NBSP. *)
Definition is_space (c : ascii) : bool :=
  let n := nat_of_ascii c in
  (Nat.eqb n 9 || Nat.eqb n 10 || Nat.eqb n 11 || Nat.eqb n 12
   || Nat.eqb n 13 || Nat.eqb n 32 || Nat.eqb n 160)%bool.

Fixpoint drop_space (l : list ascii) : list ascii :=
  match l with
  | [] => []
  | c :: l' => if is_space c then drop_space l' else l
  end.

(** No white space at the head. *)
Definition clean (l : list ascii) : Prop :=
  match l with
  | [] => True
  | c :: _ => is_space c = false
  end.

Definition trim_chars (l : list ascii) : list ascii :=
  rev (drop_space (rev (drop_space l))).

Definition trim (s : string) : string :=
  string_of_list_ascii (trim_chars (list_ascii_of_string s)).

Definition is_digit (c : ascii) : bool :=
  let n := nat_of_ascii c in (Nat.leb 48 n && Nat.leb n 57)%bool.

(** Value of a digit in the given radix, if it is one. *)
Definition digit_value (radix : Z) (c : ascii) : option Z :=
  let n := Z.of_nat (nat_of_ascii c) in
  let v := if (48 <=? n) && (n <=? 57) then Some (n - 48)
           else if (97 <=? n) && (n <=? 122) then Some (n - 87)
           else if (65 <=? n) && (n <=? 90) then Some (n - 55)
           else None in
  match v with
  | Some d => if d <? radix then Some d else None
  | None => None
  end.

(** Longest prefix of digits, accumulated left to right. *)
Fixpoint read_digits (radix : Z) (l : list ascii) (acc : option Z) : option Z :=
  match l with
  | [] => acc
  | c :: l' =>
      match digit_value radix c with
      | Some d =>
          read_digits radix l'
            (Some (match acc with Some a => a * radix + d | None => d end))
      | None => acc
      end
  end.

Definition strip_hex_prefix (l : list ascii) : option (list ascii) :=
  match l with
  | "0"%char :: "x"%char :: l' => Some l'
  | "0"%char :: "X"%char :: l' => Some l'
  | _ => None
  end.

(** [parseInt(s)] without a radix argument: leading white space is skipped,
    a sign is read, a [0x] prefix selects radix 16, and the longest prefix of
    digits is the value.  The value is exact up to [MAX_SAFE_INTEGER]; beyond
    it JavaScript rounds to the nearest double. *)
Definition parseInt_string (s : string) : jsnum :=
  let l := drop_space (list_ascii_of_string s) in
  let '(sign, l1) :=
    match l with
    | "-"%char :: l' => (-1, l')
    | "+"%char :: l' => (1, l')
    | _ => (1, l)
    end in
  let '(radix, l2) :=
    match strip_hex_prefix l1 with
    | Some l' => (16, l')
    | None => (10, l1)
    end in
  match read_digits radix l2 None with
  | Some v => Num (sign * v)
  | None => NaN
  end.

(** [parseInt(v)]: [None] when the conversion of [v] to a string throws. *)
Definition parseInt (v : jsval) : option jsnum :=
  option_map parseInt_string (ToString v).

(** The integers a double holds exactly; [parseInt] is exact on them. *)
Definition safe_integer (n : jsnum) : Prop :=
  match n with
  | Num z => - MAX_SAFE_INTEGER <= z <= MAX_SAFE_INTEGER
  | NaN => True
  end.

(** *** The regular expressions of the source *)

Inductive regex : Type :=
| Lit (c : ascii)          (* a literal character *)
| Digit                    (* \d *)
| Cat (r1 r2 : regex)      (* concatenation *)
| Rep (n : nat) (r : regex)   (* r{n} *).

(** [k] rounds of a matching step, each from every rest of the round
    before. *)
Fixpoint rounds (step : list ascii -> list (list ascii)) (k : nat)
         (ls : list (list ascii)) : list (list ascii) :=
  match k with
  | O => ls
  | S k' => rounds step k' (flat_map step ls)
  end.

(** All the ways [r] can match a prefix of [l]; each is given by the rest. *)
Fixpoint match_prefix (r : regex) (l : list ascii) : list (list ascii) :=
  match r with
  | Lit c =>
      match l with
      | c' :: l' => if Ascii.eqb c c' then [l'] else []
      | [] => []
      end
  | Digit =>
      match l with
      | c' :: l' => if is_digit c' then [l'] else []
      | [] => []
      end
  | Cat r1 r2 => flat_map (match_prefix r2) (match_prefix r1 l)
  | Rep n r1 => rounds (match_prefix r1) n [l]
  end.

Definition is_nil (l : list ascii) : bool :=
  match l with
  | [] => true
  | _ => false
  end.

(** [/^r$/.test(s)] for a string: the whole of [s] is matched. *)
Definition test_string (r : regex) (s : string) : bool :=
  existsb is_nil (match_prefix r (list_ascii_of_string s)).

(** [/^r$/.test(v)]: [String(v)] is tested; [None] when the conversion
    throws. *)
Definition test_anchored (r : regex) (v : jsval) : option bool :=
  option_map (test_string r) (ToString v).

(** [/^91\d{10}$/] *)
Definition whatsapp_re : regex :=
  Cat (Lit "9"%char) (Cat (Lit "1"%char) (Rep 10 Digit)).

End JS.

(** ** Handler programs

    A handler is a tree of the calls it makes; every call is answered by the
    environment.  A [throw] ends the surrounding [try] block: computations
    carry an [outcome]. *)

Module Prog.

Inductive outcome (A : Type) : Type :=
| Normal (a : A)
| Thrown (msg : string).
Arguments Normal {A} a.
Arguments Thrown {A} msg.

Inductive prog (E : Type -> Type) (R : Type) : Type :=
| Ret (r : R)
| Vis {X : Type} (e : E X) (k : X -> prog E R).
Arguments Ret {E R} r.
Arguments Vis {E R X} e k.

Fixpoint bind_prog {E A B} (m : prog E A) (f : A -> prog E B) : prog E B :=
  match m with
  | Ret a => f a
  | Vis e k => Vis e (fun x => bind_prog (k x) f)
  end.

(** Computations that may throw. *)
Definition M (E : Type -> Type) (A : Type) : Type := prog E (outcome A).

Definition ret {E A} (a : A) : M E A := Ret (Normal a).
Definition throw {E A} (msg : string) : M E A := Ret (Thrown msg).

Definition bind {E A B} (m : M E A) (f : A -> M E B) : M E B :=
  bind_prog m (fun o =>
    match o with
    | Normal a => f a
    | Thrown msg => Ret (Thrown msg)
    end).

(** [try { m } catch (error) { h error }] *)
Definition try_catch {E A} (m : M E A) (h : string -> M E A) : M E A :=
  bind_prog m (fun o =>
    match o with
    | Normal a => Ret (Normal a)
    | Thrown msg => h msg
    end).

(** [await e] for a remote call: a rejected promise throws. *)
Definition await {E X} (e : E (outcome X)) : M E X := Vis e (fun o => Ret o).

(** A synchronous call that cannot fail. *)
Definition perform {E X} (e : E X) : M E X := Vis e (fun x => Ret (Normal x)).

(** Running a program against an environment [handle] over states [W]. *)
Fixpoint run {E R W} (handle : forall X, E X -> W -> X * W)
         (p : prog E R) (w : W) : R * W :=
  match p with
  | Ret r => (r, w)
  | Vis e k => let '(x, w') := handle _ e w in run handle (k x) w'
  end.

End Prog.

Import Prog.

Declare Scope prog_scope.
Delimit Scope prog_scope with prog.
Notation "x <- m ;; k" := (bind m (fun x => k))
  (at level 61, m at next level, right associativity) : prog_scope.
Notation "m ;;; k" := (bind m (fun _ => k))
  (at level 61, right associativity) : prog_scope.

(** ** Glue shared by the servers *)

Module Express.
Import JS.

(** The handler-level [try { ... } catch (error) { ... }]. *)
Definition handler_try {E A} (m : M E A) (h : string -> prog E A) : prog E A :=
  bind_prog m (fun o =>
    match o with
    | Normal a => Ret a
    | Thrown msg => h msg
    end).

(** [what.trim()]: a method of strings only.  The message is that of the
    TypeError thrown for the variable [what]. *)
Definition call_trim {E} (what : string) (v : jsval) : M E string :=
  match v with
  | VStr s => ret (trim s)
  | VUndefined =>
      throw "Cannot read properties of undefined (reading 'trim')"
  | VNull => throw "Cannot read properties of null (reading 'trim')"
  | _ => throw (what ++ ".trim is not a function")
  end.

(** The message of the TypeError of a failed conversion to a string. *)
Definition cannot_convert : string :=
  "Cannot convert object to primitive value".

(** [re.test(v)] and [parseInt(v)] inside a handler: a failed conversion of
    [v] throws. *)
Definition call_test {E} (r : regex) (v : jsval) : M E bool :=
  match test_anchored r v with
  | Some b => ret b
  | None => throw cannot_convert
  end.

Definition call_parseInt {E} (v : jsval) : M E jsnum :=
  match parseInt v with
  | Some n => ret n
  | None => throw cannot_convert
  end.

(** A value computed before the calls of a handler, or the TypeError of its
    computation. *)
Definition or_throw {E A} (o : option A) : M E A :=
  match o with
  | Some a => ret a
  | None => throw cannot_convert
  end.

(** [v === 'literal'] *)
Definition strict_eq (v : jsval) (lit : string) : bool :=
  match v with
  | VStr s => String.eqb s lit
  | _ => false
  end.

End Express.

Import Express.

(** ** The document-store server (server.js over MongoDB and Cloudinary) *)

Module Mongo.
Import JS.

Definition oid := N.

(** A stored document of the [Product] model (the schema's paths). *)
Record product : Type := mkProduct {
  _id : oid;
  name : string;
  price : Z;
  seller : string;
  whatsapp : string;
  condition : string;
  description : string;
  imagePath : string;
  imagePublicId : option string;
  dateAdded : Z;            (* milliseconds since the epoch *)
  isActive : bool
}.

(** The object literal [productData] handed to [new Product(...)]. *)
Record productData : Type := mkData {
  d_name : string;
  d_price : jsnum;
  d_seller : string;
  d_whatsapp : string;
  d_condition : jsval;
  d_description : string;
  d_imagePath : string;
  d_imagePublicId : string
}.

(** [new Product(productData)]: the data with its fresh [_id] and the
    schema defaults ([dateAdded: Date.now], [isActive: true]). *)
Record draft : Type := mkDraft {
  draft_id : oid;
  draft_data : productData;
  draft_dateAdded : Z;
  draft_isActive : bool
}.

(** [enum: ['Brand New', 'Like New', 'Excellent', 'Good', 'Fair']] *)
Definition condition_enum : list string :=
  ["Brand New"; "Like New"; "Excellent"; "Good"; "Fair"].

Definition in_enum (s : string) : bool :=
  existsb (String.eqb s) condition_enum.

(** [required: true] on a String path: the value is not empty. *)
Definition required_string (s : string) : bool := negb (String.eqb s "").

(** Casting and validation of a new document against [productSchema].
    A condition that is not a string is either not castable or, once cast,
    outside the enum. *)
Definition schema_validate (d : draft) : option product :=
  let x := draft_data d in
  let nm := trim (d_name x) in
  let sl := trim (d_seller x) in
  let ds := trim (d_description x) in
  match d_price x, d_condition x with
  | Num p, VStr c =>
      if (required_string nm && (1 <=? p) && required_string sl
          && test_string whatsapp_re (d_whatsapp x)
          && in_enum c && required_string ds
          && required_string (d_imagePath x))%bool
      then Some {| _id := draft_id d; name := nm; price := p; seller := sl;
                   whatsapp := d_whatsapp x; condition := c;
                   description := ds; imagePath := d_imagePath x;
                   imagePublicId := Some (d_imagePublicId x);
                   dateAdded := draft_dateAdded d;
                   isActive := draft_isActive d |}
      else None
  | _, _ => None
  end.

(** [req.body] of [PUT /api/products/:id], which goes to
    [findByIdAndUpdate] as it is: the paths of the schema it names, each
    absent or given with a value of the path's type, which Mongoose sets
    ([$set]) and validates; and the update operators ([$inc], [$mul], ...)
    or pipeline it may hold besides, which Mongoose passes on without
    validating them.  What the operators make of a document is the store's
    business: a function, with no result where the store refuses them. *)
Record update : Type := mkUpdate {
  u_name : option string;
  u_price : option Z;
  u_seller : option string;
  u_whatsapp : option string;
  u_condition : option string;
  u_description : option string;
  u_imagePath : option string;
  u_imagePublicId : option string;
  u_dateAdded : option Z;
  u_isActive : option bool;
  u_operators : option (product -> option product)
}.

Definition opt_ok {A} (check : A -> bool) (o : option A) : bool :=
  match o with
  | Some a => check a
  | None => true
  end.

(** [runValidators: true]: the validators of the paths that are set; the
    operators are not validated. *)
Definition update_valid (u : update) : bool :=
  (opt_ok (fun s => required_string (trim s)) (u_name u)
   && opt_ok (fun p => 1 <=? p) (u_price u)
   && opt_ok (fun s => required_string (trim s)) (u_seller u)
   && opt_ok (test_string whatsapp_re) (u_whatsapp u)
   && opt_ok in_enum (u_condition u)
   && opt_ok (fun s => required_string (trim s)) (u_description u)
   && opt_ok required_string (u_imagePath u))%bool.

Definition pick {A} (new : option A) (old : A) : A :=
  match new with
  | Some a => a
  | None => old
  end.

(** The document after [$set] of the given paths. *)
Definition apply_update (u : update) (p : product) : product :=
  {| _id := _id p;
     name := pick (option_map trim (u_name u)) (name p);
     price := pick (u_price u) (price p);
     seller := pick (option_map trim (u_seller u)) (seller p);
     whatsapp := pick (u_whatsapp u) (whatsapp p);
     condition := pick (u_condition u) (condition p);
     description := pick (option_map trim (u_description u)) (description p);
     imagePath := pick (u_imagePath u) (imagePath p);
     imagePublicId :=
       match u_imagePublicId u with
       | Some s => Some s
       | None => imagePublicId p
       end;
     dateAdded := pick (u_dateAdded u) (dateAdded p);
     isActive := pick (u_isActive u) (isActive p) |}.

(** The document the store holds after the update: the named paths are
    set and the operators of the body, if it has any, applied.  The store
    refuses an update that would change [_id]. *)
Definition update_result (u : update) (p : product) : option product :=
  match u_operators u with
  | None => Some (apply_update u p)
  | Some f =>
      match f (apply_update u p) with
      | Some p' => if N.eqb (_id p') (_id p) then Some p' else None
      | None => None
      end
  end.

(** [req.params.id] as Mongoose reads it: the hexadecimal rendering of an
    ObjectId, or a string that is none (the query is then rejected with a
    CastError). *)
Inductive idparam : Type :=
| IdHex (i : oid)
| IdMalformed (s : string).

(** The filter object built by [GET /api/products]. *)
Record price_range : Type := mkRange {
  gte : option jsnum;       (* $gte *)
  lte : option jsnum        (* $lte *)
}.

Record mquery : Type := mkQuery {
  q_isActive : option bool;
  q_or_regex : option jsval;       (* $or of $regex on name, description, seller *)
  q_price : option price_range;
  q_condition : option jsval
}.

Inductive sortkey : Type := ByDateAdded | ByPrice | ByName.
Inductive direction : Type := Asc (* 1 *) | Desc (* -1 *).
Definition sortspec : Type := (sortkey * direction)%type.

(** Result of [cloudinary.uploader.upload]. *)
Record uploadResult : Type := mkUpload {
  secure_url : string;
  public_id : string
}.

(** The calls of the handlers. *)
Inductive mongoE : Type -> Type :=
| Date_now : mongoE Z
| NewProduct (d : productData) : mongoE draft
| Save (d : draft) : mongoE (outcome product)
| Find (q : mquery) (s : sortspec) : mongoE (outcome (list product))
| FindById (i : idparam) : mongoE (outcome (option product))
| FindByIdAndUpdate (i : idparam) (u : update)
    : mongoE (outcome (option product))
| FindByIdAndDelete (i : idparam) : mongoE (outcome unit)
| CountDocuments (q : mquery) : mongoE (outcome nat)
| Distinct (path : string) : mongoE (outcome (list string))
| AggregateAvgPrice (q : mquery) : mongoE (outcome (list Q))
| Upload (image : jsval) (publicId : string) : mongoE (outcome uploadResult)
| Destroy (publicId : string) : mongoE (outcome unit).

(** *** The remote services

    The collection behind the [Product] model, the images held by
    Cloudinary, the ObjectId supply, the clock, the remote calls that will
    fail (one flag per call, in order; none left means the call goes
    through), and the journal of the operations sent to the services
    (newest first). *)
Inductive op : Type :=
| OpQuery
| OpInsert (i : oid)
| OpUpdate (i : oid)
| OpRemove (i : oid)
| OpUpload (publicId : string)
| OpDestroy (publicId : string).

Record world : Type := mkWorld {
  coll : list product;
  images : list string;
  next_oid : oid;
  now : Z;
  faults : list bool;
  journal : list op
}.

Definition set_coll (c : list product) (w : world) : world :=
  mkWorld c (images w) (next_oid w) (now w) (faults w) (journal w).
Definition set_images (i : list string) (w : world) : world :=
  mkWorld (coll w) i (next_oid w) (now w) (faults w) (journal w).

(** A call that goes over the network: it is journalled, and fails when the
    next fault flag says so. *)
Definition remote {X} (o : op) (w : world)
           (answer : world -> outcome X * world) : outcome X * world :=
  let w1 := mkWorld (coll w) (images w) (next_oid w) (now w)
                    (tl (faults w)) (o :: journal w) in
  match faults w with
  | true :: _ => (Thrown "network error", w1)
  | _ => answer w1
  end.

Definition has_id (i : oid) (p : product) : bool := N.eqb (_id p) i.

Definition num_leb (a : jsnum) (b : Z) : bool :=
  match a with
  | Num x => x <=? b
  | NaN => false
  end.

Definition num_geb (a : jsnum) (b : Z) : bool :=
  match a with
  | Num x => b <=? x
  | NaN => false
  end.

(** Order of two documents under a sort specification. *)
Definition sort_leb (s : sortspec) (a b : product) : bool :=
  match s with
  | (ByDateAdded, Asc) => dateAdded a <=? dateAdded b
  | (ByDateAdded, Desc) => dateAdded b <=? dateAdded a
  | (ByPrice, Asc) => price a <=? price b
  | (ByPrice, Desc) => price b <=? price a
  | (ByName, Asc) => String.leb (name a) (name b)
  | (ByName, Desc) => String.leb (name b) (name a)
  end.

Fixpoint insert_doc (s : sortspec) (x : product) (l : list product)
  : list product :=
  match l with
  | [] => [x]
  | y :: l' => if sort_leb s x y then x :: l else y :: insert_doc s x l'
  end.

(** [.sort(sortOption)] as the store applies it. *)
Fixpoint sort_docs (s : sortspec) (l : list product) : list product :=
  match l with
  | [] => []
  | x :: l' => insert_doc s x (sort_docs s l')
  end.

Fixpoint replace_doc (i : oid) (p' : product) (l : list product)
  : list product :=
  match l with
  | [] => []
  | p :: l' => if has_id i p then p' :: l' else p :: replace_doc i p' l'
  end.

Definition sum_prices (l : list product) : Z :=
  fold_right (fun p acc => price p + acc) 0 l.

(** [$avg] of the prices, as an exact rational (the store answers with the
    nearest double). *)
Definition avg_price (l : list product) : list Q :=
  match l with
  | [] => []
  | _ :: _ => [Qmake (sum_prices l) (Pos.of_nat (List.length l))]
  end.

Section Engine.

(** The store's own evaluation of a [$regex] with option [i] against a field,
    its evaluation of a [condition] that is an array or an object (Mongoose
    casts an array to [$in] and passes the operators of an object on), and
    whether it accepts a filter at all (casting of the bounds, syntax of the
    pattern): all three belong to MongoDB and Mongoose. *)
Variable regex_i : jsval -> string -> bool.
Variable cond_op : jsval -> string -> bool.
Variable query_accepted : mquery -> bool.

(** [{condition: c}] against the field: equality with a string (a number
    or boolean is cast to one); an array or object is the store's to
    evaluate. *)
Definition condition_matches (c : jsval) (field : string) : bool :=
  match c with
  | VObj _ => cond_op c field
  | _ =>
      match ToString c with
      | Some s => String.eqb s field
      | None => false
      end
  end.

Definition doc_matches (q : mquery) (p : product) : bool :=
  (opt_ok (Bool.eqb (isActive p)) (q_isActive q)
   && opt_ok (fun pat => regex_i pat (name p) || regex_i pat (description p)
                         || regex_i pat (seller p)) (q_or_regex q)
   && opt_ok (fun r => opt_ok (fun b => num_leb b (price p)) (gte r)
                       && opt_ok (fun b => num_geb b (price p)) (lte r))
             (q_price q)
   && opt_ok (fun c => condition_matches c (condition p))
             (q_condition q))%bool.

Definition handle (X : Type) (e : mongoE X) (w : world) : X * world :=
  match e in mongoE X return X * world with
  | Date_now => (now w, w)
  | NewProduct d =>
      (mkDraft (next_oid w) d (now w) true,
       mkWorld (coll w) (images w) (N.succ (next_oid w)) (now w)
               (faults w) (journal w))
  | Save d =>
      match schema_validate d with
      | None => (Thrown "ValidationError", w)
      | Some p =>
          remote (OpInsert (_id p)) w (fun w' =>
            if existsb (has_id (_id p)) (coll w')
            then (Thrown "E11000 duplicate key", w')
            else (Normal p, set_coll (coll w' ++ [p])%list w'))
      end
  | Find q s =>
      if query_accepted q
      then remote OpQuery w (fun w' =>
             (Normal (sort_docs s (filter (doc_matches q) (coll w'))), w'))
      else (Thrown "CastError", w)
  | FindById (IdMalformed _) => (Thrown "CastError", w)
  | FindById (IdHex i) =>
      remote OpQuery w (fun w' => (Normal (find (has_id i) (coll w')), w'))
  | FindByIdAndUpdate (IdMalformed _) _ => (Thrown "CastError", w)
  | FindByIdAndUpdate (IdHex i) u =>
      if update_valid u
      then remote (OpUpdate i) w (fun w' =>
             match find (has_id i) (coll w') with
             | Some p =>
                 match update_result u p with
                 | Some p' =>
                     (Normal (Some p'),
                      set_coll (replace_doc i p' (coll w')) w')
                 | None => (Thrown "MongoServerError", w')
                 end
             | None => (Normal None, w')
             end)
      else (Thrown "ValidationError", w)
  | FindByIdAndDelete (IdMalformed _) => (Thrown "CastError", w)
  | FindByIdAndDelete (IdHex i) =>
      remote (OpRemove i) w (fun w' =>
        (Normal tt,
         set_coll (filter (fun p => negb (has_id i p)) (coll w')) w'))
  | CountDocuments q =>
      if query_accepted q
      then remote OpQuery w (fun w' =>
             (Normal (List.length (filter (doc_matches q) (coll w'))), w'))
      else (Thrown "CastError", w)
  | Distinct _ =>
      remote OpQuery w (fun w' =>
        (Normal (nodup string_dec (map seller (coll w'))), w'))
  | AggregateAvgPrice q =>
      if query_accepted q
      then remote OpQuery w (fun w' =>
             (Normal (avg_price (filter (doc_matches q) (coll w'))), w'))
      else (Thrown "CastError", w)
  | Upload _ pid =>
      remote (OpUpload pid) w (fun w' =>
        (Normal (mkUpload ("https://res.cloudinary.com/" ++ pid) pid),
         set_images (pid :: images w') w'))
  | Destroy pid =>
      remote (OpDestroy pid) w (fun w' =>
        (Normal tt,
         set_images (filter (fun x => negb (String.eqb x pid)) (images w')) w'))
  end.

(** Serving a request: the handler's program run against the services. *)
Definition serve {R} (p : prog mongoE R) (w : world) : R * world :=
  run handle p w.

End Engine.

(** *** Requests and responses *)

(** [req.body] of the two create routes. *)
Record body_fields : Type := mkBody {
  b_name : jsval;
  b_price : jsval;
  b_seller : jsval;
  b_whatsapp : jsval;
  b_condition : jsval;
  b_description : jsval;
  b_imageBase64 : jsval
}.

(** [req.file] as the upload middleware leaves it: the address and the
    public id of the image it has stored at Cloudinary. *)
Record file : Type := mkFile {
  path : string;
  filename : string
}.

(** [req.query] of [GET /api/products]. *)
Record query_params : Type := mkParams {
  qp_search : jsval;
  qp_minPrice : jsval;
  qp_maxPrice : jsval;
  qp_condition : jsval;
  qp_sort : jsval
}.

Inductive json : Type :=
| JError (error : string)
| JMessage (message : string)
| JProduct (p : product)
| JProducts (l : list product)
| JStats (totalProducts : nat) (totalSellers : jsval) (averagePrice : Q).

Record response : Type := mkRes {
  status : Z;
  body : json
}.

(** [res.json(b)] and [res.status(s).json(b)]. *)
Definition res_json (b : json) : response := mkRes 200 b.
Definition res_status_json (s : Z) (b : json) : response := mkRes s b.

Local Open Scope prog_scope.

(** *** GET /api/products *)

(** [if (v) bound = parseInt(v)]: no bound, or the number parsed; nothing
    when [parseInt] throws. *)
Definition price_bound (v : jsval) : option (option jsnum) :=
  if truthy v then option_map Some (parseInt v) else Some None.

(** The filter built from the parameters; nothing when a [parseInt]
    throws. *)
Definition build_query (q : query_params) : option mquery :=
  match price_bound (qp_minPrice q), price_bound (qp_maxPrice q) with
  | Some lo, Some hi =>
      Some {| q_isActive := Some true;
              q_or_regex :=
                if truthy (qp_search q) then Some (qp_search q) else None;
              q_price :=
                if (truthy (qp_minPrice q) || truthy (qp_maxPrice q))%bool
                then Some {| gte := lo; lte := hi |}
                else None;
              q_condition :=
                if truthy (qp_condition q) then Some (qp_condition q)
                else None |}
  | _, _ => None
  end.

Definition sort_option (sort : jsval) : sortspec :=
  let sortOption := (ByDateAdded, Desc) in
  let sortOption :=
    if strict_eq sort "price_low" then (ByPrice, Asc) else sortOption in
  let sortOption :=
    if strict_eq sort "price_high" then (ByPrice, Desc) else sortOption in
  let sortOption :=
    if strict_eq sort "name" then (ByName, Asc) else sortOption in
  sortOption.

Definition get_products (q : query_params) : prog mongoE response :=
  handler_try
    (query <- or_throw (build_query q) ;;
     products <- await (Find query (sort_option (qp_sort q))) ;;
     ret (res_json (JProducts products)))
    (fun _ => Ret (res_status_json 500 (JError "Failed to fetch products"))).

(** *** GET /api/products/:id *)

Definition get_product (id : idparam) : prog mongoE response :=
  handler_try
    (product <- await (FindById id) ;;
     match product with
     | None => ret (res_status_json 404 (JError "Product not found"))
     | Some p => ret (res_json (JProduct p))
     end)
    (fun _ => Ret (res_status_json 500 (JError "Failed to fetch product"))).

(** *** POST /api/products (multipart)

    [post_product] is the handler of the route, [upload_single] the
    middleware that runs before it, [post_product_route] the two
    together. *)

Definition fields_missing (b : body_fields) : bool :=
  (negb (truthy (b_name b)) || negb (truthy (b_price b))
   || negb (truthy (b_seller b)) || negb (truthy (b_whatsapp b))
   || negb (truthy (b_condition b)) || negb (truthy (b_description b)))%bool.

Definition post_product (b : body_fields) (f : option file)
  : prog mongoE response :=
  handler_try
    (if fields_missing b
     then ret (res_status_json 400 (JError "All fields are required"))
     else
       match f with
       | None =>
           ret (res_status_json 400 (JError "Product image is required"))
       | Some file =>
           matched <- call_test whatsapp_re (b_whatsapp b) ;;
           if negb matched
           then ret (res_status_json 400
                       (JError "Invalid WhatsApp number format"))
           else
             nm <- call_trim "name" (b_name b) ;;
             pr <- call_parseInt (b_price b) ;;
             sl <- call_trim "seller" (b_seller b) ;;
             wa <- call_trim "whatsapp" (b_whatsapp b) ;;
             ds <- call_trim "description" (b_description b) ;;
             let productData :=
               {| d_name := nm;
                  d_price := pr;
                  d_seller := sl;
                  d_whatsapp := wa;
                  d_condition := b_condition b;
                  d_description := ds;
                  d_imagePath := path file;
                  d_imagePublicId := filename file |} in
             product <- perform (NewProduct productData) ;;
             saved <- await (Save product) ;;
             ret (res_status_json 201 (JProduct saved))
       end)
    (fun _ =>
       let failed := res_status_json 500 (JError "Failed to save product") in
       match f with
       | Some file =>
           if truthy (VStr (filename file))
           then Vis (Destroy (filename file)) (fun _ => Ret failed)
           else Ret failed
       | None => Ret failed
       end).

(** [upload.single('image')] over the Cloudinary storage: a file part named
    [image] is sent to Cloudinary, into the folder [juit-olx-products] under
    the public id ['product_' + Date.now()], before the handler runs, and
    [req.file] holds what Cloudinary answers; without such a part
    [req.file] is undefined. *)
Definition upload_single (image : option jsval) : M mongoE (option file) :=
  match image with
  | None => ret None
  | Some content =>
      t <- perform Date_now ;;
      uploaded <- await (Upload content
                           ("juit-olx-products/product_" ++ string_of_Z t)) ;;
      ret (Some {| path := secure_url uploaded;
                   filename := public_id uploaded |})
  end.

(** The public id of an image uploaded now, [req.file] once Cloudinary has
    answered, and the services then. *)
Definition uploaded_id (w : world) : string :=
  "juit-olx-products/product_" ++ string_of_Z (now w).

Definition uploaded_file (w : world) : file :=
  {| path := "https://res.cloudinary.com/" ++ uploaded_id w;
     filename := uploaded_id w |}.

Definition after_upload (w : world) : world :=
  mkWorld (coll w) (uploaded_id w :: images w) (next_oid w) (now w)
          (tl (faults w)) (OpUpload (uploaded_id w) :: journal w).

(** The error-handling middleware, to which an error of the upload goes. *)
Definition error_middleware : response :=
  res_status_json 500 (JError "Internal server error").

Definition post_product_route (b : body_fields) (image : option jsval)
  : prog mongoE response :=
  bind_prog (upload_single image) (fun o =>
    match o with
    | Normal f => post_product b f
    | Thrown _ => Ret error_middleware
    end).

(** *** POST /api/products/base64 *)

Definition post_product_base64 (b : body_fields) : prog mongoE response :=
  handler_try
    (if (fields_missing b || negb (truthy (b_imageBase64 b)))%bool
     then ret (res_status_json 400
                 (JError "All fields including image are required"))
     else
       matched <- call_test whatsapp_re (b_whatsapp b) ;;
       if negb matched
       then ret (res_status_json 400
                   (JError "Invalid WhatsApp number format"))
       else
         t <- perform Date_now ;;
         uploadResult <- await (Upload (b_imageBase64 b)
                                  ("juit-olx-products/product_" ++ string_of_Z t)) ;;
         nm <- call_trim "name" (b_name b) ;;
         pr <- call_parseInt (b_price b) ;;
         sl <- call_trim "seller" (b_seller b) ;;
         wa <- call_trim "whatsapp" (b_whatsapp b) ;;
         ds <- call_trim "description" (b_description b) ;;
         let productData :=
           {| d_name := nm;
              d_price := pr;
              d_seller := sl;
              d_whatsapp := wa;
              d_condition := b_condition b;
              d_description := ds;
              d_imagePath := secure_url uploadResult;
              d_imagePublicId := public_id uploadResult |} in
         product <- perform (NewProduct productData) ;;
         saved <- await (Save product) ;;
         ret (res_status_json 201 (JProduct saved)))
    (fun _ => Ret (res_status_json 500 (JError "Failed to save product"))).

(** *** PUT /api/products/:id *)

Definition put_product (id : idparam) (u : update) : prog mongoE response :=
  handler_try
    (product <- await (FindByIdAndUpdate id u) ;;
     match product with
     | None => ret (res_status_json 404 (JError "Product not found"))
     | Some p => ret (res_json (JProduct p))
     end)
    (fun _ => Ret (res_status_json 500 (JError "Failed to update product"))).

(** *** DELETE /api/products/:id *)

Definition delete_product (id : idparam) : prog mongoE response :=
  handler_try
    (product <- await (FindById id) ;;
     match product with
     | None => ret (res_status_json 404 (JError "Product not found"))
     | Some p =>
         match imagePublicId p with
         | Some pid =>
             if truthy (VStr pid) then await (Destroy pid) else ret tt
         | None => ret tt
         end ;;;
         await (FindByIdAndDelete id) ;;;
         ret (res_json (JMessage "Product deleted successfully"))
     end)
    (fun _ => Ret (res_status_json 500 (JError "Failed to delete product"))).

(** *** GET /api/stats *)

(** [q.length] for a query object [q] that has not been awaited: a Mongoose
    query has no such property. *)
Definition Query_length {X} (q : mongoE X) : jsval := VUndefined.

Definition active_only : mquery := mkQuery (Some true) None None None.

(** [avgPrice[0]?.avgPrice || 0] *)
Definition first_avg_or_0 (avgPrice : list Q) : Q :=
  match avgPrice with
  | a :: _ => if Qeq_bool a 0 then 0%Q else a
  | [] => 0%Q
  end.

Definition get_stats : prog mongoE response :=
  handler_try
    (totalProducts <- await (CountDocuments active_only) ;;
     (* [await Product.distinct('seller').length]: the member access binds
        tighter than [await]; awaiting a value that is no promise yields it *)
     let totalSellers := Query_length (Distinct "seller") in
     avgPrice <- await (AggregateAvgPrice active_only) ;;
     ret (res_json (JStats totalProducts totalSellers
                           (first_avg_or_0 avgPrice))))
    (fun _ => Ret (res_status_json 500 (JError "Failed to fetch stats"))).

(** *** The routes, and histories of the server *)

Inductive request : Type :=
| GetProducts (q : query_params)
| GetProduct (id : idparam)
| PostProduct (b : body_fields) (image : option jsval)
| PostProductBase64 (b : body_fields)
| PutProduct (id : idparam) (u : update)
| DeleteProduct (id : idparam)
| GetStats.

Definition route (r : request) : prog mongoE response :=
  match r with
  | GetProducts q => get_products q
  | GetProduct id => get_product id
  | PostProduct b image => post_product_route b image
  | PostProductBase64 b => post_product_base64 b
  | PutProduct id u => put_product id u
  | DeleteProduct id => delete_product id
  | GetStats => get_stats
  end.

(** What happens to the server: a request is served, or time passes. *)
Inductive event : Type :=
| Serve (r : request)
| Elapse (ms : Z).

Definition after_event (regex_i cond_op : jsval -> string -> bool)
           (query_accepted : mquery -> bool) (e : event) (w : world) : world :=
  match e with
  | Serve r => snd (serve regex_i cond_op query_accepted (route r) w)
  | Elapse ms =>
      mkWorld (coll w) (images w) (next_oid w) (now w + ms) (faults w)
              (journal w)
  end.

Definition after_events (regex_i cond_op : jsval -> string -> bool)
           (query_accepted : mquery -> bool) (es : list event) (w : world)
  : world :=
  fold_left (fun w e => after_event regex_i cond_op query_accepted e w) es w.

(** The store addresses documents by [_id]: no two share one, and the ids in
    use are behind the supply. *)
Definition ids_fresh (w : world) : Prop :=
  NoDup (map _id (coll w)) /\
  Forall (fun p => (_id p < next_oid w)%N) (coll w).

Definition lookup (i : oid) (w : world) : option product :=
  find (has_id i) (coll w).

(** The ways serving a request can change the collection: not at all, by a
    document inserted under the next id of the supply, by the update of the
    addressed document, or by the removal of the documents of one id. *)
Inductive coll_change (r : request) (w w' : world) : Prop :=
| unchanged :
    coll w' = coll w -> coll_change r w w'
| inserted (p : product) :
    coll w' = (coll w ++ [p])%list -> _id p = next_oid w ->
    (next_oid w < next_oid w')%N ->
    coll_change r w w'
| updated (i : oid) (u : update) (p p' : product) :
    r = PutProduct (IdHex i) u -> find (has_id i) (coll w) = Some p ->
    update_result u p = Some p' ->
    coll w' = replace_doc i p' (coll w) ->
    coll_change r w w'
| removed (i : oid) :
    coll w' = filter (fun p => negb (has_id i p)) (coll w) ->
    coll_change r w w'.


(** Requests and events without update operators. *)
Definition names_fields_only (e : event) : Prop :=
  match e with
  | Serve (PutProduct _ u) => u_operators u = None
  | _ => True
  end.


(** The constraints [productSchema] puts on a stored document. *)
Definition valid_doc (p : product) : bool :=
  (required_string (name p) && (1 <=? price p) && required_string (seller p)
   && test_string whatsapp_re (whatsapp p)
   && in_enum (condition p) && required_string (description p)
   && required_string (imagePath p))%bool.

(** The routes that only read. *)
Definition reads_only (r : request) : bool :=
  match r with
  | GetProducts _ | GetProduct _ | GetStats => true
  | _ => false
  end.

(** Whether the [n]-th of the remote calls to come will fail. *)
Definition fails (n : nat) (w : world) : bool := nth n (faults w) false.

Definition is_destroy (o : op) : bool :=
  match o with
  | OpDestroy _ => true
  | _ => false
  end.


(** [GET /api/products] without any query parameter. *)
Definition no_params : query_params :=
  mkParams VUndefined VUndefined VUndefined VUndefined VUndefined.

End Mongo.

(** ** The file-backed server (sever.js over the GitHub contents API) *)

Module Github.
Import JS.

(** An entry of the array kept in [products.json]. *)
Record product : Type := mkProduct {
  id : Z;
  name : string;
  price : jsnum;
  seller : string;
  whatsapp : string;
  condition : jsval;
  description : string;
  imagePath : jsval;
  dateAdded : Z             (* the instant rendered by [toISOString] *)
}.

(** The version token of the file: the store gives every accepted write of
    the file a new one. *)
Definition token := N.

(** Answer to a read of [products.json]: the array decoded from the file's
    content, and the file's [sha]. *)
Record file : Type := mkFile {
  content : list product;
  sha : token
}.

(** The calls of the handlers: the clock and [githubRequest] on
    [products.json], without options (a read) or with [method: 'PUT']. *)
Inductive ghE : Type -> Type :=
| Date_now : ghE Z
| GetContents : ghE (outcome file)
| PutContents (message : string) (c : list product) (s : option token)
    : ghE (outcome unit).


(** *** The remote repository

    [products.json] if it exists, the clock, the calls that will fail for
    reasons of their own, and the journal of the calls made (newest first). *)
Inductive op : Type :=
| OpGet
| OpPut (c : list product) (s : option token).

Record world : Type := mkWorld {
  repo : option file;
  now : Z;
  faults : list bool;
  journal : list op
}.

(** The message [githubRequest] throws for a response that is not ok:
    [`GitHub API error: ${response.status} - ${errorText}`].  The text of
    the response is the store's; it is taken here to be the reason phrase of
    the status. *)
Definition api_error (status errorText : string) : string :=
  "GitHub API error: " ++ status ++ " - " ++ errorText.

Definition remote {X} (o : op) (w : world)
           (answer : world -> outcome X * world) : outcome X * world :=
  let w1 := mkWorld (repo w) (now w) (tl (faults w)) (o :: journal w) in
  match faults w with
  | true :: _ => (Thrown "fetch failed", w1)
  | _ => answer w1
  end.

Definition set_repo (f : file) (w : world) : world :=
  mkWorld (Some f) (now w) (faults w) (journal w).

(** A write is conditional on the token: it is accepted when the token sent
    is that of the file as it stands (none for a file that does not exist),
    and rejected otherwise. *)
Definition handle (X : Type) (e : ghE X) (w : world) : X * world :=
  match e in ghE X return X * world with
  | Date_now => (now w, w)
  | GetContents =>
      remote OpGet w (fun w' =>
        match repo w' with
        | Some f => (Normal f, w')
        | None => (Thrown (api_error "404" "Not Found"), w')
        end)
  | PutContents _ c s =>
      remote (OpPut c s) w (fun w' =>
        match repo w', s with
        | None, None => (Normal tt, set_repo (mkFile c 1%N) w')
        | Some f, Some t =>
            if N.eqb t (sha f)
            then (Normal tt, set_repo (mkFile c (N.succ (sha f))) w')
            else (Thrown (api_error "409" "Conflict"), w')
        | Some _, None =>
            (Thrown (api_error "422" "Unprocessable Entity"), w')
        | None, Some _ =>
            (Thrown (api_error "422" "Unprocessable Entity"), w')
        end)
  end.

Definition serve {R} (p : prog ghE R) (w : world) : R * world :=
  run handle p w.

(** *** Requests and responses *)

(** [req.body] of [POST /api/products]. *)
Record body_fields : Type := mkBody {
  b_name : jsval;
  b_price : jsval;
  b_seller : jsval;
  b_whatsapp : jsval;
  b_condition : jsval;
  b_description : jsval;
  b_imageUrl : jsval
}.

(** The bodies sent: [{success, products, source}],
    [{success, message, error?}], [{success, message, product}] and
    [{success, message, deletedProduct}]. *)
Inductive json : Type :=
| JList (success : bool) (products : list product) (source : string)
| JFail (success : bool) (message : string) (error : option string)
| JAdded (success : bool) (message : string) (product : product)
| JDeleted (success : bool) (message : string) (deletedProduct : product).

Record response : Type := mkRes {
  status : Z;
  body : json
}.

Definition res_json (b : json) : response := mkRes 200 b.
Definition res_status_json (s : Z) (b : json) : response := mkRes s b.

Local Open Scope prog_scope.

(** *** GET /api/products *)

Definition demoProducts (t1 t2 t3 : Z) : list product :=
  [ {| id := 1;
       name := "Gaming Laptop RTX 3060";
       price := Num 85000;
       seller := "Alex Kumar";
       whatsapp := "919876543210";
       condition := VStr "Like New";
       description := "High-performance gaming laptop with RTX 3060 graphics card, perfect for gaming and development work.";
       imagePath := VStr "https://images.unsplash.com/photo-1593642632823-8f785ba67e45?w=500&h=300&fit=crop";
       dateAdded := t1 |};
    {| id := 2;
       name := "Study Table with Storage";
       price := Num 4500;
       seller := "Priya Singh";
       whatsapp := "919876543211";
       condition := VStr "Good";
       description := "Wooden study desk with multiple drawers, perfect for dorm rooms and study spaces.";
       imagePath := VStr "https://images.unsplash.com/photo-1586023492125-27b2c045efd7?w=500&h=300&fit=crop";
       dateAdded := t2 |};
    {| id := 3;
       name := "Mountain Bike Trek";
       price := Num 25000;
       seller := "Rahul Sharma";
       whatsapp := "919876543212";
       condition := VStr "Excellent";
       description := "Trek mountain bike in excellent condition, perfect for campus rides and weekend adventures.";
       imagePath := VStr "https://images.unsplash.com/photo-1544191696-15693072ce6b?w=500&h=300&fit=crop";
       dateAdded := t3 |} ].

Definition get_products : prog ghE response :=
  handler_try
    (try_catch
       (file <- await GetContents ;;
        ret (res_json (JList true (content file) "github")))
       (fun _ =>
          t1 <- perform Date_now ;;
          t2 <- perform Date_now ;;
          t3 <- perform Date_now ;;
          ret (res_json (JList true (demoProducts t1 t2 t3) "demo"))))
    (fun error =>
       Ret (res_status_json 500
              (JFail false "Failed to fetch products" (Some error)))).

(** *** POST /api/products *)

Definition fields_missing (b : body_fields) : bool :=
  (negb (truthy (b_name b)) || negb (truthy (b_price b))
   || negb (truthy (b_seller b)) || negb (truthy (b_whatsapp b))
   || negb (truthy (b_condition b)) || negb (truthy (b_description b))
   || negb (truthy (b_imageUrl b)))%bool.

Definition post_product (b : body_fields) : prog ghE response :=
  handler_try
    (if fields_missing b
     then ret (res_status_json 400
                 (JFail false "All fields are required" None))
     else
       matched <- call_test whatsapp_re (b_whatsapp b) ;;
       if negb matched
       then ret (res_status_json 400
                   (JFail false
                      "WhatsApp number should start with 91 followed by 10 digits"
                      None))
       else
         (* let currentProducts = []; let sha = null; try { ... } catch { } *)
         got <- try_catch
                  (file <- await GetContents ;;
                   ret (content file, Some (sha file)))
                  (fun _ => ret ([], None)) ;;
         let '(currentProducts, sha) := got in
         t <- perform Date_now ;;
         nm <- call_trim "name" (b_name b) ;;
         pr <- call_parseInt (b_price b) ;;
         sl <- call_trim "seller" (b_seller b) ;;
         wa <- call_trim "whatsapp" (b_whatsapp b) ;;
         ds <- call_trim "description" (b_description b) ;;
         date <- perform Date_now ;;
         let newProduct :=
           {| id := t;
              name := nm;
              price := pr;
              seller := sl;
              whatsapp := wa;
              condition := b_condition b;
              description := ds;
              imagePath := b_imageUrl b;
              dateAdded := date |} in
         (* currentProducts.unshift(newProduct) *)
         let currentProducts := newProduct :: currentProducts in
         await (PutContents ("Add new product: " ++ name newProduct)
                            currentProducts sha) ;;;
         ret (res_json (JAdded true "Product added successfully" newProduct)))
    (fun error =>
       Ret (res_status_json 500
              (JFail false "Failed to add product" (Some error)))).

(** *** DELETE /api/products/:id *)

(** [p.id === productId] *)
Definition id_is (productId : jsnum) (p : product) : bool :=
  match productId with
  | Num z => id p =? z
  | NaN => false
  end.

(** [findIndex]: position of the first element that satisfies [f]
    ([None] for -1). *)
Fixpoint findIndex {A} (f : A -> bool) (l : list A) : option nat :=
  match l with
  | [] => None
  | x :: l' => if f x then Some O else option_map S (findIndex f l')
  end.

(** [l.splice(i, 1)]: the list without its element at [i]. *)
Fixpoint splice1 {A} (i : nat) (l : list A) : list A :=
  match l, i with
  | [], _ => []
  | _ :: l', O => l'
  | x :: l', S i' => x :: splice1 i' l'
  end.

Definition delete_product (param : string) : prog ghE response :=
  handler_try
    ((* [req.params.id] is a string *)
     let productId := parseInt_string param in
     file <- await GetContents ;;
     let currentProducts := content file in
     match findIndex (id_is productId) currentProducts with
     | None =>
         ret (res_status_json 404 (JFail false "Product not found" None))
     | Some productIndex =>
         match nth_error currentProducts productIndex with
         | Some deletedProduct =>
             let currentProducts := splice1 productIndex currentProducts in
             await (PutContents ("Delete product: " ++ name deletedProduct)
                                currentProducts (Some (sha file))) ;;;
             ret (res_json (JDeleted true "Product deleted successfully"
                                     deletedProduct))
         | None =>
             throw "Cannot read properties of undefined (reading 'name')"
         end
     end)
    (fun error =>
       Ret (res_status_json 500
              (JFail false "Failed to delete product" (Some error)))).

(** *** The routes, and requests in flight together *)

Inductive request : Type :=
| GetProducts
| PostProduct (b : body_fields)
| DeleteProduct (param : string).

Definition route (r : request) : prog ghE response :=
  match r with
  | GetProducts => get_products
  | PostProduct b => post_product b
  | DeleteProduct param => delete_product param
  end.











Definition content_read (w : world) : list product :=
  match faults w, repo w with
  | true :: _, _ => []
  | _, Some f => content f
  | _, None => []
  end.

(** Whether the [n]-th of the remote calls to come will fail. *)
Definition fails (n : nat) (w : world) : bool := nth n (faults w) false.

End Github.

(** ** The search route of the file-backed server *)

Module Search.
Import JS Github.

(** [s.toLowerCase()], for the code units below 256: A to Z, and the
    capital letters of Latin-1 (192 to 222 but for the multiplication sign)
    move up by 32. *)
Definition lower_char (c : ascii) : ascii :=
  let n := nat_of_ascii c in
  if ((Nat.leb 65 n && Nat.leb n 90)
      || (Nat.leb 192 n && Nat.leb n 222 && negb (Nat.eqb n 215)))%bool
  then ascii_of_nat (n + 32) else c.

Definition toLowerCase (s : string) : string :=
  string_of_list_ascii (map lower_char (list_ascii_of_string s)).

Fixpoint starts_with (t l : list ascii) : bool :=
  match t, l with
  | [], _ => true
  | _ :: _, [] => false
  | a :: t', b :: l' => (Ascii.eqb a b && starts_with t' l')%bool
  end.

Fixpoint occurs_in (t l : list ascii) : bool :=
  (starts_with t l
   || match l with
      | [] => false
      | _ :: l' => occurs_in t l'
      end)%bool.

(** [s.includes(t)] *)
Definition includes (s t : string) : bool :=
  occurs_in (list_ascii_of_string t) (list_ascii_of_string s).

(** [v.toLowerCase()]: a method of strings only. *)
Definition call_lower {E} (v : jsval) : M E string :=
  match v with
  | VStr s => ret (toLowerCase s)
  | _ => throw "q.toLowerCase is not a function"
  end.

(** The one call of the handler: the request it sends to [/api/products] at
    the host its own request names, taken here to be this server.  The
    connection can fail; when it does not, the listing handler answers. *)
Inductive searchE : Type -> Type :=
| FetchProducts : searchE (outcome Github.response).

Definition handle (X : Type) (e : searchE X) (w : world) : X * world :=
  match e in searchE X return X * world with
  | FetchProducts =>
      let w1 := mkWorld (repo w) (now w) (tl (faults w)) (journal w) in
      match faults w with
      | true :: _ => (Thrown "fetch failed", w1)
      | _ => let '(r, w2) := Github.serve get_products w1 in (Normal r, w2)
      end
  end.

(** The bodies sent: [{success, products, query, count}] and
    [{success, message, error?}]. *)
Inductive json : Type :=
| JFound (success : bool) (products : list product) (query : jsval)
         (count : nat)
| JFail (success : bool) (message : string) (error : option string).

Record response : Type := mkRes {
  status : Z;
  body : json
}.

Definition res_json (b : json) : response := mkRes 200 b.
Definition res_status_json (s : Z) (b : json) : response := mkRes s b.

(** [productsData.success] and [productsData.products] of the parsed
    answer. *)
Definition success_of (b : Github.json) : bool :=
  match b with
  | JList s _ _ => s
  | Github.JFail s _ _ => s
  | JAdded s _ _ => s
  | JDeleted s _ _ => s
  end.

Definition products_of (b : Github.json) : list product :=
  match b with
  | JList _ l _ => l
  | _ => []
  end.

(** The callback of [filter]: the term is looked for in name, description,
    seller and condition, in this order, each in lower case. *)
Definition hit (searchTerm : string) (p : product) : outcome bool :=
  if (includes (toLowerCase (name p)) searchTerm
      || includes (toLowerCase (description p)) searchTerm
      || includes (toLowerCase (seller p)) searchTerm)%bool
  then Normal true
  else
    match condition p with
    | VStr c => Normal (includes (toLowerCase c) searchTerm)
    | _ => Thrown "product.condition.toLowerCase is not a function"
    end.

(** [l.filter(f)] for a callback that can throw. *)
Fixpoint filter_throwing {A} (f : A -> outcome bool) (l : list A)
  : outcome (list A) :=
  match l with
  | [] => Normal []
  | x :: l' =>
      match f x with
      | Thrown msg => Thrown msg
      | Normal b =>
          match filter_throwing f l' with
          | Thrown msg => Thrown msg
          | Normal r => Normal (if b then x :: r else r)
          end
      end
  end.

(** The answer of a callback that did not throw. *)
Definition answered {A} (f : A -> outcome bool) (x : A) : bool :=
  match f x with
  | Normal b => b
  | Thrown _ => false
  end.

Local Open Scope prog_scope.

Definition search (q : jsval) : prog searchE response :=
  handler_try
    (if negb (truthy q)
     then ret (res_status_json 400
                 (JFail false "Search query is required" None))
     else
       productsData <- await FetchProducts ;;
       if negb (success_of (Github.body productsData))
       then throw "Failed to fetch products"
       else
         lowered <- call_lower q ;;
         let searchTerm := trim lowered in
         match filter_throwing (hit searchTerm)
                               (products_of (Github.body productsData)) with
         | Thrown msg => throw msg
         | Normal filteredProducts =>
             ret (res_json (JFound true filteredProducts q
                                   (List.length filteredProducts)))
         end)
    (fun error =>
       Ret (res_status_json 500
              (JFail false "Failed to search products" (Some error)))).

Definition serve {R} (p : prog searchE R) (w : world) : R * world :=
  run handle p w.

(** What [GET /api/products] lists: the content of the file, or the demo
    listings when the read fails. *)
Definition read_or_demo (w : world) : list product :=
  match faults w, repo w with
  | true :: _, _ => demoProducts (now w) (now w) (now w)
  | _, Some f => content f
  | _, None => demoProducts (now w) (now w) (now w)
  end.

(** The listings a search runs over: of the calls to come the first is the
    request of the handler to its own server, the second the read of the
    file. *)
Definition listed (w : world) : list product :=
  read_or_demo (mkWorld (repo w) (now w) (tl (faults w)) (journal w)).

(** [t] occurs in [s]. *)
Definition contains (s t : string) : Prop :=
  exists pre post, s = (pre ++ t ++ post)%string.

(** The term is in one of the four fields, case apart. *)
Definition found_in (term : string) (p : product) : Prop :=
  contains (toLowerCase (name p)) term
  \/ contains (toLowerCase (description p)) term
  \/ contains (toLowerCase (seller p)) term
  \/ (exists c, condition p = VStr c /\ contains (toLowerCase c) term).

End Search.

(** ** The minimal server (the second server.js in sever.js) *)

Module Minimal.

Definition oid := N.

(** The paths a request body can give, each absent or given with a value
    of the path's type: [_id], which [new Product(req.body)] keeps when the
    body names it, and the paths of the schema; no path is required or
    validated. *)
Record body_fields : Type := mkBody {
  b__id : option oid;
  b_name : option string;
  b_price : option Z;
  b_seller : option string;
  b_whatsapp : option string;
  b_condition : option string;
  b_description : option string;
  b_imagePath : option string;
  b_dateAdded : option Z
}.

Record product : Type := mkProduct {
  _id : oid;
  fields : body_fields;
  dateAdded : Z             (* [default: Date.now] when the body gives none *)
}.

Inductive minE : Type -> Type :=
| NewProduct (b : body_fields) : minE product
| Save (p : product) : minE (outcome product)
| FindNewestFirst : minE (outcome (list product)).

Record world : Type := mkWorld {
  coll : list product;
  next_oid : oid;
  now : Z;
  faults : list bool
}.

Definition remote {X} (w : world) (answer : world -> outcome X * world)
  : outcome X * world :=
  let w1 := mkWorld (coll w) (next_oid w) (now w) (tl (faults w)) in
  match faults w with
  | true :: _ => (Thrown "network error", w1)
  | _ => answer w1
  end.

Fixpoint insert_newest (x : product) (l : list product) : list product :=
  match l with
  | [] => [x]
  | y :: l' =>
      if dateAdded y <=? dateAdded x then x :: l else y :: insert_newest x l'
  end.

Definition handle (X : Type) (e : minE X) (w : world) : X * world :=
  match e in minE X return X * world with
  | NewProduct b =>
      (mkProduct (match b__id b with Some i => i | None => next_oid w end) b
                 (match b_dateAdded b with Some d => d | None => now w end),
       mkWorld (coll w) (N.succ (next_oid w)) (now w) (faults w))
  | Save p =>
      remote w (fun w' =>
        if existsb (fun q => N.eqb (_id q) (_id p)) (coll w')
        then (Thrown "E11000 duplicate key error", w')
        else
          (Normal p,
           mkWorld (coll w' ++ [p])%list (next_oid w') (now w') (faults w')))
  | FindNewestFirst =>
      remote w (fun w' =>
        (Normal (fold_right insert_newest [] (coll w')), w'))
  end.

Inductive json : Type :=
| JProduct (p : product)
| JProducts (l : list product).

Record response : Type := mkRes {
  status : Z;
  body : json
}.

Definition res_json (b : json) : response := mkRes 200 b.

Local Open Scope prog_scope.

(** The handlers have no [try]: when a call fails the promise of the handler
    is rejected and no response is sent ([Thrown]). *)
Definition get_products : M minE response :=
  products <- await FindNewestFirst ;;
  ret (res_json (JProducts products)).

Definition post_product (b : body_fields) : M minE response :=
  product <- perform (NewProduct b) ;;
  saved <- await (Save product) ;;
  ret (res_json (JProduct saved)).

Definition serve {R} (p : prog minE R) (w : world) : R * world :=
  run handle p w.

End Minimal.

(** ** Sample requests and states *)

Module Samples.
Import JS.

(** The engine of the store, fixed for the samples: no pattern finds a
    match, every filter is accepted. *)
Definition no_match (pat : jsval) (field : string) : bool := false.
Definition accept_all (q : Mongo.mquery) : bool := true.

(** An array or object given as [condition] selects nothing. *)
Definition no_cond (c : jsval) (field : string) : bool := false.

(** A desk offered for 2000, and the same with a ten-digit phone number. *)
Definition desk : Mongo.body_fields :=
  Mongo.mkBody (VStr "Desk") (VStr "2000") (VStr "A") (VStr "919999999999")
               (VStr "Good") (VStr "x") VUndefined.

Definition desk_bad_phone : Mongo.body_fields :=
  Mongo.mkBody (VStr "Desk") (VStr "2000") (VStr "A") (VStr "1234567890")
               (VStr "Good") (VStr "x") VUndefined.

Definition desk_image : Mongo.file :=
  Mongo.mkFile "https://res.cloudinary.com/juit-olx-products/product_1.png"
               "juit-olx-products/product_1".

(** The file part of a multipart request: a photograph of the desk. *)
Definition desk_photo : jsval := VStr "desk.png".

Definition empty_store : Mongo.world := Mongo.mkWorld [] [] 0%N 1000 [] [].

Definition listing (i : N) (nm : string) (pr : Z) (sl : string) (t : Z)
  : Mongo.product :=
  Mongo.mkProduct i nm pr sl "919999999999" "Good" "x"
                  "https://res.cloudinary.com/img" (Some "img") t true.

(** Three listings by two sellers, in the order they were created. *)
Definition three_listings : Mongo.world :=
  Mongo.mkWorld [ listing 0 "Desk" 2000 "A" 100;
                  listing 1 "Chair" 500 "B" 200;
                  listing 2 "Lamp" 900 "A" 300 ]
                ["img"] 3%N 1000 [] [].

(** Two update documents: one renames the listing, one sets [dateAdded]. *)
Definition rename_desk : Mongo.update :=
  Mongo.mkUpdate (Some " Oak desk ") None None None None None None None
                 None None None.


(** Time passes, the first listing is renamed, the second is deleted. *)
Definition history : list Mongo.event :=
  [ Mongo.Elapse 5;
    Mongo.Serve (Mongo.PutProduct (Mongo.IdHex 0%N) rename_desk);
    Mongo.Serve (Mongo.DeleteProduct (Mongo.IdHex 1%N)) ].

(** A store in which the remote calls to come fail as [fs] says. *)
Definition failing (fs : list bool) (w : Mongo.world) : Mongo.world :=
  Mongo.mkWorld (Mongo.coll w) (Mongo.images w) (Mongo.next_oid w)
                (Mongo.now w) fs (Mongo.journal w).

(** [?minPrice=600&maxPrice=2000] *)
Definition price_between : Mongo.query_params :=
  Mongo.mkParams VUndefined (VStr "600") (VStr "2000") VUndefined VUndefined.

Definition sort_by (key : string) : Mongo.query_params :=
  Mongo.mkParams VUndefined VUndefined VUndefined VUndefined (VStr key).

Definition gh_listing (i : Z) (nm : string) : Github.product :=
  Github.mkProduct i nm (Num 2000) "A" "919999999999" (VStr "Good") "x"
                   (VStr "https://example.org/desk.png") i.

(** A repository whose [products.json] holds two listings. *)
Definition two_in_file : Github.world :=
  Github.mkWorld (Some (Github.mkFile [gh_listing 1700000000002 "Chair";
                                       gh_listing 1700000000001 "Desk"] 7%N))
                 1700000000003 [] [].

Definition gh_desk : Github.body_fields :=
  Github.mkBody (VStr "Desk") (VStr "2000") (VStr "A") (VStr "919999999999")
                (VStr "Good") (VStr "x") (VStr "https://example.org/desk.png").

(** The desk with a [whatsapp] that is an object without a string, as the
    JSON body [{..., whatsapp: {toString: 1}}] gives it. *)
Definition gh_desk_object_phone : Github.body_fields :=
  Github.mkBody (VStr "Desk") (VStr "2000") (VStr "A") (VObj None)
                (VStr "Good") (VStr "x") (VStr "https://example.org/desk.png").

Definition desk_object_phone : Mongo.body_fields :=
  Mongo.mkBody (VStr "Desk") (VStr "2000") (VStr "A") (VObj None)
               (VStr "Good") (VStr "x") (VStr "data:image/png;base64,iVBORw0KGgo=").

Definition gh_desk_bad_phone : Github.body_fields :=
  Github.mkBody (VStr "Desk") (VStr "2000") (VStr "A") (VStr "1234567890")
                (VStr "Good") (VStr "x") (VStr "https://example.org/desk.png").

(** The repository before [products.json] exists. *)
Definition no_file : Github.world := Github.mkWorld None 1000 [] [].

Definition min_desk : Minimal.body_fields :=
  Minimal.mkBody None (Some "Desk") (Some 2000) (Some "A")
                 (Some "919999999999")
                 (Some "Good") (Some "x") None None.

Definition min_empty : Minimal.world := Minimal.mkWorld [] 0%N 1000 [].

(** The desk again, with a ten-digit phone number. *)
Definition min_bad_phone : Minimal.body_fields :=
  Minimal.mkBody None (Some "Desk") (Some 2000) (Some "A")
                 (Some "1234567890")
                 (Some "Good") (Some "x") None None.

(** A body whose condition is the number 5, and the repository after the
    file-backed server has created a listing from it. *)
Definition gh_desk_condition_5 : Github.body_fields :=
  Github.mkBody (VStr "Desk") (VStr "2000") (VStr "A") (VStr "919999999999")
                (VNum 5) (VStr "x") (VStr "https://example.org/desk.png").

Definition file_with_condition_5 : Github.world :=
  snd (Github.serve (Github.post_product gh_desk_condition_5) no_file).

End Samples.

(** * Properties *)

(** ** Strings and the phone-number pattern *)

Section JSFacts.
Import JS.

Example parseInt_2000 : parseInt (VStr "2000") = Some (Num 2000).
Proof. reflexivity. Qed.
Example parseInt_hex : parseInt (VStr " -0x1Fz") = Some (Num (-31)).
Proof. reflexivity. Qed.
Example parseInt_abc : parseInt (VStr "abc") = Some NaN.
Proof. reflexivity. Qed.
Example parseInt_num : parseInt (VNum 42) = Some (Num 42).
Proof. reflexivity. Qed.
Example parseInt_obj : parseInt (VObj None) = None.
Proof. reflexivity. Qed.
Example trim_ex : trim "  a b  " = "a b".
Proof. reflexivity. Qed.
Example wa1 : test_anchored whatsapp_re (VStr "919876543210") = Some true.
Proof. reflexivity. Qed.
Example wa2 : test_anchored whatsapp_re (VStr "1234567890") = Some false.
Proof. reflexivity. Qed.
Example wa3 : test_anchored whatsapp_re (VNum 919876543210) = Some true.
Proof. reflexivity. Qed.
Example wa4 : test_anchored whatsapp_re (VStr "9198765432100") = Some false.
Proof. reflexivity. Qed.
Example wa5 : test_anchored whatsapp_re (VObj None) = None.
Proof. reflexivity. Qed.

Lemma test_anchored_str (r : regex) (s : string) (b : bool) :
  test_anchored r (VStr s) = Some b <-> test_string r s = b.
Proof.
  unfold test_anchored. cbn [ToString option_map]. split.
  - intros H. injection H as H. exact H.
  - intros ->. reflexivity.
Qed.


Lemma compare_as_OT (a b : string) :
  String.compare a b = String_as_OT.compare a b.
Proof.
  revert b; induction a as [|c a IH]; destruct b as [|d b]; simpl; auto.
Qed.

Lemma leb_iff (a b : string) :
  String.leb a b = true <-> a = b \/ String_as_OT.lt a b.
Proof.
  unfold String.leb. rewrite compare_as_OT.
  destruct (String_as_OT.compare_spec a b) as [H|H|H];
    split; auto; try discriminate.
  intros [->|H']; exfalso.
  - eapply (StrictOrder_Irreflexive b); exact H.
  - eapply (StrictOrder_Irreflexive a). etransitivity; eassumption.
Qed.

Lemma leb_trans (a b c : string) :
  String.leb a b = true -> String.leb b c = true -> String.leb a c = true.
Proof.
  rewrite !leb_iff. intros [->|H1] [->|H2]; auto.
  right. etransitivity; eassumption.
Qed.

Lemma digit_not_space (c : ascii) : is_digit c = true -> is_space c = false.
Proof.
  unfold is_digit, is_space. intros H.
  apply andb_prop in H as [H1 H2].
  apply Nat.leb_le in H1. apply Nat.leb_le in H2.
  repeat (apply orb_false_intro); apply Nat.eqb_neq; lia.
Qed.

Lemma rounds_nil step (k : nat) : rounds step k [] = [].
Proof. induction k; simpl; auto. Qed.

(** [k] digits in a row are matched in one way at most. *)
Lemma rounds_digit (k : nat) (l : list ascii) :
  rounds (match_prefix Digit) k [l] =
  if (Nat.leb k (List.length l) && forallb is_digit (firstn k l))%bool
  then [skipn k l] else [].
Proof.
  revert l; induction k as [|k IH]; intros l.
  - reflexivity.
  - destruct l as [|c l]; [apply rounds_nil|].
    cbn [rounds flat_map match_prefix].
    destruct (is_digit c) eqn:Hc; cbn [app].
    + rewrite IH. cbn [List.length firstn forallb skipn Nat.leb].
      rewrite Hc. reflexivity.
    + rewrite rounds_nil. cbn [List.length firstn forallb skipn Nat.leb].
      rewrite Hc, andb_false_r. reflexivity.
Qed.

Lemma whatsapp_re_unfold (c1 c2 : ascii) (l : list ascii) :
  match_prefix whatsapp_re (c1 :: c2 :: l) =
  if Ascii.eqb "9" c1
  then if Ascii.eqb "1" c2 then rounds (match_prefix Digit) 10 [l] else []
  else [].
Proof.
  change (match_prefix whatsapp_re (c1 :: c2 :: l)) with
    (flat_map
       (fun l0 =>
          flat_map (fun l1 => rounds (match_prefix Digit) 10 [l1])
                   (match_prefix (Lit "1") l0))
       (if Ascii.eqb "9" c1 then [(c2 :: l)%list] else [])).
  destruct (Ascii.eqb "9" c1); [|reflexivity].
  cbn [flat_map].
  change (match_prefix (Lit "1") (c2 :: l))
    with (if Ascii.eqb "1" c2 then [l] else []).
  destruct (Ascii.eqb "1" c2); cbn [flat_map app];
    rewrite ?app_nil_r; reflexivity.
Qed.

(** What the pattern accepts: 9, 1 and ten digits, nothing else. *)
Lemma whatsapp_re_shape (l : list ascii) :
  existsb is_nil (match_prefix whatsapp_re l) = true <->
  exists ds, l = ("9"%char :: "1"%char :: ds)%list
             /\ List.length ds = 10%nat /\ forallb is_digit ds = true.
Proof.
  split.
  - intros H.
    destruct l as [|c1 [|c2 l]]; [discriminate| |].
    { unfold whatsapp_re in H. cbn [match_prefix] in H.
      destruct (Ascii.eqb "9" c1); simpl in H; discriminate. }
    rewrite whatsapp_re_unfold in H.
    destruct (Ascii.eqb "9" c1) eqn:E1; [|discriminate].
    destruct (Ascii.eqb "1" c2) eqn:E2; [|discriminate].
    apply Ascii.eqb_eq in E1, E2. subst c1 c2.
    rewrite rounds_digit in H.
    destruct (Nat.leb 10 (List.length l)) eqn:Hlen; [|discriminate].
    destruct (forallb is_digit (firstn 10 l)) eqn:Hd; [|discriminate].
    cbn [andb existsb] in H. rewrite orb_false_r in H.
    apply Nat.leb_le in Hlen.
    assert (Hs : skipn 10 l = [])
      by (destruct (skipn 10 l); [auto|discriminate]).
    assert (Hl : List.length l = 10%nat).
    { pose proof (length_skipn 10 l) as E. rewrite Hs in E. simpl in E. lia. }
    exists l. repeat split; auto.
    rewrite <- (firstn_all l), Hl. exact Hd.
  - intros (ds & -> & Hlen & Hd).
    rewrite whatsapp_re_unfold, !Ascii.eqb_refl, rounds_digit.
    rewrite <- Hlen, firstn_all, skipn_all, Hd, Nat.leb_refl.
    reflexivity.
Qed.

Lemma drop_space_head (c : ascii) (l : list ascii) :
  is_space c = false -> drop_space (c :: l) = (c :: l)%list.
Proof. intros H; simpl; rewrite H; reflexivity. Qed.

Lemma trim_chars_ends (c d : ascii) (l : list ascii) :
  is_space c = false -> is_space d = false ->
  trim_chars (c :: l ++ [d]) = (c :: l ++ [d])%list.
Proof.
  intros Hc Hd. unfold trim_chars.
  rewrite drop_space_head by assumption.
  assert (E : rev (c :: l ++ [d]) = (d :: rev (c :: l))%list).
  { change (c :: l ++ [d])%list with ((c :: l) ++ [d])%list.
    rewrite rev_app_distr. reflexivity. }
  rewrite E, drop_space_head by assumption.
  rewrite <- E. apply rev_involutive.
Qed.

(** A string the pattern accepts has no white space to trim. *)
Lemma whatsapp_trim_id (s : string) :
  test_string whatsapp_re s = true -> trim s = s.
Proof.
  unfold test_string. intros H.
  apply (proj1 (whatsapp_re_shape _)) in H as (ds & Hl & Hlen & Hd).
  unfold trim. rewrite Hl.
  destruct (exists_last (l := ds)) as (ds' & d & ->).
  { intros ->; discriminate. }
  rewrite forallb_app in Hd. apply andb_prop in Hd as [_ Hd].
  simpl in Hd. rewrite andb_true_r in Hd.
  change ("9"%char :: "1"%char :: ds' ++ [d])%list
    with ("9"%char :: ("1"%char :: ds') ++ [d])%list.
  rewrite trim_chars_ends; auto using digit_not_space.
  simpl app. rewrite <- Hl. apply string_of_list_ascii_of_string.
Qed.

(** [trim] is idempotent: a trimmed string has no white space at its ends. *)
Lemma drop_space_clean (l : list ascii) : clean (drop_space l).
Proof.
  induction l as [|c l IH]; simpl; [exact I|].
  destruct (is_space c) eqn:E; [exact IH | exact E].
Qed.

Lemma drop_space_id (l : list ascii) : clean l -> drop_space l = l.
Proof.
  destruct l as [|c l]; simpl; [reflexivity|]. intros ->. reflexivity.
Qed.

Lemma drop_space_suffix (l : list ascii) :
  exists pre, l = (pre ++ drop_space l)%list.
Proof.
  induction l as [|c l (pre & IH)]; simpl.
  - exists []. reflexivity.
  - destruct (is_space c).
    + exists (c :: pre). simpl. f_equal. exact IH.
    + exists []. reflexivity.
Qed.

Lemma rev_drop_space_rev_clean (l : list ascii) :
  clean l -> clean (rev (drop_space (rev l))).
Proof.
  intros H. destruct (drop_space_suffix (rev l)) as (pre & E).
  apply (f_equal (@rev ascii)) in E.
  rewrite rev_involutive, rev_app_distr in E.
  destruct (rev (drop_space (rev l))) as [|c t]; [exact I|].
  rewrite E in H. exact H.
Qed.

Lemma trim_chars_idem (l : list ascii) :
  trim_chars (trim_chars l) = trim_chars l.
Proof.
  unfold trim_chars at 1.
  rewrite (drop_space_id (trim_chars l)).
  - unfold trim_chars. rewrite rev_involutive.
    rewrite (drop_space_id (drop_space _)); [reflexivity|].
    apply drop_space_clean.
  - unfold trim_chars. apply rev_drop_space_rev_clean, drop_space_clean.
Qed.

Lemma trim_idem (s : string) : trim (trim s) = trim s.
Proof.
  unfold trim. rewrite list_ascii_of_string_of_list_ascii, trim_chars_idem.
  reflexivity.
Qed.

End JSFacts.

(** ** Numbers in decimal *)

Section DecimalFacts.
Import JS.

Lemma read_digits_pos (d : Decimal.uint) (p : positive) :
  read_digits 10 (list_ascii_of_string (NilEmpty.string_of_uint d))
              (Some (Z.pos p))
  = Some (Z.pos (Pos.of_uint_acc d p)).
Proof.
  revert p. induction d; intros p;
    cbn [NilEmpty.string_of_uint list_ascii_of_string read_digits
         Pos.of_uint_acc];
    try reflexivity;
    match goal with
    | |- context [digit_value 10 ?c] =>
        let v := eval vm_compute in (digit_value 10 c) in
        change (digit_value 10 c) with v
    end;
    cbv iota beta; rewrite <- IHd; f_equal; f_equal; lia.
Qed.

Lemma read_digits_zero (d : Decimal.uint) :
  read_digits 10 (list_ascii_of_string (NilEmpty.string_of_uint d)) (Some 0)
  = Some (Z.of_N (Pos.of_uint d)).
Proof.
  induction d;
    cbn [NilEmpty.string_of_uint list_ascii_of_string read_digits
         Pos.of_uint];
    try reflexivity;
    match goal with
    | |- context [digit_value 10 ?c] =>
        let v := eval vm_compute in (digit_value 10 c) in
        change (digit_value 10 c) with v
    end;
    cbv iota beta;
    first [ exact IHd | apply read_digits_pos ].
Qed.

Lemma read_digits_start (d : Decimal.uint) :
  d <> Decimal.Nil ->
  read_digits 10 (list_ascii_of_string (NilEmpty.string_of_uint d)) None
  = Some (Z.of_N (Pos.of_uint d)).
Proof.
  destruct d; intros H; [congruence|..];
    cbn [NilEmpty.string_of_uint list_ascii_of_string read_digits
         Pos.of_uint];
    match goal with
    | |- context [digit_value 10 ?c] =>
        let v := eval vm_compute in (digit_value 10 c) in
        change (digit_value 10 c) with v
    end;
    cbv iota beta;
    first [ apply read_digits_zero | apply read_digits_pos ].
Qed.

Lemma parseInt_plain (c : ascii) (l : list ascii) :
  is_digit c = true -> strip_hex_prefix (c :: l) = None ->
  parseInt_string (string_of_list_ascii (c :: l))
  = match read_digits 10 (c :: l) None with
    | Some v => Num v
    | None => NaN
    end.
Proof.
  intros Hc Hx. unfold parseInt_string.
  rewrite list_ascii_of_string_of_list_ascii.
  rewrite drop_space_head by (apply digit_not_space; exact Hc).
  assert (Hs : match (c :: l)%list with
               | ("-"%char :: l')%list => (-1, l')
               | ("+"%char :: l')%list => (1, l')
               | _ => (1, (c :: l)%list)
               end = (1, (c :: l)%list)).
  { destruct c as [[] [] [] [] [] [] [] []]; try discriminate Hc;
      reflexivity. }
  rewrite Hs, Hx.
  destruct (read_digits 10 (c :: l) None) as [v|]; [|reflexivity].
  destruct v; reflexivity.
Qed.

Lemma uint_chars (d : Decimal.uint) :
  d <> Decimal.Nil ->
  exists c l,
    list_ascii_of_string (NilEmpty.string_of_uint d) = (c :: l)%list
    /\ is_digit c = true /\ strip_hex_prefix (c :: l) = None.
Proof.
  destruct d as [|d|d|d|d|d|d|d|d|d|d]; intros H; [congruence|..];
    cbn [NilEmpty.string_of_uint list_ascii_of_string];
    eexists _, _; (split; [reflexivity|]); (split; [reflexivity|]);
    try reflexivity.
  destruct d; reflexivity.
Qed.

Lemma parseInt_uint (d : Decimal.uint) :
  parseInt_string (NilZero.string_of_uint d) = Num (Z.of_uint d).
Proof.
  destruct (Decimal.uint_eq_dec d Decimal.Nil) as [->|Hd]; [reflexivity|].
  assert (E : NilZero.string_of_uint d = NilEmpty.string_of_uint d)
    by (destruct d; congruence || reflexivity).
  rewrite E. destruct (uint_chars d Hd) as (c & l & Hl & Hc & Hx).
  rewrite <- (string_of_list_ascii_of_string (NilEmpty.string_of_uint d)).
  rewrite Hl, (parseInt_plain c l Hc Hx), <- Hl.
  rewrite (read_digits_start d Hd). reflexivity.
Qed.

(** [parseInt] reads back the decimal rendering of an integer. *)
Lemma parseInt_string_of_Z (z : Z) :
  parseInt_string (string_of_Z z) = Num z.
Proof.
  unfold string_of_Z. rewrite <- (DecimalZ.of_to z) at 2.
  destruct (Z.to_int z) as [d|d]; cbn [NilZero.string_of_int Z.of_int].
  - apply parseInt_uint.
  - pose proof (parseInt_uint d) as H.
    destruct (Decimal.uint_eq_dec d Decimal.Nil) as [->|Hd]; [reflexivity|].
    assert (E : NilZero.string_of_uint d = NilEmpty.string_of_uint d)
      by (destruct d; congruence || reflexivity).
    rewrite E in *. destruct (uint_chars d Hd) as (c & l & Hl & Hc & Hx).
    rewrite <- (string_of_list_ascii_of_string (NilEmpty.string_of_uint d))
      in H.
    rewrite Hl, (parseInt_plain c l Hc Hx) in H.
    unfold parseInt_string.
    cbn [list_ascii_of_string drop_space]. rewrite Hl.
    change (is_space "-") with false. cbv iota.
    rewrite Hx. destruct (read_digits 10 (c :: l) None) as [v|];
      [|discriminate H].
    injection H as ->. f_equal; lia.
Qed.

End DecimalFacts.

(** ** The document-store server *)

Section MongoFacts.
Import JS Mongo.

Variable regex_i : jsval -> string -> bool.
Variable cond_op : jsval -> string -> bool.
Variable query_accepted : mquery -> bool.

(** *** Sorting *)

Lemma sort_leb_total (s : sortspec) (a b : product) :
  sort_leb s a b = false -> sort_leb s b a = true.
Proof.
  destruct s as [[] []]; simpl; intros H;
    try (apply Z.leb_gt in H; apply Z.leb_le; lia).
  - destruct (String.leb_total (name a) (name b)); congruence.
  - destruct (String.leb_total (name b) (name a)); congruence.
Qed.

Lemma sort_leb_trans (s : sortspec) (a b c : product) :
  sort_leb s a b = true -> sort_leb s b c = true -> sort_leb s a c = true.
Proof.
  destruct s as [[] []]; simpl; intros H1 H2;
    try (apply Z.leb_le in H1, H2; apply Z.leb_le; lia);
    eauto using leb_trans.
Qed.

Lemma insert_doc_hd (s : sortspec) (x y : product) (l : list product) :
  sort_leb s y x = true ->
  HdRel (fun a b => sort_leb s a b = true) y l ->
  HdRel (fun a b => sort_leb s a b = true) y (insert_doc s x l).
Proof.
  intros Hyx Hl. destruct l as [|z l]; simpl.
  - constructor; assumption.
  - destruct (sort_leb s x z); constructor; auto.
    inversion Hl; assumption.
Qed.

Lemma insert_doc_sorted (s : sortspec) (x : product) (l : list product) :
  Sorted (fun a b => sort_leb s a b = true) l ->
  Sorted (fun a b => sort_leb s a b = true) (insert_doc s x l).
Proof.
  induction l as [|y l IH]; intros Hl; simpl.
  - repeat constructor.
  - destruct (sort_leb s x y) eqn:E.
    + constructor; [assumption | constructor; assumption].
    + inversion Hl; subst. constructor; auto.
      apply insert_doc_hd; auto using sort_leb_total.
Qed.

Lemma sort_docs_sorted (s : sortspec) (l : list product) :
  StronglySorted (fun a b => sort_leb s a b = true) (sort_docs s l).
Proof.
  apply Sorted_StronglySorted.
  - intros a b c. apply sort_leb_trans.
  - induction l; simpl; [constructor | apply insert_doc_sorted; assumption].
Qed.

Lemma StronglySorted_impl {A} (R1 R2 : A -> A -> Prop) (l : list A) :
  (forall a b, R1 a b -> R2 a b) ->
  StronglySorted R1 l -> StronglySorted R2 l.
Proof.
  intros H; induction 1; constructor; auto.
  eapply Forall_impl; [|eassumption]. auto.
Qed.

(** What a successful listing query answers with. *)
Lemma get_products_result (q : query_params) (w w' : world)
      (l : list product) :
  serve regex_i cond_op query_accepted (get_products q) w
  = (res_json (JProducts l), w') ->
  exists mq,
    build_query q = Some mq
    /\ l = sort_docs (sort_option (qp_sort q))
                     (filter (doc_matches regex_i cond_op mq) (coll w)).
Proof.
  unfold Mongo.serve, get_products.
  destruct (build_query q) as [mq|]; [|discriminate].
  cbn [run handler_try bind bind_prog await handle or_throw ret].
  destruct (query_accepted mq); [|discriminate].
  unfold remote. destruct (faults w) as [|[] fs]; cbn; try discriminate;
    intros H; injection H as <- _; exists mq; split; reflexivity.
Qed.

(** C3: a successful listing query is ordered by what [sort] asks for:
    [price_low] non-decreasing by price, [price_high] non-increasing by
    price, [name] ascending by name, and anything else (or no sort at all)
    non-increasing by [dateAdded]. *)
Theorem listing_query_is_sorted (q : query_params) (w w' : world)
        (l : list product) :
  serve regex_i cond_op query_accepted (get_products q) w
  = (res_json (JProducts l), w') ->
  (qp_sort q = VStr "price_low" ->
   StronglySorted (fun a b => price a <= price b) l) /\
  (qp_sort q = VStr "price_high" ->
   StronglySorted (fun a b => price b <= price a) l) /\
  (qp_sort q = VStr "name" ->
   StronglySorted (fun a b => String.leb (name a) (name b) = true) l) /\
  (qp_sort q <> VStr "price_low" -> qp_sort q <> VStr "price_high" ->
   qp_sort q <> VStr "name" ->
   StronglySorted (fun a b => dateAdded b <= dateAdded a) l).
Proof.
  intros H. apply get_products_result in H as (mq & _ & ->).
  repeat split.
  - intros ->. eapply StronglySorted_impl; [|apply sort_docs_sorted].
    simpl. intros a b. apply Z.leb_le.
  - intros ->. eapply StronglySorted_impl; [|apply sort_docs_sorted].
    simpl. intros a b. apply Z.leb_le.
  - intros ->. eapply StronglySorted_impl; [|apply sort_docs_sorted].
    simpl. auto.
  - intros N1 N2 N3.
    assert (E : sort_option (qp_sort q) = (ByDateAdded, Desc)).
    { unfold sort_option, strict_eq.
      destruct (qp_sort q) as [| | | |s|]; try reflexivity.
      destruct (String.eqb_spec s "price_low"); [congruence|].
      destruct (String.eqb_spec s "price_high"); [congruence|].
      destruct (String.eqb_spec s "name"); [congruence|]. reflexivity. }
    rewrite E. eapply StronglySorted_impl; [|apply sort_docs_sorted].
    simpl. intros a b. apply Z.leb_le.
Qed.


(** *** The create handlers *)

Ltac exec_in H :=
  cbn [run handler_try bind bind_prog await perform ret throw try_catch
       handle Mongo.serve call_trim or_throw fst snd negb] in H.

(** Closes a branch in which the response contradicts what is known of it. *)
Ltac absurd_response H :=
  repeat (exec_in H; unfold remote in H;
          match type of H with
          | context [match faults ?w with _ => _ end] =>
              destruct (faults w) as [|[] ?]
          | context [if ?c then _ else _] => destruct c
          end);
  exec_in H; injection H as <- <-; simpl in *; congruence.

Lemma post_product_created b f w r w' :
  serve regex_i cond_op query_accepted (post_product b f) w = (r, w') ->
  status r <> 400 -> status r <> 500 ->
  exists file nm sl wa ds pr p,
    f = Some file /\ b_name b = VStr nm /\ b_seller b = VStr sl /\
    b_whatsapp b = VStr wa /\ b_description b = VStr ds /\
    test_string whatsapp_re wa = true /\
    parseInt (b_price b) = Some pr /\
    schema_validate
      (mkDraft (next_oid w)
         (mkData (trim nm) pr (trim sl) (trim wa)
                 (b_condition b) (trim ds) (path file) (filename file))
         (now w) true) = Some p /\
    r = res_status_json 201 (JProduct p) /\
    coll w' = (coll w ++ [p])%list.
Proof.
  unfold Mongo.serve, post_product, call_test, call_parseInt.
  intros H S4 S5.
  destruct (fields_missing b); [absurd_response H|].
  destruct f as [file|]; [|absurd_response H].
  destruct (test_anchored whatsapp_re (b_whatsapp b)) as [[|]|] eqn:Hwa;
    try absurd_response H.
  destruct (b_name b) as [| | | |nm|]; try absurd_response H.
  destruct (parseInt (b_price b)) as [pr|] eqn:Hpr; [|absurd_response H].
  destruct (b_seller b) as [| | | |sl|]; try absurd_response H.
  destruct (b_whatsapp b) as [| | | |wa|]; try absurd_response H.
  destruct (b_description b) as [| | | |ds|]; try absurd_response H.
  apply test_anchored_str in Hwa.
  exec_in H.
  match type of H with
  | context [schema_validate ?d] =>
      destruct (schema_validate d) as [p|] eqn:Hv
  end; [|absurd_response H].
  unfold remote in H. cbn [faults coll journal images next_oid now] in H.
  destruct (faults w) as [|[] fs]; try absurd_response H;
    cbn [faults coll journal images next_oid now set_coll] in H;
    (destruct (existsb (has_id (_id p)) (coll w)); [absurd_response H|]);
    exec_in H; injection H as <- <-;
    exists file, nm, sl, wa, ds, pr, p; repeat split; auto.
Qed.


(** The three validation failures of the multipart create, in the order the
    handler checks them; none of them makes the handler call a service. *)
Lemma post_product_missing_fields b f w :
  fields_missing b = true ->
  serve regex_i cond_op query_accepted (post_product b f) w
  = (res_status_json 400 (JError "All fields are required"), w).
Proof.
  intros H. unfold Mongo.serve, post_product. rewrite H. reflexivity.
Qed.

Lemma post_product_missing_image b w :
  fields_missing b = false ->
  serve regex_i cond_op query_accepted (post_product b None) w
  = (res_status_json 400 (JError "Product image is required"), w).
Proof.
  intros H. unfold Mongo.serve, post_product. rewrite H. reflexivity.
Qed.

Lemma post_product_bad_whatsapp b file w :
  fields_missing b = false ->
  test_anchored whatsapp_re (b_whatsapp b) = Some false ->
  serve regex_i cond_op query_accepted (post_product b (Some file)) w
  = (res_status_json 400 (JError "Invalid WhatsApp number format"), w).
Proof.
  intros H1 H2. unfold Mongo.serve, post_product, call_test.
  rewrite H1, H2. reflexivity.
Qed.

Lemma post_product_rejects_whatsapp b f w :
  test_anchored whatsapp_re (b_whatsapp b) = Some false ->
  exists msg,
    serve regex_i cond_op query_accepted (post_product b f) w
    = (res_status_json 400 (JError msg), w).
Proof.
  intros H. destruct (fields_missing b) eqn:Hm.
  - eexists; apply post_product_missing_fields; assumption.
  - destruct f as [file|].
    + eexists; apply post_product_bad_whatsapp; assumption.
    + eexists; apply post_product_missing_image; assumption.
Qed.

(** A [whatsapp] that cannot be converted to a string makes the test of the
    pattern throw: the handler ends in its [catch]. *)
Lemma post_product_unconvertible b file w :
  fields_missing b = false ->
  test_anchored whatsapp_re (b_whatsapp b) = None ->
  fst (serve regex_i cond_op query_accepted (post_product b (Some file)) w)
  = res_status_json 500 (JError "Failed to save product")
  /\ coll (snd (serve regex_i cond_op query_accepted
                      (post_product b (Some file)) w)) = coll w
  /\ next_oid (snd (serve regex_i cond_op query_accepted
                          (post_product b (Some file)) w)) = next_oid w.
Proof.
  intros H1 H2. unfold Mongo.serve, post_product, call_test.
  rewrite H1, H2.
  cbn [run handler_try bind bind_prog await perform ret throw try_catch].
  destruct (truthy (VStr (filename file)));
    cbn [run handle]; unfold remote;
    [destruct (faults w) as [|[] fs]|]; cbn [run fst snd coll next_oid];
    repeat split.
Qed.

Lemma post_product_base64_rejects_whatsapp b w :
  test_anchored whatsapp_re (b_whatsapp b) = Some false ->
  exists msg,
    serve regex_i cond_op query_accepted (post_product_base64 b) w
    = (res_status_json 400 (JError msg), w).
Proof.
  intros H. unfold Mongo.serve, post_product_base64, call_test.
  destruct (fields_missing b || negb (truthy (b_imageBase64 b)))%bool.
  - eexists; reflexivity.
  - rewrite H. eexists; reflexivity.
Qed.

Lemma post_product_base64_unconvertible b w :
  (fields_missing b || negb (truthy (b_imageBase64 b)))%bool = false ->
  test_anchored whatsapp_re (b_whatsapp b) = None ->
  serve regex_i cond_op query_accepted (post_product_base64 b) w
  = (res_status_json 500 (JError "Failed to save product"), w).
Proof.
  intros H1 H2. unfold Mongo.serve, post_product_base64, call_test.
  rewrite H1, H2. reflexivity.
Qed.

Lemma post_product_base64_created b w r w' :
  serve regex_i cond_op query_accepted (post_product_base64 b) w = (r, w') ->
  status r <> 400 -> status r <> 500 ->
  exists nm sl wa ds pr up p,
    b_name b = VStr nm /\ b_seller b = VStr sl /\
    b_whatsapp b = VStr wa /\ b_description b = VStr ds /\
    test_string whatsapp_re wa = true /\
    parseInt (b_price b) = Some pr /\
    schema_validate
      (mkDraft (next_oid w)
         (mkData (trim nm) pr (trim sl) (trim wa)
                 (b_condition b) (trim ds) (secure_url up) (public_id up))
         (now w) true) = Some p /\
    r = res_status_json 201 (JProduct p) /\
    coll w' = (coll w ++ [p])%list.
Proof.
  unfold Mongo.serve, post_product_base64, call_test, call_parseInt.
  intros H S4 S5.
  destruct (fields_missing b || negb (truthy (b_imageBase64 b)))%bool;
    [absurd_response H|].
  destruct (test_anchored whatsapp_re (b_whatsapp b)) as [[|]|] eqn:Hwa;
    try absurd_response H.
  exec_in H. unfold remote at 1 in H.
  destruct (faults w) as [|[] fs] eqn:Hf; try absurd_response H; exec_in H.
  all: destruct (b_name b) as [| | | |nm|]; try absurd_response H.
  all: destruct (parseInt (b_price b)) as [pr|] eqn:Hpr;
    [|absurd_response H].
  all: destruct (b_seller b) as [| | | |sl|]; try absurd_response H.
  all: destruct (b_whatsapp b) as [| | | |wa|]; try absurd_response H.
  all: destruct (b_description b) as [| | | |ds|]; try absurd_response H.
  all: apply test_anchored_str in Hwa.
  all: exec_in H;
    cbn [faults coll journal images next_oid now set_images tl] in H;
    match type of H with
    | context [schema_validate ?d] =>
        destruct (schema_validate d) as [p|] eqn:Hv
    end; [|absurd_response H];
    unfold remote in H;
    cbn [faults coll journal images next_oid now set_images tl] in H.
  - cbn [faults coll journal images next_oid now set_coll] in H.
    destruct (existsb (has_id (_id p)) (coll w)); [absurd_response H|].
    exec_in H; injection H as <- <-.
    eexists nm, sl, wa, ds, pr, _, p; repeat split; eauto.
  - destruct fs as [|[] fs']; try absurd_response H;
      cbn [faults coll journal images next_oid now set_coll] in H;
      (destruct (existsb (has_id (_id p)) (coll w)); [absurd_response H|]);
      exec_in H; injection H as <- <-;
      eexists nm, sl, wa, ds, pr, _, p; repeat split; eauto.
Qed.

(** *** The upload middleware before the multipart handler *)

(** The route is the handler, run on what the middleware leaves: without
    an image on the services as they are, with an image on the services
    after its upload; a failed upload is answered by the error-handling
    middleware. *)
Lemma route_without_image b w :
  serve regex_i cond_op query_accepted (post_product_route b None) w
  = serve regex_i cond_op query_accepted (post_product b None) w.
Proof. reflexivity. Qed.

Lemma route_after_upload b image w :
  fails 0 w = false ->
  serve regex_i cond_op query_accepted (post_product_route b (Some image)) w
  = serve regex_i cond_op query_accepted
      (post_product b (Some (uploaded_file w))) (after_upload w).
Proof.
  intros F. unfold Mongo.serve, post_product_route, upload_single.
  cbn [run bind bind_prog await perform ret handle].
  unfold remote, after_upload, uploaded_file, uploaded_id, fails in *.
  destruct (faults w) as [|[] fs]; cbn [nth] in F; try discriminate;
    reflexivity.
Qed.

Lemma route_upload_failed b image w :
  fails 0 w = true ->
  serve regex_i cond_op query_accepted (post_product_route b (Some image)) w
  = (error_middleware,
     mkWorld (coll w) (images w) (next_oid w) (now w) (tl (faults w))
             (OpUpload (uploaded_id w) :: journal w)).
Proof.
  intros F. unfold Mongo.serve, post_product_route, upload_single.
  cbn [run bind bind_prog await perform ret handle].
  unfold remote, uploaded_id, fails in *.
  destruct (faults w) as [|[] fs]; cbn [nth] in F; try discriminate;
    reflexivity.
Qed.

End MongoFacts.

(** The three sample listings by rising price. *)
Lemma listing_query_is_sorted_witness :
  StronglySorted (fun a b => Mongo.price a <= Mongo.price b)
    [ Samples.listing 1 "Chair" 500 "B" 200;
      Samples.listing 2 "Lamp" 900 "A" 300;
      Samples.listing 0 "Desk" 2000 "A" 100 ].
Proof.
  apply (proj1 (listing_query_is_sorted
                  Samples.no_match Samples.no_cond Samples.accept_all
                  (Samples.sort_by "price_low") Samples.three_listings
                  (Mongo.mkWorld (Mongo.coll Samples.three_listings) ["img"]
                                 3%N 1000 [] [Mongo.OpQuery])
                  _ eq_refl)).
  reflexivity.
Defined.

(** ** The file-backed server *)

Section GithubFacts.
Import JS Github.

Ltac gh_exec_in H :=
  cbn [run handler_try bind bind_prog await perform ret throw try_catch
       handle Github.serve call_trim or_throw fst snd negb] in H.

Ltac gh_absurd_response H :=
  repeat (gh_exec_in H; unfold remote in H;
          match type of H with
          | context [match faults ?w with _ => _ end] =>
              destruct (faults w) as [|[] ?]
          | context [match repo ?w with _ => _ end] =>
              destruct (repo w) as [?|]
          | context [if ?c then _ else _] => destruct c
          end);
  gh_exec_in H; injection H as <- <-; simpl in *; congruence.

Lemma gh_post_product_rejects_whatsapp b w :
  test_anchored whatsapp_re (b_whatsapp b) = Some false ->
  exists msg,
    serve (post_product b) w
    = (res_status_json 400 (JFail false msg None), w).
Proof.
  intros H. unfold Github.serve, post_product, call_test.
  destruct (fields_missing b).
  - eexists; reflexivity.
  - rewrite H. eexists; reflexivity.
Qed.

Lemma gh_post_product_unconvertible b w :
  fields_missing b = false ->
  test_anchored whatsapp_re (b_whatsapp b) = None ->
  serve (post_product b) w
  = (res_status_json 500
       (JFail false "Failed to add product" (Some cannot_convert)), w).
Proof.
  intros H1 H2. unfold Github.serve, post_product, call_test.
  rewrite H1, H2. reflexivity.
Qed.

Lemma gh_post_product_created b w r w' :
  serve (post_product b) w = (r, w') ->
  status r <> 400 -> status r <> 500 ->
  exists nm sl wa ds pr,
    let p := mkProduct (now w) (trim nm) pr (trim sl)
                       (trim wa) (b_condition b) (trim ds) (b_imageUrl b)
                       (now w) in
    b_name b = VStr nm /\ b_seller b = VStr sl /\
    b_whatsapp b = VStr wa /\ b_description b = VStr ds /\
    test_string whatsapp_re wa = true /\
    parseInt (b_price b) = Some pr /\
    r = res_json (JAdded true "Product added successfully" p) /\
    option_map content (repo w') = Some (p :: content_read w)%list.
Proof.
  unfold Github.serve, post_product, call_test, call_parseInt.
  intros H S4 S5.
  destruct (fields_missing b); [gh_absurd_response H|].
  destruct (test_anchored whatsapp_re (b_whatsapp b)) as [[|]|] eqn:Hwa;
    try gh_absurd_response H.
  destruct (b_name b) as [| | | |nm|]; try gh_absurd_response H.
  destruct (parseInt (b_price b)) as [pr|] eqn:Hpr;
    [|gh_absurd_response H].
  destruct (b_seller b) as [| | | |sl|]; try gh_absurd_response H.
  destruct (b_whatsapp b) as [| | | |wa|]; try gh_absurd_response H.
  destruct (b_description b) as [| | | |ds|]; try gh_absurd_response H.
  apply test_anchored_str in Hwa.
  exists nm, sl, wa, ds, pr. cbv zeta.
  unfold content_read.
  gh_exec_in H. unfold remote at 1 in H.
  destruct (faults w) as [|[] fs] eqn:Hf; gh_exec_in H;
    cbn [repo now faults journal tl] in H;
    destruct (repo w) as [f|] eqn:Hr; gh_exec_in H;
    unfold remote in H; cbn [repo now faults journal tl set_repo] in H;
    try rewrite N.eqb_refl in H;
    try (destruct fs as [|[] fs']); gh_exec_in H;
    try (injection H as <- <-; simpl in *; congruence).
  all: injection H as <- <-; repeat split; auto.
Qed.

End GithubFacts.

(** ** The minimal server *)

Section MinimalFacts.
Import Minimal.

Lemma min_post_product_created b w r w' :
  serve (post_product b) w = (Normal r, w') ->
  exists p, r = res_json (JProduct p) /\ fields p = b /\
            coll w' = (coll w ++ [p])%list.
Proof.
  unfold serve, post_product.
  cbn [run bind bind_prog await perform ret handle].
  unfold remote. cbn [coll next_oid now faults].
  destruct (faults w) as [|[] fs];
    cbn [run bind bind_prog ret coll _id];
    try (intros H; discriminate);
    match goal with
    | |- context [existsb ?f ?l] => destruct (existsb f l)
    end;
    cbn [run bind bind_prog ret]; intros H; try discriminate;
    injection H as <- <-; eexists; repeat split.
Qed.

End MinimalFacts.

(** ** Creating a listing *)

Section Create.
Import JS.

Variable regex_i : jsval -> string -> bool.
Variable cond_op : jsval -> string -> bool.
Variable query_accepted : Mongo.mquery -> bool.

(** C1, as the handlers have it: in the multipart, the base64 and the
    file-backed create, a [whatsapp] field whose string the pattern
    [^91\d{10}$] does not accept gets a 400 response, and the handler calls
    no service (no write is attempted).  A [whatsapp] that cannot be
    converted to a string makes the test of the pattern throw: nothing is
    written to the listing store then either, but the answer is 500 unless
    an earlier check has already answered 400.  The listing returned by a
    create that succeeds carries a [whatsapp] the pattern accepts.  The
    last part is the multipart create as a route, with the upload that
    runs before its handler: the listing store is untouched there too. *)
Theorem whatsapp_checked_before_any_write :
  (forall b f w,
      test_anchored whatsapp_re (Mongo.b_whatsapp b) = Some false ->
      exists msg,
        Mongo.serve regex_i cond_op query_accepted (Mongo.post_product b f) w
        = (Mongo.res_status_json 400 (Mongo.JError msg), w)) /\
  (forall b w,
      test_anchored whatsapp_re (Mongo.b_whatsapp b) = Some false ->
      exists msg,
        Mongo.serve regex_i cond_op query_accepted
                    (Mongo.post_product_base64 b) w
        = (Mongo.res_status_json 400 (Mongo.JError msg), w)) /\
  (forall b w,
      test_anchored whatsapp_re (Github.b_whatsapp b) = Some false ->
      exists msg,
        Github.serve (Github.post_product b) w
        = (Github.res_status_json 400 (Github.JFail false msg None), w)) /\
  (forall b f w,
      test_anchored whatsapp_re (Mongo.b_whatsapp b) = None ->
      let rw := Mongo.serve regex_i cond_op query_accepted
                  (Mongo.post_product b f) w in
      Mongo.coll (snd rw) = Mongo.coll w
      /\ (Mongo.status (fst rw) = 400 \/ Mongo.status (fst rw) = 500)
      /\ (Mongo.fields_missing b = false -> f <> None ->
          Mongo.status (fst rw) = 500)) /\
  (forall b w,
      test_anchored whatsapp_re (Mongo.b_whatsapp b) = None ->
      let rw := Mongo.serve regex_i cond_op query_accepted
                  (Mongo.post_product_base64 b) w in
      snd rw = w
      /\ (Mongo.status (fst rw) = 400 \/ Mongo.status (fst rw) = 500)
      /\ ((Mongo.fields_missing b
           || negb (truthy (Mongo.b_imageBase64 b)))%bool = false ->
          Mongo.status (fst rw) = 500)) /\
  (forall b w,
      test_anchored whatsapp_re (Github.b_whatsapp b) = None ->
      let rw := Github.serve (Github.post_product b) w in
      snd rw = w
      /\ (Github.status (fst rw) = 400 \/ Github.status (fst rw) = 500)
      /\ (Github.fields_missing b = false ->
          Github.status (fst rw) = 500)) /\
  (forall b f w r w',
      Mongo.serve regex_i cond_op query_accepted (Mongo.post_product b f) w
      = (r, w') ->
      Mongo.status r < 400 ->
      exists p, Mongo.body r = Mongo.JProduct p /\
                test_anchored whatsapp_re (VStr (Mongo.whatsapp p))
                = Some true) /\
  (forall b w r w',
      Mongo.serve regex_i cond_op query_accepted (Mongo.post_product_base64 b) w
      = (r, w') ->
      Mongo.status r < 400 ->
      exists p, Mongo.body r = Mongo.JProduct p /\
                test_anchored whatsapp_re (VStr (Mongo.whatsapp p))
                = Some true) /\
  (forall b w r w',
      Github.serve (Github.post_product b) w = (r, w') ->
      Github.status r < 400 ->
      exists msg p,
        Github.body r = Github.JAdded true msg p /\
        test_anchored whatsapp_re (VStr (Github.whatsapp p)) = Some true) /\
  (forall b image w,
      test_anchored whatsapp_re (Mongo.b_whatsapp b) = Some false ->
      let rw := Mongo.serve regex_i cond_op query_accepted
                  (Mongo.post_product_route b image) w in
      Mongo.coll (snd rw) = Mongo.coll w
      /\ Mongo.next_oid (snd rw) = Mongo.next_oid w
      /\ (image = None \/ Mongo.fails 0 w = false ->
          exists msg,
            fst rw = Mongo.res_status_json 400 (Mongo.JError msg))).
Proof.
  split; [|split; [|split; [|split; [|split; [|split; [|split; [|split;
    [|split]]]]]]]].
  - intros; apply post_product_rejects_whatsapp; assumption.
  - intros; apply post_product_base64_rejects_whatsapp; assumption.
  - intros; apply gh_post_product_rejects_whatsapp; assumption.
  - intros b f w H. cbv zeta.
    destruct (Mongo.fields_missing b) eqn:Hm.
    { rewrite post_product_missing_fields by assumption.
      split; [reflexivity|]. split; [left; reflexivity | discriminate]. }
    destruct f as [file|].
    + destruct (post_product_unconvertible regex_i cond_op query_accepted
                  b file w Hm H) as (E & C & _).
      rewrite E. split; [exact C|].
      split; [right; reflexivity | reflexivity].
    + rewrite post_product_missing_image by assumption.
      split; [reflexivity|]. split; [left; reflexivity | congruence].
  - intros b w H. cbv zeta.
    destruct (Mongo.fields_missing b
              || negb (truthy (Mongo.b_imageBase64 b)))%bool eqn:Hm.
    + unfold Mongo.serve, Mongo.post_product_base64. rewrite Hm.
      split; [reflexivity|]. split; [left; reflexivity | discriminate].
    + rewrite post_product_base64_unconvertible by assumption.
      split; [reflexivity|]. split; [right; reflexivity | reflexivity].
  - intros b w H. cbv zeta.
    destruct (Github.fields_missing b) eqn:Hm.
    + unfold Github.serve, Github.post_product. rewrite Hm.
      split; [reflexivity|]. split; [left; reflexivity | discriminate].
    + rewrite gh_post_product_unconvertible by assumption.
      split; [reflexivity|]. split; [right; reflexivity | reflexivity].
  - intros b f w r w' H S.
    apply post_product_created in H; [|lia|lia].
    destruct H as (file & nm & sl & wa & ds & pr & p & _ & _ & _ & _ & _
                   & Hwa & _ & Hv & -> & _).
    exists p. split; [reflexivity|].
    unfold Mongo.schema_validate in Hv. cbn in Hv.
    destruct pr; [discriminate|].
    destruct (Mongo.b_condition b); try discriminate.
    match type of Hv with (if ?c then _ else _) = _ => destruct c end;
      [|discriminate].
    injection Hv as <-. cbn [Mongo.whatsapp].
    apply test_anchored_str. rewrite (whatsapp_trim_id _ Hwa). exact Hwa.
  - intros b w r w' H S.
    apply post_product_base64_created in H; [|lia|lia].
    destruct H as (nm & sl & wa & ds & pr & up & p & _ & _ & _ & _ & Hwa
                   & _ & Hv & -> & _).
    exists p. split; [reflexivity|].
    unfold Mongo.schema_validate in Hv. cbn in Hv.
    destruct pr; [discriminate|].
    destruct (Mongo.b_condition b); try discriminate.
    match type of Hv with (if ?c then _ else _) = _ => destruct c end;
      [|discriminate].
    injection Hv as <-. cbn [Mongo.whatsapp].
    apply test_anchored_str. rewrite (whatsapp_trim_id _ Hwa). exact Hwa.
  - intros b w r w' H S.
    apply gh_post_product_created in H; [|lia|lia].
    destruct H as (nm & sl & wa & ds & pr & _ & _ & _ & _ & Hwa & _ & ->
                   & _).
    eexists _, _. split; [reflexivity|].
    cbn [Github.whatsapp].
    apply test_anchored_str. rewrite (whatsapp_trim_id _ Hwa). exact Hwa.
  - intros b image w H. cbv zeta.
    destruct image as [c|].
    + destruct (Mongo.fails 0 w) eqn:F.
      * rewrite route_upload_failed by assumption.
        split; [reflexivity|]. split; [reflexivity|].
        intros [E|E]; discriminate E.
      * rewrite route_after_upload by assumption.
        destruct (post_product_rejects_whatsapp regex_i cond_op
                    query_accepted b (Some (Mongo.uploaded_file w))
                    (Mongo.after_upload w) H) as (msg & E).
        rewrite E. split; [reflexivity|]. split; [reflexivity|].
        intros _. exists msg. reflexivity.
    + rewrite route_without_image.
      destruct (post_product_rejects_whatsapp regex_i cond_op
                  query_accepted b None w H) as (msg & E).
      rewrite E. split; [reflexivity|]. split; [reflexivity|].
      intros _. exists msg. reflexivity.
Qed.

End Create.

(** On the desk: the bad phone number is refused by both servers, the good
    one comes back in the created listing, and a phone number that is an
    object without a string is answered 500 with nothing stored. *)
Lemma whatsapp_checked_witness :
  (exists msg,
      Mongo.serve Samples.no_match Samples.no_cond Samples.accept_all
        (Mongo.post_product Samples.desk_bad_phone None) Samples.empty_store
      = (Mongo.res_status_json 400 (Mongo.JError msg), Samples.empty_store))
  /\ (exists msg,
         Github.serve (Github.post_product Samples.gh_desk_bad_phone)
                      Samples.no_file
         = (Github.res_status_json 400 (Github.JFail false msg None),
            Samples.no_file))
  /\ snd (Github.serve (Github.post_product Samples.gh_desk_object_phone)
                       Samples.no_file)
     = Samples.no_file
  /\ (exists p,
         Mongo.body
           (fst (Mongo.serve Samples.no_match Samples.no_cond
                   Samples.accept_all
                   (Mongo.post_product Samples.desk (Some Samples.desk_image))
                   Samples.empty_store))
         = Mongo.JProduct p
         /\ JS.test_anchored JS.whatsapp_re (JS.VStr (Mongo.whatsapp p))
            = Some true).
Proof.
  pose proof (whatsapp_checked_before_any_write
                Samples.no_match Samples.no_cond Samples.accept_all)
    as (H1 & _ & H3 & _ & _ & H6 & H7 & _).
  split; [|split; [|split]].
  - apply H1. reflexivity.
  - apply H3. reflexivity.
  - apply (H6 Samples.gh_desk_object_phone Samples.no_file). reflexivity.
  - eapply H7.
    + apply surjective_pairing.
    + vm_compute. reflexivity.
Defined.

(** C1 as stated fails: a JSON body can give [whatsapp] as an object that
    has no string; the pattern does not match it, the test throws, and the
    base64 and the file-backed create answer 500, not 400. *)
Lemma whatsapp_without_string_is_answered_500 :
  JS.test_anchored JS.whatsapp_re
    (Mongo.b_whatsapp Samples.desk_object_phone) <> Some true
  /\ Mongo.status
       (fst (Mongo.serve Samples.no_match Samples.no_cond Samples.accept_all
               (Mongo.post_product_base64 Samples.desk_object_phone)
               Samples.empty_store)) = 500
  /\ Github.status
       (fst (Github.serve (Github.post_product Samples.gh_desk_object_phone)
                          Samples.no_file)) = 500
  /\ Github.status
       (fst (Github.serve (Github.post_product Samples.gh_desk_object_phone)
                          Samples.no_file)) <> 400.
Proof.
  split; [discriminate|]. split; [reflexivity|]. split; [reflexivity|].
  vm_compute. discriminate.
Qed.

(** A 400 of the multipart handler is a failed check: the handler has
    called no service. *)
Lemma post_product_400_no_call
      (regex_i cond_op : JS.jsval -> string -> bool)
      (query_accepted : Mongo.mquery -> bool)
      (b : Mongo.body_fields) (f : option Mongo.file) (w : Mongo.world) :
  Mongo.status (fst (Mongo.serve regex_i cond_op query_accepted
                                 (Mongo.post_product b f) w)) = 400 ->
  snd (Mongo.serve regex_i cond_op query_accepted (Mongo.post_product b f) w)
  = w.
Proof.
  unfold Mongo.serve, Mongo.post_product, call_test, call_parseInt.
  destruct (Mongo.fields_missing b); [reflexivity|].
  destruct f as [file|]; [|reflexivity].
  assert (K : forall w',
    Mongo.status
      (fst (run (Mongo.handle regex_i cond_op query_accepted)
              (if JS.truthy (JS.VStr (Mongo.filename file))
               then Vis (Mongo.Destroy (Mongo.filename file))
                        (fun _ => Ret (Mongo.res_status_json 500
                                         (Mongo.JError
                                            "Failed to save product")))
               else Ret (Mongo.res_status_json 500
                           (Mongo.JError "Failed to save product")))
              w')) = 400 -> False).
  { intros w'. destruct (JS.truthy (JS.VStr (Mongo.filename file)));
      cbn [run Mongo.handle]; unfold Mongo.remote;
      try destruct (Mongo.faults w') as [|[] ?];
      cbn [run fst Mongo.status Mongo.res_status_json]; discriminate. }
  destruct (JS.test_anchored JS.whatsapp_re (Mongo.b_whatsapp b))
    as [[|]|]; [| reflexivity |].
  - intros H. exfalso. revert H.
    destruct (Mongo.b_name b) as [| | | |nm|]; try apply K.
    destruct (JS.parseInt (Mongo.b_price b)) as [pr|]; [|apply K].
    destruct (Mongo.b_seller b) as [| | | |sl|]; try apply K.
    destruct (Mongo.b_whatsapp b) as [| | | |wa|]; try apply K.
    destruct (Mongo.b_description b) as [| | | |ds|]; try apply K.
    cbn [run handler_try bind bind_prog await perform ret throw try_catch
         Mongo.handle call_trim negb].
    match goal with
    | |- context [Mongo.schema_validate ?d] =>
        destruct (Mongo.schema_validate d) as [p|]
    end; [|apply K].
    unfold Mongo.remote.
    destruct (Mongo.faults w) as [|[] fs];
      cbn [run handler_try bind bind_prog await perform ret throw try_catch
           Mongo.handle Mongo.coll];
      try apply K;
      (destruct (existsb (Mongo.has_id (Mongo._id p)) (Mongo.coll w));
       [apply K|]);
      cbn [run handler_try bind bind_prog await perform ret throw try_catch
           Mongo.handle Mongo.coll fst Mongo.status Mongo.res_status_json];
      discriminate.
  - intros H. exfalso. revert H. apply K.
Qed.

(** C7, as the route has it: the upload middleware stores the image of the
    request at the image host before the handler runs; the handler then
    checks the presence of the text fields, the presence of the image and
    the format of the phone number, in this order.  A request with every
    text field, no image and a malformed [whatsapp] is answered 400 for the
    missing image; every other request is answered for the first check it
    fails.  A failed check (status 400) leaves the listing store as it was
    and the handler makes no call; but an image that came with the request
    has been stored, and stays, at the image host. *)
Theorem multipart_validation_order
        (regex_i : JS.jsval -> string -> bool)
        (cond_op : JS.jsval -> string -> bool)
        (query_accepted : Mongo.mquery -> bool)
        (b : Mongo.body_fields) (image : option JS.jsval) (w : Mongo.world) :
  let rw := Mongo.serve regex_i cond_op query_accepted
              (Mongo.post_product_route b image) w in
  (Mongo.fields_missing b = true ->
   image = None \/ Mongo.fails 0 w = false ->
   fst rw = Mongo.res_status_json 400 (Mongo.JError "All fields are required"))
  /\ (Mongo.fields_missing b = false -> image = None ->
      rw = (Mongo.res_status_json 400
              (Mongo.JError "Product image is required"), w))
  /\ (Mongo.fields_missing b = false -> image <> None ->
      Mongo.fails 0 w = false ->
      JS.test_anchored JS.whatsapp_re (Mongo.b_whatsapp b) = Some false ->
      fst rw = Mongo.res_status_json 400
                 (Mongo.JError "Invalid WhatsApp number format"))
  /\ (Mongo.status (fst rw) = 400 ->
      Mongo.coll (snd rw) = Mongo.coll w
      /\ match image with
         | None => snd rw = w
         | Some _ => snd rw = Mongo.after_upload w
         end).
Proof.
  cbv zeta. split; [|split; [|split]].
  - intros Hm [-> | F].
    + rewrite route_without_image, post_product_missing_fields by assumption.
      reflexivity.
    + destruct image as [c|].
      * rewrite route_after_upload, post_product_missing_fields
          by assumption.
        reflexivity.
      * rewrite route_without_image, post_product_missing_fields
          by assumption.
        reflexivity.
  - intros Hm ->.
    rewrite route_without_image. apply post_product_missing_image.
    exact Hm.
  - intros Hm Hi F Hwa. destruct image as [c|]; [|congruence].
    rewrite route_after_upload, post_product_bad_whatsapp by assumption.
    reflexivity.
  - destruct image as [c|].
    + destruct (Mongo.fails 0 w) eqn:F.
      * rewrite route_upload_failed by assumption. discriminate.
      * rewrite route_after_upload by assumption. intros H.
        apply post_product_400_no_call in H. rewrite H.
        split; reflexivity.
    + rewrite route_without_image. intros H.
      apply post_product_400_no_call in H. rewrite H.
      split; reflexivity.
Qed.

(** On the desk with the bad phone number, without and with an image. *)
Lemma multipart_validation_order_witness :
  Mongo.serve Samples.no_match Samples.no_cond Samples.accept_all
    (Mongo.post_product_route Samples.desk_bad_phone None)
    Samples.empty_store
  = (Mongo.res_status_json 400 (Mongo.JError "Product image is required"),
     Samples.empty_store)
  /\ fst (Mongo.serve Samples.no_match Samples.no_cond Samples.accept_all
            (Mongo.post_product_route Samples.desk_bad_phone
                                      (Some Samples.desk_photo))
            Samples.empty_store)
     = Mongo.res_status_json 400
         (Mongo.JError "Invalid WhatsApp number format")
  /\ snd (Mongo.serve Samples.no_match Samples.no_cond Samples.accept_all
            (Mongo.post_product_route Samples.desk_bad_phone
                                      (Some Samples.desk_photo))
            Samples.empty_store)
     = Mongo.after_upload Samples.empty_store.
Proof.
  split; [|split].
  - apply (proj1 (proj2 (multipart_validation_order
                           Samples.no_match Samples.no_cond
                           Samples.accept_all
                           Samples.desk_bad_phone None Samples.empty_store)));
      reflexivity.
  - apply (proj1 (proj2 (proj2 (multipart_validation_order
                           Samples.no_match Samples.no_cond
                           Samples.accept_all
                           Samples.desk_bad_phone (Some Samples.desk_photo)
                           Samples.empty_store))));
      [reflexivity | discriminate | reflexivity | reflexivity].
  - apply (proj2 (proj2 (proj2 (multipart_validation_order
                           Samples.no_match Samples.no_cond
                           Samples.accept_all
                           Samples.desk_bad_phone (Some Samples.desk_photo)
                           Samples.empty_store)))).
    reflexivity.
Defined.

(** C7 as stated fails twice.  With every text field present, a malformed
    [whatsapp] and no image, the 400 response names the missing image, not
    the phone number.  And with an image, the failed check of the phone
    number comes after a write: the image is at the image host, and stays
    there. *)
Lemma multipart_phone_check_is_not_second :
  Mongo.fields_missing Samples.desk_bad_phone = false
  /\ JS.test_anchored JS.whatsapp_re
       (Mongo.b_whatsapp Samples.desk_bad_phone) = Some false
  /\ fst (Mongo.serve Samples.no_match Samples.no_cond Samples.accept_all
            (Mongo.post_product_route Samples.desk_bad_phone None)
            Samples.empty_store)
     = Mongo.res_status_json 400 (Mongo.JError "Product image is required")
  /\ fst (Mongo.serve Samples.no_match Samples.no_cond Samples.accept_all
            (Mongo.post_product_route Samples.desk_bad_phone None)
            Samples.empty_store)
     <> Mongo.res_status_json 400
          (Mongo.JError "Invalid WhatsApp number format")
  /\ Mongo.status
       (fst (Mongo.serve Samples.no_match Samples.no_cond Samples.accept_all
               (Mongo.post_product_route Samples.desk_bad_phone
                                         (Some Samples.desk_photo))
               Samples.empty_store)) = 400
  /\ Mongo.images Samples.empty_store = []
  /\ Mongo.images
       (snd (Mongo.serve Samples.no_match Samples.no_cond Samples.accept_all
               (Mongo.post_product_route Samples.desk_bad_phone
                                         (Some Samples.desk_photo))
               Samples.empty_store))
     = ["juit-olx-products/product_1000"]
  /\ Mongo.journal
       (snd (Mongo.serve Samples.no_match Samples.no_cond Samples.accept_all
               (Mongo.post_product_route Samples.desk_bad_phone
                                         (Some Samples.desk_photo))
               Samples.empty_store))
     = [Mongo.OpUpload "juit-olx-products/product_1000"].
Proof.
  split; [reflexivity|]. split; [reflexivity|]. split; [reflexivity|].
  split; [vm_compute; discriminate|].
  split; [reflexivity|]. split; [reflexivity|]. split; reflexivity.
Qed.

(** C9, as the servers have it: a create that succeeds answers with the
    created listing in every server, with status 201 in the document-store
    server (multipart and base64) and with status 200 in the file-backed
    and the minimal server. *)
Theorem create_success_response
        (regex_i : JS.jsval -> string -> bool)
        (cond_op : JS.jsval -> string -> bool)
        (query_accepted : Mongo.mquery -> bool) :
  (forall b f w r w',
      Mongo.serve regex_i cond_op query_accepted (Mongo.post_product b f) w = (r, w') ->
      Mongo.status r < 400 ->
      exists p, r = Mongo.res_status_json 201 (Mongo.JProduct p)
                /\ In p (Mongo.coll w'))
  /\ (forall b w r w',
         Mongo.serve regex_i cond_op query_accepted (Mongo.post_product_base64 b) w
         = (r, w') ->
         Mongo.status r < 400 ->
         exists p, r = Mongo.res_status_json 201 (Mongo.JProduct p)
                   /\ In p (Mongo.coll w'))
  /\ (forall b w r w',
         Github.serve (Github.post_product b) w = (r, w') ->
         Github.status r < 400 ->
         exists p rest,
           r = Github.mkRes 200
                 (Github.JAdded true "Product added successfully" p)
           /\ option_map Github.content (Github.repo w') = Some (p :: rest))
  /\ (forall b w r w',
         Minimal.serve (Minimal.post_product b) w = (Normal r, w') ->
         exists p, r = Minimal.mkRes 200 (Minimal.JProduct p)
                   /\ In p (Minimal.coll w')).
Proof.
  split; [|split; [|split]].
  - intros b f w r w' H S.
    apply post_product_created in H; [|lia|lia].
    destruct H as (? & ? & ? & ? & ? & ? & p & _ & _ & _ & _ & _ & _ & _ & _
                   & -> & E).
    exists p. split; [reflexivity|]. rewrite E. apply in_or_app. right.
    left. reflexivity.
  - intros b w r w' H S.
    apply post_product_base64_created in H; [|lia|lia].
    destruct H as (? & ? & ? & ? & ? & ? & p & _ & _ & _ & _ & _ & _ & _
                   & -> & E).
    exists p. split; [reflexivity|]. rewrite E. apply in_or_app. right.
    left. reflexivity.
  - intros b w r w' H S.
    apply gh_post_product_created in H; [|lia|lia].
    destruct H as (? & ? & ? & ? & ? & _ & _ & _ & _ & _ & _ & -> & E).
    eexists _, _. split; [reflexivity|exact E].
  - intros b w r w' H.
    apply min_post_product_created in H as (p & -> & _ & E).
    exists p. split; [reflexivity|]. rewrite E. apply in_or_app. right.
    left. reflexivity.
Qed.

(** Creating the desk in an empty store, in both servers. *)
Lemma create_success_response_witness :
  (exists p,
      fst (Mongo.serve Samples.no_match Samples.no_cond Samples.accept_all
             (Mongo.post_product Samples.desk (Some Samples.desk_image))
             Samples.empty_store)
      = Mongo.res_status_json 201 (Mongo.JProduct p))
  /\ (exists p,
         fst (Github.serve (Github.post_product Samples.gh_desk)
                           Samples.no_file)
         = Github.mkRes 200
             (Github.JAdded true "Product added successfully" p)).
Proof.
  pose proof (create_success_response Samples.no_match Samples.no_cond Samples.accept_all)
    as (H1 & _ & H3 & _).
  split.
  - destruct (H1 Samples.desk (Some Samples.desk_image) Samples.empty_store
                 (fst (Mongo.serve Samples.no_match Samples.no_cond Samples.accept_all
                         (Mongo.post_product Samples.desk
                                             (Some Samples.desk_image))
                         Samples.empty_store))
                 (snd (Mongo.serve Samples.no_match Samples.no_cond Samples.accept_all
                         (Mongo.post_product Samples.desk
                                             (Some Samples.desk_image))
                         Samples.empty_store)))
      as (p & E & _).
    + apply surjective_pairing.
    + vm_compute. reflexivity.
    + exists p. exact E.
  - destruct (H3 Samples.gh_desk Samples.no_file
                 (fst (Github.serve (Github.post_product Samples.gh_desk)
                                    Samples.no_file))
                 (snd (Github.serve (Github.post_product Samples.gh_desk)
                                    Samples.no_file)))
      as (p & rest & E & _).
    + apply surjective_pairing.
    + vm_compute. reflexivity.
    + exists p. exact E.
Defined.

(** C9 as stated fails: the file-backed server answers a successful create
    with status 200, and so does the minimal server. *)
Lemma file_backed_create_answers_200 :
  Github.status (fst (Github.serve (Github.post_product Samples.gh_desk)
                                   Samples.no_file)) = 200
  /\ Github.status (fst (Github.serve (Github.post_product Samples.gh_desk)
                                      Samples.no_file)) <> 201
  /\ option_map (fun f => List.length (Github.content f))
                (Github.repo (snd (Github.serve
                                     (Github.post_product Samples.gh_desk)
                                     Samples.no_file))) = Some 1%nat
  /\ (exists r w',
         Minimal.serve (Minimal.post_product Samples.min_desk)
                       Samples.min_empty = (Normal r, w')
         /\ Minimal.status r = 200).
Proof.
  split; [reflexivity|]. split; [vm_compute; discriminate|].
  split; [reflexivity|].
  eexists _, _. split; reflexivity.
Qed.

(** ** Reading the list and deleting from it *)

Section GithubReads.
Import JS Github.

(** C10: when the read of [products.json] fails (the file does not exist,
    or the call fails on its way), [GET /api/products] of the file-backed
    server still answers 200 with [success: true], the three built-in demo
    listings and [source: "demo"]. *)
Theorem demo_listings_when_read_fails (w : world) :
  repo w = None \/ (exists fs, faults w = true :: fs) ->
  exists w',
    serve get_products w
    = (mkRes 200 (JList true (demoProducts (now w) (now w) (now w)) "demo"),
       w')
    /\ map (fun p => (id p, name p, price p, seller p))
           (demoProducts (now w) (now w) (now w))
       = [ (1, "Gaming Laptop RTX 3060", Num 85000, "Alex Kumar");
           (2, "Study Table with Storage", Num 4500, "Priya Singh");
           (3, "Mountain Bike Trek", Num 25000, "Rahul Sharma") ]
    /\ repo w' = repo w.
Proof.
  intros H. unfold serve, get_products.
  cbn [run handler_try bind bind_prog await perform ret try_catch handle].
  unfold remote.
  destruct H as [H | (fs & H)].
  - rewrite H. destruct (faults w) as [|[] fs];
      cbn [run handler_try bind bind_prog await perform ret try_catch handle
           repo now];
      eexists; repeat split.
  - rewrite H.
    cbn [run handler_try bind bind_prog await perform ret try_catch handle
         repo now].
    eexists; repeat split.
Qed.

Lemma findIndex_none {A} (f : A -> bool) (l : list A) :
  (forall x, In x l -> f x = false) -> findIndex f l = None.
Proof.
  induction l as [|a l IH]; intros H; simpl; [reflexivity|].
  rewrite (H a) by (left; reflexivity).
  rewrite IH; [reflexivity|]. intros x Hx. apply H. right. exact Hx.
Qed.

(** Deleting an id that no stored listing has, in the file-backed server:
    the file is left as it is, and the answer is 404 when the read
    succeeds. *)
Lemma gh_delete_absent (param : string) (w : world) :
  (forall f p, repo w = Some f -> In p (content f) ->
               id_is (parseInt_string param) p = false) ->
  repo (snd (serve (delete_product param) w)) = repo w
  /\ (forall f, repo w = Some f -> hd false (faults w) = false ->
      fst (serve (delete_product param) w)
      = res_status_json 404 (JFail false "Product not found" None)
      /\ journal (snd (serve (delete_product param) w)) = OpGet :: journal w).
Proof.
  intros H. unfold serve, delete_product.
  cbn [run handler_try bind bind_prog await perform ret try_catch handle].
  unfold remote.
  destruct (repo w) as [f|] eqn:Hr.
  - destruct (faults w) as [|[] fs];
      cbn [run handler_try bind bind_prog ret fst snd repo journal hd];
      rewrite ?(findIndex_none _ _ (fun p => H f p eq_refl));
      cbn [run handler_try bind bind_prog ret fst snd repo journal];
      (split; [reflexivity|]); intros f' Ef Hf;
      try discriminate; split; reflexivity.
  - destruct (faults w) as [|[] fs];
      cbn [run handler_try bind bind_prog ret fst snd repo journal];
      (split; [reflexivity|]); intros f' Ef; discriminate.
Qed.

End GithubReads.

(** Before [products.json] exists the list is the demo list. *)
Lemma demo_listings_witness :
  exists w',
    Github.serve Github.get_products Samples.no_file
    = (Github.mkRes 200
         (Github.JList true (Github.demoProducts 1000 1000 1000) "demo"), w').
Proof.
  destruct (demo_listings_when_read_fails Samples.no_file (or_introl eq_refl))
    as (w' & E & _).
  exists w'. exact E.
Defined.

Section MongoDelete.
Import JS Mongo.

Variable regex_i : jsval -> string -> bool.
Variable cond_op : jsval -> string -> bool.
Variable query_accepted : mquery -> bool.

(** Deleting an id that no document has, in the document-store server: the
    collection and the images are left as they are, nothing is written, and
    the answer is 404 when the lookup is answered. *)
Lemma delete_absent (i : oid) (w : world) :
  lookup i w = None ->
  let rw := serve regex_i cond_op query_accepted (delete_product (IdHex i)) w in
  coll (snd rw) = coll w /\ images (snd rw) = images w
  /\ journal (snd rw) = OpQuery :: journal w
  /\ (hd false (faults w) = false ->
      fst rw = res_status_json 404 (JError "Product not found")).
Proof.
  unfold lookup. intros H. unfold Mongo.serve, delete_product.
  cbn [run handler_try bind bind_prog await perform ret try_catch handle].
  unfold remote. cbn [coll].
  destruct (faults w) as [|[] fs];
    cbn [run handler_try bind bind_prog ret fst snd coll images journal hd];
    rewrite ?H;
    cbn [run handler_try bind bind_prog ret fst snd coll images journal hd];
    repeat split; try reflexivity; discriminate.
Qed.

(** An id that is no ObjectId is refused before the store is asked. *)
Lemma delete_malformed (s : string) (w : world) :
  serve regex_i cond_op query_accepted (delete_product (IdMalformed s)) w
  = (res_status_json 500 (JError "Failed to delete product"), w).
Proof. reflexivity. Qed.

End MongoDelete.

(** X23: deleting an identifier that is not in the store leaves the store
    as it is (no listing removed, no image deleted, no write sent), and the
    answer is 404 whenever the lookup that comes first is answered: in the
    document-store server for a well-formed id that no document has, when
    the query goes through; in the file-backed server for the decimal
    numeral of a safe integer that no listing of [products.json] has as its
    id, when the file exists and its read goes through. *)
Theorem delete_of_absent_id
        (regex_i : JS.jsval -> string -> bool)
        (cond_op : JS.jsval -> string -> bool)
        (query_accepted : Mongo.mquery -> bool) :
  (forall i w,
      Mongo.lookup i w = None ->
      let rw := Mongo.serve regex_i cond_op query_accepted
                  (Mongo.delete_product (Mongo.IdHex i)) w in
      Mongo.coll (snd rw) = Mongo.coll w
      /\ Mongo.images (snd rw) = Mongo.images w
      /\ Mongo.journal (snd rw) = Mongo.OpQuery :: Mongo.journal w
      /\ (hd false (Mongo.faults w) = false ->
          fst rw = Mongo.res_status_json 404
                     (Mongo.JError "Product not found")))
  /\ (forall z w,
         - JS.MAX_SAFE_INTEGER <= z <= JS.MAX_SAFE_INTEGER ->
         (forall f, Github.repo w = Some f ->
                    ~ In z (map Github.id (Github.content f))) ->
         let rw := Github.serve
                     (Github.delete_product (JS.string_of_Z z)) w in
         Github.repo (snd rw) = Github.repo w
         /\ (forall f, Github.repo w = Some f ->
                       hd false (Github.faults w) = false ->
             fst rw = Github.res_status_json 404
                        (Github.JFail false "Product not found" None)
             /\ Github.journal (snd rw)
                = Github.OpGet :: Github.journal w)).
Proof.
  split.
  - intros i w H. apply delete_absent. exact H.
  - intros z w _ H. apply gh_delete_absent.
    intros f p E Hp. rewrite parseInt_string_of_Z.
    unfold Github.id_is. apply Z.eqb_neq. intros Heq.
    apply (H f E). apply in_map_iff. exists p. split; assumption.
Qed.

(** Deleting ids that the sample stores do not hold. *)
Lemma delete_of_absent_id_witness :
  fst (Mongo.serve Samples.no_match Samples.no_cond Samples.accept_all
         (Mongo.delete_product (Mongo.IdHex 7%N)) Samples.three_listings)
  = Mongo.res_status_json 404 (Mongo.JError "Product not found")
  /\ fst (Github.serve (Github.delete_product "5") Samples.two_in_file)
     = Github.res_status_json 404
         (Github.JFail false "Product not found" None)
  /\ Github.repo (snd (Github.serve (Github.delete_product "5")
                                    Samples.two_in_file))
     = Github.repo Samples.two_in_file.
Proof.
  pose proof (delete_of_absent_id Samples.no_match Samples.no_cond
                                  Samples.accept_all)
    as (HA & HB).
  assert (Hsafe : - JS.MAX_SAFE_INTEGER <= 5 <= JS.MAX_SAFE_INTEGER)
    by (unfold JS.MAX_SAFE_INTEGER; lia).
  assert (Habs : forall f, Github.repo Samples.two_in_file = Some f ->
                           ~ In 5 (map Github.id (Github.content f))).
  { intros f E. injection E as <-. cbn. intuition discriminate. }
  split; [|split].
  - apply (HA 7%N Samples.three_listings); reflexivity.
  - eapply (HB 5 Samples.two_in_file Hsafe Habs); reflexivity.
  - apply (HB 5 Samples.two_in_file Hsafe Habs).
Defined.

(** C4: before [products.json] exists no identifier is in the store, yet
    the file-backed delete does not answer 404: the read of the file is
    outside any inner [try], its 404 ends in the [catch] of the handler,
    and the answer is 500.  The list and the create of the same server take
    the missing file for an empty list: the list answers 200, the create
    answers 200 and makes the file. *)
Theorem delete_without_file_answers_500 :
  Github.repo Samples.no_file = None
  /\ (exists errorText,
         fst (Github.serve (Github.delete_product "5") Samples.no_file)
         = Github.res_status_json 500
             (Github.JFail false "Failed to delete product"
                           (Some (Github.api_error "404" errorText))))
  /\ Github.status
       (fst (Github.serve (Github.delete_product "5") Samples.no_file))
     <> 404
  /\ Github.repo
       (snd (Github.serve (Github.delete_product "5") Samples.no_file))
     = None
  /\ Github.status
       (fst (Github.serve Github.get_products Samples.no_file)) = 200
  /\ Github.status
       (fst (Github.serve (Github.post_product Samples.gh_desk)
                          Samples.no_file)) = 200
  /\ option_map (fun f => List.length (Github.content f))
       (Github.repo (snd (Github.serve (Github.post_product Samples.gh_desk)
                                       Samples.no_file)))
     = Some 1%nat.
Proof.
  split; [reflexivity|]. split; [eexists; reflexivity|].
  split; [vm_compute; discriminate|].
  split; [reflexivity|]. split; [reflexivity|]. split; reflexivity.
Qed.

(** ** Statistics *)

Section MongoStats.
Import JS Mongo.

Variable regex_i : jsval -> string -> bool.
Variable cond_op : jsval -> string -> bool.
Variable query_accepted : mquery -> bool.

Lemma matches_active_only (p : product) :
  doc_matches regex_i cond_op active_only p = isActive p.
Proof.
  unfold doc_matches, active_only. cbn.
  destruct (isActive p); reflexivity.
Qed.

(** X22: what a successful [GET /api/stats] answers with: the number of
    active listings, no [totalSellers] at all, and the mean price of the
    active listings (0 when there is none). *)
Lemma get_stats_result (w w' : world) (r : response) :
  serve regex_i cond_op query_accepted get_stats w = (r, w') ->
  status r = 200 ->
  r = res_json
        (JStats (List.length (filter isActive (coll w)))
                VUndefined
                (first_avg_or_0 (avg_price (filter isActive (coll w))))).
Proof.
  unfold Mongo.serve, get_stats. intros H S.
  cbn [run handler_try bind bind_prog await ret handle] in H.
  destruct (query_accepted active_only) eqn:Hq;
    [|injection H as <- <-; discriminate].
  unfold remote in H. cbn [coll faults tl] in H.
  destruct (faults w) as [|[] fs];
    cbn [run handler_try bind bind_prog ret handle coll faults tl] in H;
    try (injection H as <- <-; discriminate);
    rewrite Hq in H; unfold remote in H;
    cbn [run handler_try bind bind_prog ret handle coll faults tl] in H;
    rewrite ?(filter_ext _ _ matches_active_only) in H.
  - injection H as <- <-. reflexivity.
  - destruct fs as [|[] fs'];
      cbn [run handler_try bind bind_prog ret coll faults tl] in H;
      injection H as <- <-; try discriminate; reflexivity.
Qed.

End MongoStats.

(** C6 at a store of three active listings by two sellers: the response
    counts the three listings and has their mean price, and its
    [totalSellers] is undefined where the distinct sellers number 2. *)
Theorem stats_totalSellers_is_undefined :
  fst (Mongo.serve Samples.no_match Samples.no_cond Samples.accept_all Mongo.get_stats
                   Samples.three_listings)
  = Mongo.res_json (Mongo.JStats 3 JS.VUndefined (3400 # 3))
  /\ List.length
       (nodup string_dec
              (map Mongo.seller (Mongo.coll Samples.three_listings)))
     = 2%nat.
Proof.
  split; reflexivity.
Qed.

(** ** Creating a listing and fetching it back *)

Section RoundTrip.
Import JS Mongo.

Variable regex_i : jsval -> string -> bool.
Variable cond_op : jsval -> string -> bool.
Variable query_accepted : mquery -> bool.

Lemma fresh_id_unused (w : world) :
  ids_fresh w -> forall p, In p (coll w) -> has_id (next_oid w) p = false.
Proof.
  intros [_ H] p Hp. rewrite Forall_forall in H. specialize (H p Hp).
  unfold has_id. apply N.eqb_neq. lia.
Qed.

Lemma existsb_false {A} (f : A -> bool) (l : list A) :
  (forall x, In x l -> f x = false) -> existsb f l = false.
Proof.
  induction l as [|a l IH]; intros H; simpl; [reflexivity|].
  rewrite (H a) by (left; reflexivity). apply IH.
  intros x Hx. apply H. right. exact Hx.
Qed.

Lemma find_last {A} (f : A -> bool) (l : list A) (d : A) :
  (forall x, In x l -> f x = false) -> f d = true ->
  find f (l ++ [d]) = Some d.
Proof.
  induction l as [|a l IH]; intros H Hd; simpl.
  - rewrite Hd. reflexivity.
  - rewrite (H a) by (left; reflexivity). apply IH; [|exact Hd].
    intros x Hx. apply H. right. exact Hx.
Qed.

Lemma not_empty_truthy (s : string) : s <> "" -> truthy (VStr s) = true.
Proof.
  intros H. simpl. apply negb_true_iff, String.eqb_neq. exact H.
Qed.

Lemma trim_empty : trim "" = "".
Proof. reflexivity. Qed.

Lemma in_enum_spec (c : string) : In c condition_enum -> in_enum c = true.
Proof.
  intros H. unfold in_enum. apply existsb_exists. exists c.
  split; [exact H | apply String.eqb_refl].
Qed.

(** C2: a listing created through the multipart route from valid fields
    and an image is what a fetch by its generated id returns: name, seller
    and description trimmed, the price parsed to an integer, whatsapp and
    condition as given, with the generated id and the creation time. *)
Theorem create_then_fetch_round_trip
        (nm pr sl wa cond ds : string) (img : jsval) (p : Z)
        (image : file) (w : world) :
  trim nm <> "" -> trim sl <> "" -> trim ds <> "" ->
  test_anchored whatsapp_re (VStr wa) = Some true ->
  In cond condition_enum ->
  parseInt (VStr pr) = Some (Num p) -> 1 <= p <= MAX_SAFE_INTEGER ->
  path image <> "" ->
  ids_fresh w ->
  hd false (faults w) = false -> hd false (tl (faults w)) = false ->
  exists created w1 fetched w2,
    serve regex_i cond_op query_accepted
      (post_product
         (mkBody (VStr nm) (VStr pr) (VStr sl) (VStr wa) (VStr cond)
                 (VStr ds) img)
         (Some image)) w
    = (res_status_json 201 (JProduct created), w1)
    /\ serve regex_i cond_op query_accepted (get_product (IdHex (_id created))) w1
       = (res_json (JProduct fetched), w2)
    /\ name fetched = trim nm /\ price fetched = p
    /\ seller fetched = trim sl /\ whatsapp fetched = wa
    /\ condition fetched = cond /\ description fetched = trim ds
    /\ imagePath fetched = path image
    /\ _id fetched = next_oid w /\ dateAdded fetched = now w.
Proof.
  intros Hnm Hsl Hds Hwa Hcond Hpr Hp Himg Hfresh Hf1 Hf2.
  assert (Enm : nm <> "") by (intros ->; apply Hnm, trim_empty).
  assert (Esl : sl <> "") by (intros ->; apply Hsl, trim_empty).
  assert (Eds : ds <> "") by (intros ->; apply Hds, trim_empty).
  pose proof (proj1 (test_anchored_str _ _ _) Hwa) as Hwa'.
  assert (Ewa : wa <> "") by (intros ->; discriminate Hwa').
  assert (Epr : pr <> "") by (intros ->; discriminate Hpr).
  assert (Ecd : cond <> "").
  { intros ->. simpl in Hcond. intuition discriminate. }
  pose (doc := mkProduct (next_oid w) (trim nm) p (trim sl) wa cond (trim ds)
                         (path image) (Some (filename image)) (now w) true).
  assert (Hv : schema_validate
                 (mkDraft (next_oid w)
                    (mkData (trim nm) (Num p) (trim sl) (trim wa)
                            (VStr cond) (trim ds) (path image)
                            (filename image)) (now w) true) = Some doc).
  { unfold schema_validate.
    cbn [draft_data d_name d_price d_seller d_whatsapp d_condition
         d_description d_imagePath d_imagePublicId draft_id draft_dateAdded
         draft_isActive].
    rewrite (whatsapp_trim_id _ Hwa'), Hwa', (in_enum_spec _ Hcond).
    rewrite !trim_idem. unfold required_string.
    rewrite !(proj2 (String.eqb_neq _ _)) by assumption.
    replace (1 <=? p) with true by (symmetry; apply Z.leb_le; lia).
    reflexivity. }
  exists doc.
  unfold Mongo.serve, post_product, fields_missing, call_test, call_parseInt.
  cbn [b_name b_price b_seller b_whatsapp b_condition b_description].
  rewrite !not_empty_truthy by assumption. rewrite Hwa, Hpr.
  cbn [run handler_try bind bind_prog await perform ret try_catch handle
       call_trim negb orb].
  rewrite Hv. unfold remote at 1.
  cbn [coll faults journal images next_oid now].
  change (_id doc) with (next_oid w).
  rewrite (existsb_false _ _ (fresh_id_unused w Hfresh)).
  destruct (faults w) as [|f1 fs]; [|simpl in Hf1; subst f1];
    cbn [run handler_try bind bind_prog ret set_coll coll faults journal
         images next_oid now tl hd] in *.
  - eexists. exists doc. eexists. split; [reflexivity|].
    change (_id doc) with (next_oid w). unfold get_product.
    cbn [run handler_try bind bind_prog await ret handle]. unfold remote.
    cbn [coll faults set_coll images next_oid now journal tl]. rewrite find_last;
      [|apply fresh_id_unused; assumption|apply N.eqb_refl].
    cbn [run handler_try bind bind_prog ret].
    repeat split.
  - eexists. exists doc. eexists. split; [reflexivity|].
    change (_id doc) with (next_oid w). unfold get_product.
    cbn [run handler_try bind bind_prog await ret handle]. unfold remote.
    cbn [coll faults set_coll images next_oid now journal tl]. rewrite find_last;
      [|apply fresh_id_unused; assumption|apply N.eqb_refl].
    destruct fs as [|f2 fs']; [|simpl in Hf2; subst f2];
      cbn [run handler_try bind bind_prog ret]; repeat split.
Qed.

End RoundTrip.

(** The desk, created in an empty store and fetched back. *)
Lemma create_then_fetch_witness :
  exists created w1 fetched w2,
    Mongo.serve Samples.no_match Samples.no_cond Samples.accept_all
      (Mongo.post_product Samples.desk (Some Samples.desk_image))
      Samples.empty_store
    = (Mongo.res_status_json 201 (Mongo.JProduct created), w1)
    /\ Mongo.serve Samples.no_match Samples.no_cond Samples.accept_all
         (Mongo.get_product (Mongo.IdHex (Mongo._id created))) w1
       = (Mongo.res_json (Mongo.JProduct fetched), w2)
    /\ Mongo.name fetched = "Desk" /\ Mongo.price fetched = 2000
    /\ Mongo.seller fetched = "A"
    /\ Mongo.whatsapp fetched = "919999999999"
    /\ Mongo.condition fetched = "Good"
    /\ Mongo.description fetched = "x".
Proof.
  destruct (create_then_fetch_round_trip
              Samples.no_match Samples.no_cond Samples.accept_all
              "Desk" "2000" "A" "919999999999" "Good" "x" JS.VUndefined 2000
              Samples.desk_image Samples.empty_store)
    as (c & w1 & f & w2 & H1 & H2 & E1 & E2 & E3 & E4 & E5 & E6 & _).
  - vm_compute. discriminate.
  - vm_compute. discriminate.
  - vm_compute. discriminate.
  - reflexivity.
  - simpl. tauto.
  - reflexivity.
  - unfold JS.MAX_SAFE_INTEGER. lia.
  - vm_compute. discriminate.
  - split; constructor.
  - reflexivity.
  - reflexivity.
  - exists c, w1, f, w2. repeat split; assumption.
Defined.

(** ** The creation time of a listing *)

Section DateAdded.
Import JS Mongo.

Variable regex_i : jsval -> string -> bool.
Variable cond_op : jsval -> string -> bool.
Variable query_accepted : mquery -> bool.

Lemma schema_validate_keeps (d : draft) (p : product) :
  schema_validate d = Some p ->
  _id p = draft_id d /\ dateAdded p = draft_dateAdded d.
Proof.
  unfold schema_validate.
  destruct (d_price (draft_data d)); [discriminate|].
  destruct (d_condition (draft_data d)); try discriminate.
  match goal with |- (if ?c then _ else _) = _ -> _ => destruct c end;
    [|discriminate].
  intros E. injection E as <-. split; reflexivity.
Qed.

(** Runs a handler forward, splitting on everything it branches on. *)
Ltac run_on :=
  cbn [run handler_try bind bind_prog await perform ret throw
       try_catch handle call_trim or_throw fst snd negb
       coll images next_oid now faults journal tl
       set_coll set_images];
  unfold remote.

Ltac forward :=
  repeat (run_on;
          match goal with
          | |- context [match faults ?w with _ => _ end] =>
              destruct (faults w) as [|[] ?]
          | |- context [call_trim _ ?v] =>
              lazymatch v with VStr _ => fail | _ => destruct v end
          | |- context [match ?x with _ => _ end] => is_var x; destruct x
          | |- context [match ?x with _ => _ end] =>
              lazymatch x with
              | context [match _ with _ => _ end] => fail
              | _ => idtac
              end;
              lazymatch type of x with
              | prod _ _ => fail
              | _ => destruct x eqn:?
              end
          end);
  run_on.

Ltac settle_change :=
  first
    [ apply unchanged; reflexivity
    | eapply inserted;
      [ reflexivity
      | match goal with
        | H : schema_validate _ = Some _ |- _ =>
            apply schema_validate_keeps in H; apply H
        end
      | cbn; lia ]
    | eapply updated; [reflexivity | eassumption | eassumption | reflexivity]
    | eapply removed; reflexivity ].

Lemma route_changes (r : request) (w : world) :
  let w' := snd (serve regex_i cond_op query_accepted (route r) w) in
  coll_change r w w' /\ (next_oid w <= next_oid w')%N.
Proof.
  destruct r as [q|id|b image|b|id u|id|]; cbv zeta;
    unfold Mongo.serve, route.
  - unfold get_products, or_throw. forward; (split; [settle_change | lia]).
  - unfold get_product. forward; (split; [settle_change | lia]).
  - unfold post_product_route, upload_single, post_product, call_test,
      call_parseInt.
    forward; (split; [settle_change | lia]).
  - unfold post_product_base64, call_test, call_parseInt.
    forward; (split; [settle_change | lia]).
  - unfold put_product. forward; (split; [settle_change | lia]).
  - unfold delete_product. forward; (split; [settle_change | lia]).
  - unfold get_stats. forward; (split; [settle_change | lia]).
Qed.



Lemma has_id_other (i j : oid) (q : product) :
  i <> j -> _id q = j -> has_id i q = false.
Proof. intros H E. unfold has_id. apply N.eqb_neq. congruence. Qed.

Lemma find_replace_same (j : oid) (q p : product) (l : list product) :
  find (has_id j) l = Some p -> has_id j q = true ->
  find (has_id j) (replace_doc j q l) = Some q.
Proof.
  intros H Hq. induction l as [|a l IH]; simpl in *; [discriminate|].
  destruct (has_id j a) eqn:E; simpl.
  - rewrite Hq. reflexivity.
  - rewrite E. apply IH. exact H.
Qed.

Lemma find_replace_other (i j : oid) (q : product) (l : list product) :
  i <> j -> _id q = j ->
  find (has_id i) (replace_doc j q l) = find (has_id i) l.
Proof.
  intros H Hq. induction l as [|a l IH]; simpl; [reflexivity|].
  destruct (has_id j a) eqn:E; simpl.
  - rewrite (has_id_other i j q H Hq).
    rewrite (has_id_other i j a H); [reflexivity|].
    apply N.eqb_eq. exact E.
  - rewrite IH. reflexivity.
Qed.

Lemma find_removed_same (j : oid) (l : list product) :
  find (has_id j) (filter (fun p => negb (has_id j p)) l) = None.
Proof.
  induction l as [|a l IH]; simpl; [reflexivity|].
  destruct (has_id j a) eqn:E; simpl; [exact IH|].
  rewrite E. exact IH.
Qed.

Lemma find_removed_other (i j : oid) (l : list product) :
  i <> j ->
  find (has_id i) (filter (fun p => negb (has_id j p)) l)
  = find (has_id i) l.
Proof.
  intros H. induction l as [|a l IH]; simpl; [reflexivity|].
  destruct (has_id j a) eqn:E; simpl.
  - rewrite (has_id_other i j a H); [exact IH|]. apply N.eqb_eq. exact E.
  - destruct (has_id i a); [reflexivity | exact IH].
Qed.

Lemma update_result_id (u : update) (p p' : product) :
  update_result u p = Some p' -> _id p' = _id p.
Proof.
  unfold update_result. destruct (u_operators u) as [f|].
  - destruct (f (apply_update u p)) as [q|]; [|discriminate].
    destruct (N.eqb (_id q) (_id p)) eqn:E; [|discriminate].
    intros H. injection H as <-. apply N.eqb_eq. exact E.
  - intros H. injection H as <-. reflexivity.
Qed.




Lemma map_id_replace (j : oid) (q : product) (l : list product) :
  _id q = j -> map _id (replace_doc j q l) = map _id l.
Proof.
  intros Hq. induction l as [|a l IH]; simpl; [reflexivity|].
  destruct (has_id j a) eqn:E; simpl.
  - apply N.eqb_eq in E. congruence.
  - rewrite IH. reflexivity.
Qed.

Lemma replace_doc_In (j : oid) (q x : product) (l : list product) :
  In x (replace_doc j q l) -> x = q \/ In x l.
Proof.
  induction l as [|a l IH]; simpl; [tauto|].
  destruct (has_id j a); simpl; intuition.
Qed.

Lemma NoDup_map_filter {A B} (f : A -> B) (g : A -> bool) (l : list A) :
  NoDup (map f l) -> NoDup (map f (filter g l)).
Proof.
  induction l as [|a l IH]; simpl; intros H; [constructor|].
  inversion H as [|? ? Hn Hd]; subst.
  destruct (g a); simpl; [constructor|]; auto.
  intros Hin. apply Hn. apply in_map_iff in Hin as (x & <- & Hx).
  apply in_map. apply filter_In in Hx. tauto.
Qed.

(** With ids drawn from a supply, the ids of the stored documents stay
    distinct and behind the supply, whatever requests are served. *)
Lemma ids_fresh_after_events (es : list event) (w : world) :
  ids_fresh w -> ids_fresh (after_events regex_i cond_op query_accepted es w).
Proof.
  revert w. induction es as [|e es IH]; intros w H; [exact H|].
  unfold after_events. simpl.
  fold (after_events regex_i cond_op query_accepted es
          (after_event regex_i cond_op query_accepted e w)).
  apply IH. destruct e as [r|ms]; [|exact H].
  destruct H as [Hd Hb]. simpl.
  pose proof (route_changes r w) as [C M]. cbv zeta in C, M.
  rewrite Forall_forall in Hb.
  destruct C as [E|q E Hq Hlt|j u p p2 _ Hp Hu E|j E]; unfold ids_fresh;
    rewrite E; split.
  - exact Hd.
  - apply Forall_forall. intros x Hx. specialize (Hb x Hx). lia.
  - rewrite map_app. simpl.
    apply NoDup_app; [exact Hd | repeat constructor; simpl; tauto |].
    intros x Hx [<-|[]]. apply in_map_iff in Hx as (y & Ey & Hy).
    specialize (Hb y Hy). lia.
  - apply Forall_forall. intros x Hx. apply in_app_or in Hx as [Hx|[<-|[]]].
    + specialize (Hb x Hx). lia.
    + lia.
  - rewrite map_id_replace; [exact Hd|].
    rewrite (update_result_id _ _ _ Hu).
    apply find_some in Hp as [_ Hp]. apply N.eqb_eq. exact Hp.
  - apply Forall_forall. intros x Hx.
    apply replace_doc_In in Hx as [->|Hx].
    + apply find_some in Hp as [Hp _]. specialize (Hb p Hp).
      rewrite (update_result_id _ _ _ Hu). lia.
    + specialize (Hb x Hx). lia.
  - apply NoDup_map_filter. exact Hd.
  - apply Forall_forall. intros x Hx. apply filter_In in Hx as [Hx _].
    specialize (Hb x Hx). lia.
Qed.


End DateAdded.



(** ** Two writers of the file *)

Section Race.
Import JS Github.









End Race.


(** * Further properties of the handlers *)

(** ** The phone-number pattern *)

Section PatternFacts.
Import JS.

(** X1: the pattern [^91\d{10}$] of the create handlers and of the schema
    accepts a string exactly when it is 9, 1 and ten decimal digits, twelve
    characters in all. *)
Theorem whatsapp_pattern_accepts_exactly (s : string) :
  test_anchored whatsapp_re (VStr s) = Some true <->
  exists rest,
    s = String "9" (String "1" rest)
    /\ String.length rest = 10%nat
    /\ forallb is_digit (list_ascii_of_string rest) = true.
Proof.
  rewrite test_anchored_str. unfold test_string.
  rewrite whatsapp_re_shape. split.
  - intros (ds & E & Hl & Hd). exists (string_of_list_ascii ds).
    rewrite list_ascii_of_string_of_list_ascii.
    repeat split; auto.
    + rewrite <- (string_of_list_ascii_of_string s), E. reflexivity.
    + rewrite <- Hl. clear. induction ds; simpl; congruence.
  - intros (rest & -> & Hl & Hd). exists (list_ascii_of_string rest).
    repeat split; auto.
    rewrite <- Hl. clear. induction rest; simpl; congruence.
Qed.

End PatternFacts.

(** ** The document-store server: queries *)

Section MongoQueries.
Import JS Mongo.

Variable regex_i : jsval -> string -> bool.
Variable cond_op : jsval -> string -> bool.
Variable query_accepted : mquery -> bool.

Lemma insert_doc_perm (s : sortspec) (x : product) (l : list product) :
  Permutation (insert_doc s x l) (x :: l).
Proof.
  induction l as [|y l IH]; simpl; [reflexivity|].
  destruct (sort_leb s x y); [reflexivity|].
  rewrite IH. apply perm_swap.
Qed.

Lemma sort_docs_perm (s : sortspec) (l : list product) :
  Permutation (sort_docs s l) l.
Proof.
  induction l as [|x l IH]; simpl; [reflexivity|].
  rewrite insert_doc_perm. constructor. exact IH.
Qed.

(** X2: a successful [GET /api/products] answers with exactly the active
    documents that the filter built from the parameters selects, each once.
    Price bounds (taken within the safe integers, where [parseInt] is
    exact) bound the prices inclusively; a condition given as a string
    selects the listings with that very condition, while an array or an
    object given as condition is for the store to evaluate; and the store
    is left as it was. *)
Theorem listing_query_selects (q : query_params) (w w' : world)
        (l : list product) :
  (forall n, parseInt (qp_minPrice q) = Some n -> safe_integer n) ->
  (forall n, parseInt (qp_maxPrice q) = Some n -> safe_integer n) ->
  serve regex_i cond_op query_accepted (get_products q) w
  = (res_json (JProducts l), w') ->
  exists mq,
    build_query q = Some mq
    /\ Permutation l (filter (doc_matches regex_i cond_op mq) (coll w))
    /\ Forall (fun p => isActive p = true) l
    /\ (forall lo, truthy (qp_minPrice q) = true ->
                   parseInt (qp_minPrice q) = Some (Num lo) ->
                   Forall (fun p => lo <= price p) l)
    /\ (forall hi, truthy (qp_maxPrice q) = true ->
                   parseInt (qp_maxPrice q) = Some (Num hi) ->
                   Forall (fun p => price p <= hi) l)
    /\ (forall c, qp_condition q = VStr c -> c <> "" ->
                  Forall (fun p => condition p = c) l)
    /\ coll w' = coll w.
Proof.
  intros _ _ H.
  destruct (get_products_result regex_i cond_op query_accepted q w w' l H)
    as (mq & Emq & E).
  exists mq. split; [exact Emq|].
  assert (P : Permutation l
                (filter (doc_matches regex_i cond_op mq) (coll w)))
    by (rewrite E; apply sort_docs_perm).
  assert (M : Forall (fun p => doc_matches regex_i cond_op mq p = true) l).
  { apply Forall_forall. intros p Hp.
    apply (Permutation_in _ P), filter_In in Hp. tauto. }
  split; [exact P|].
  pose proof Emq as Eq. unfold build_query in Eq.
  destruct (price_bound (qp_minPrice q)) as [lo'|] eqn:Elo; [|discriminate].
  destruct (price_bound (qp_maxPrice q)) as [hi'|] eqn:Ehi; [|discriminate].
  injection Eq as Eq. subst mq.
  split; [|split; [|split; [|split]]].
  - eapply Forall_impl; [|exact M]. intros p Hp. unfold doc_matches in Hp.
    cbn [q_isActive opt_ok] in Hp.
    destruct (isActive p); [reflexivity|discriminate].
  - intros lo Ht Hlo. unfold price_bound in Elo. rewrite Ht, Hlo in Elo.
    injection Elo as <-.
    eapply Forall_impl; [|exact M]. intros p Hp.
    unfold doc_matches in Hp. cbn [q_price] in Hp.
    rewrite Ht in Hp. cbn [orb opt_ok gte num_leb] in Hp.
    apply andb_prop in Hp as [Hp _]. apply andb_prop in Hp as [_ Hp].
    apply andb_prop in Hp as [Hp _]. apply Z.leb_le. exact Hp.
  - intros hi Ht Hhi. unfold price_bound in Ehi. rewrite Ht, Hhi in Ehi.
    injection Ehi as <-.
    eapply Forall_impl; [|exact M]. intros p Hp.
    unfold doc_matches in Hp. cbn [q_price] in Hp.
    rewrite Ht, orb_true_r in Hp. cbn [opt_ok lte num_geb] in Hp.
    apply andb_prop in Hp as [Hp _]. apply andb_prop in Hp as [_ Hp].
    apply andb_prop in Hp as [_ Hp]. apply Z.leb_le. exact Hp.
  - intros c Hc Hne.
    eapply Forall_impl; [|exact M]. intros p Hp.
    unfold doc_matches in Hp. cbn [q_condition] in Hp.
    rewrite Hc in Hp. cbn [truthy] in Hp.
    rewrite (proj2 (String.eqb_neq c "") Hne) in Hp.
    cbn [negb opt_ok condition_matches ToString] in Hp.
    apply andb_prop in Hp as [_ Hp]. apply String.eqb_eq in Hp.
    symmetry. exact Hp.
  - revert H. unfold Mongo.serve, get_products. rewrite Emq.
    cbn [run handler_try bind bind_prog await ret handle or_throw].
    match goal with
    | |- context [query_accepted ?m] => destruct (query_accepted m)
    end; [|discriminate].
    unfold remote. destruct (faults w) as [|[] fs]; cbn;
      intros H; apply (f_equal snd) in H; cbn [snd] in H; rewrite <- H;
      reflexivity.
Qed.

Ltac q_run_on :=
  cbn [run handler_try bind bind_prog await perform ret throw
       try_catch handle call_trim or_throw fst snd negb
       coll images next_oid now faults journal tl
       set_coll set_images];
  unfold remote.

Ltac q_forward :=
  repeat (q_run_on;
          match goal with
          | |- context [match faults ?w with _ => _ end] =>
              destruct (faults w) as [|[] ?] eqn:?
          | |- context [call_trim _ ?v] =>
              lazymatch v with VStr _ => fail | _ => destruct v end
          | |- context [match ?x with _ => _ end] => is_var x; destruct x
          | |- context [match ?x with _ => _ end] =>
              lazymatch x with
              | context [match _ with _ => _ end] => fail
              | _ => idtac
              end;
              lazymatch type of x with
              | prod _ _ => fail
              | _ => destruct x eqn:?
              end
          end);
  q_run_on.

(** X3: the routes that only read ([GET /api/products],
    [GET /api/products/:id], [GET /api/stats]) never change the collection,
    the images or the id supply, whatever they answer; all they send to the
    services is queries. *)
Theorem read_routes_leave_store (r : request) (w : world) :
  reads_only r = true ->
  coll (snd (serve regex_i cond_op query_accepted (route r) w)) = coll w
  /\ images (snd (serve regex_i cond_op query_accepted (route r) w)) = images w
  /\ next_oid (snd (serve regex_i cond_op query_accepted (route r) w)) = next_oid w
  /\ exists n,
       journal (snd (serve regex_i cond_op query_accepted (route r) w))
       = (repeat OpQuery n ++ journal w)%list.
Proof.
  destruct r as [q|id| | | | |]; try discriminate; intros _;
    unfold Mongo.serve, route.
  - unfold get_products, or_throw. q_forward; repeat split;
      first [exists 0%nat; reflexivity | exists 1%nat; reflexivity].
  - unfold get_product. q_forward; repeat split;
      first [exists 0%nat; reflexivity | exists 1%nat; reflexivity].
  - unfold get_stats. q_forward; repeat split;
      first [ exists 0%nat; reflexivity | exists 1%nat; reflexivity
            | exists 2%nat; reflexivity ].
Qed.

(** X4: [GET /api/products/:id] answers 200 with the stored document when
    the id is in use, 404 when it is a well-formed id not in use, and 500
    when the id is no ObjectId (without asking the store) or the query
    fails. *)
Theorem fetch_by_id_cases (w : world) :
  (forall i p, lookup i w = Some p -> fails 0 w = false ->
     fst (serve regex_i cond_op query_accepted (get_product (IdHex i)) w)
     = res_json (JProduct p))
  /\ (forall i, lookup i w = None -> fails 0 w = false ->
        fst (serve regex_i cond_op query_accepted (get_product (IdHex i)) w)
        = res_status_json 404 (JError "Product not found"))
  /\ (forall s,
        serve regex_i cond_op query_accepted (get_product (IdMalformed s)) w
        = (res_status_json 500 (JError "Failed to fetch product"), w))
  /\ (forall i, fails 0 w = true ->
        fst (serve regex_i cond_op query_accepted (get_product (IdHex i)) w)
        = res_status_json 500 (JError "Failed to fetch product")).
Proof.
  unfold fails, lookup, Mongo.serve, get_product.
  split; [|split; [|split]].
  - intros i p Hl Hf. q_run_on. cbn [coll].
    destruct (faults w) as [|[] fs]; try discriminate;
      q_run_on; rewrite Hl; reflexivity.
  - intros i Hl Hf. q_run_on. cbn [coll].
    destruct (faults w) as [|[] fs]; try discriminate;
      q_run_on; rewrite Hl; reflexivity.
  - reflexivity.
  - intros i Hf. q_run_on.
    destruct (faults w) as [|[] fs]; try discriminate; reflexivity.
Qed.

End MongoQueries.

(** ** The document-store server: writes *)

Section MongoWrites.
Import JS Mongo.

Variable regex_i : jsval -> string -> bool.
Variable cond_op : jsval -> string -> bool.
Variable query_accepted : mquery -> bool.

Ltac w_run_on :=
  cbn [run handler_try bind bind_prog await perform ret throw
       try_catch handle call_trim or_throw fst snd negb
       coll images next_oid now faults journal tl
       set_coll set_images];
  unfold remote.

Ltac w_forward :=
  repeat (w_run_on;
          match goal with
          | |- context [match faults ?w with _ => _ end] =>
              destruct (faults w) as [|[] ?] eqn:?
          | |- context [call_trim _ ?v] =>
              lazymatch v with VStr _ => fail | _ => destruct v end
          | |- context [match ?x with _ => _ end] => is_var x; destruct x
          | |- context [match ?x with _ => _ end] =>
              lazymatch x with
              | context [match _ with _ => _ end] => fail
              | _ => idtac
              end;
              lazymatch type of x with
              | prod _ _ => fail
              | _ => destruct x eqn:?
              end
          end);
  w_run_on.

(** X5: [DELETE /api/products/:id] of a stored listing with an image: when
    the three calls go through, the answer is 200, the listing can no longer
    be found, every other listing is found as before, and the image has been
    destroyed at the image host, before the listing was removed. *)
Theorem delete_removes_listing_and_image (i : oid) (p : product)
        (pid : string) (w : world) :
  lookup i w = Some p -> imagePublicId p = Some pid -> pid <> "" ->
  fails 0 w = false -> fails 1 w = false -> fails 2 w = false ->
  let rw := serve regex_i cond_op query_accepted (delete_product (IdHex i)) w in
  fst rw = res_json (JMessage "Product deleted successfully")
  /\ lookup i (snd rw) = None
  /\ (forall j, j <> i -> lookup j (snd rw) = lookup j w)
  /\ images (snd rw)
     = filter (fun x => negb (String.eqb x pid)) (images w)
  /\ journal (snd rw)
     = OpRemove i :: OpDestroy pid :: OpQuery :: journal w.
Proof.
  unfold fails, lookup. intros Hl Hi Hp F0 F1 F2. cbv zeta.
  unfold Mongo.serve, delete_product. w_run_on. cbn [coll].
  assert (Ht : truthy (VStr pid) = true)
    by (simpl; apply negb_true_iff, String.eqb_neq; exact Hp).
  destruct (faults w) as [|[] [|[] [|[] fs]]]; try discriminate;
    w_run_on; rewrite Hl; w_run_on; rewrite Hi, Ht; w_run_on;
    (split; [reflexivity|]);
    (split; [apply find_removed_same|]);
    (split; [intros j Hj; apply find_removed_other; exact Hj|]);
    split; reflexivity.
Qed.

(** X6: the delete has no recovery from a failure half way: when the call
    to the image host fails the answer is 500 and listing and image stay;
    when the image is destroyed and the removal of the listing then fails,
    the answer is 500 and the listing stays without its image. *)
Theorem delete_partial_failure (i : oid) (p : product) (pid : string)
        (w : world) :
  lookup i w = Some p -> imagePublicId p = Some pid -> pid <> "" ->
  fails 0 w = false ->
  let rw := serve regex_i cond_op query_accepted (delete_product (IdHex i)) w in
  (fails 1 w = true ->
   fst rw = res_status_json 500 (JError "Failed to delete product")
   /\ coll (snd rw) = coll w /\ images (snd rw) = images w)
  /\ (fails 1 w = false -> fails 2 w = true ->
      fst rw = res_status_json 500 (JError "Failed to delete product")
      /\ coll (snd rw) = coll w
      /\ images (snd rw)
         = filter (fun x => negb (String.eqb x pid)) (images w)).
Proof.
  unfold fails, lookup. intros Hl Hi Hp F0. cbv zeta.
  unfold Mongo.serve, delete_product. w_run_on. cbn [coll].
  assert (Ht : truthy (VStr pid) = true)
    by (simpl; apply negb_true_iff, String.eqb_neq; exact Hp).
  destruct (faults w) as [|[] [|[] [|[] fs]]]; try discriminate;
    w_run_on; rewrite Hl; w_run_on; rewrite Hi, Ht; w_run_on;
    split; simpl; intros; try discriminate; repeat split.
Qed.



Lemma schema_validate_valid (d : draft) (p : product) :
  schema_validate d = Some p -> valid_doc p = true.
Proof.
  unfold schema_validate.
  destruct (d_price (draft_data d)); [discriminate|].
  destruct (d_condition (draft_data d)); try discriminate.
  match goal with |- (if ?c then _ else _) = _ -> _ => destruct c eqn:E end;
    [|discriminate].
  intros H. injection H as <-. exact E.
Qed.

Lemma apply_update_valid (u : update) (p : product) :
  update_valid u = true -> valid_doc p = true ->
  valid_doc (apply_update u p) = true.
Proof.
  unfold update_valid, valid_doc. intros Hu Hp.
  repeat (apply andb_prop in Hu as [Hu ?]).
  repeat (apply andb_prop in Hp as [Hp ?]).
  cbn [apply_update name price seller whatsapp condition description
       imagePath].
  destruct (u_name u), (u_price u), (u_seller u), (u_whatsapp u),
    (u_condition u), (u_description u), (u_imagePath u);
    cbn [opt_ok pick option_map] in *;
    repeat (apply andb_true_intro; split); assumption.
Qed.

Lemma Forall_replace_doc (P : product -> Prop) (i : oid) (q : product)
      (l : list product) :
  P q -> Forall P l -> Forall P (replace_doc i q l).
Proof.
  intros Hq. induction 1 as [|a l Ha Hl IH]; simpl; [constructor|].
  destruct (has_id i a); constructor; auto.
Qed.

Lemma Forall_filter (P : product -> Prop) (f : product -> bool)
      (l : list product) :
  Forall P l -> Forall P (filter f l).
Proof.
  induction 1 as [|a l Ha Hl IH]; simpl; [constructor|].
  destruct (f a); [constructor|]; auto.
Qed.

Ltac settle_valid :=
  first
    [ assumption
    | apply Forall_app; split;
      [ assumption
      | constructor; [|constructor];
        match goal with
        | H : schema_validate _ = Some _ |- _ =>
            exact (schema_validate_valid _ _ H)
        end ]
    | apply Forall_replace_doc; [|assumption];
      apply apply_update_valid; [assumption|];
      match goal with
      | H : find _ _ = Some ?p, F : Forall _ _ |- _ =>
          apply find_some in H as [H _];
          rewrite Forall_forall in F; exact (F _ H)
      end
    | apply Forall_filter; assumption ].

Lemma route_keeps_valid (r : request) (w : world) :
  names_fields_only (Serve r) ->
  Forall (fun p => valid_doc p = true) (coll w) ->
  Forall (fun p => valid_doc p = true)
         (coll (snd (serve regex_i cond_op query_accepted (route r) w))).
Proof.
  intros N V.
  destruct r as [q|id|b image|b|id u|id|]; unfold Mongo.serve, route.
  - unfold get_products, or_throw. w_forward; settle_valid.
  - unfold get_product. w_forward; settle_valid.
  - unfold post_product_route, upload_single, post_product, call_test,
      call_parseInt.
    w_forward; settle_valid.
  - unfold post_product_base64, call_test, call_parseInt.
    w_forward; settle_valid.
  - cbn [names_fields_only] in N. unfold put_product.
    w_forward;
      try match goal with
          | H : update_result _ _ = Some _ |- _ =>
              unfold update_result in H; rewrite N in H; injection H as <-
          end;
      settle_valid.
  - unfold delete_product. w_forward; settle_valid.
  - unfold get_stats. w_forward; settle_valid.
Qed.

(** X8: the constraints of the schema hold of every stored listing as long
    as no update carries update operators, which the validators skip: if
    the constraints hold of the collection, they hold after any requests
    are served whose update bodies only name fields, creates included; in
    particular the stored [whatsapp] matches [^91\d{10}$] and the stored
    price is at least 1. *)
Theorem stored_listings_stay_valid (es : list event) (w : world) :
  Forall names_fields_only es ->
  Forall (fun p => valid_doc p = true) (coll w) ->
  Forall (fun p => valid_doc p = true
                   /\ test_anchored whatsapp_re (VStr (whatsapp p))
                      = Some true
                   /\ 1 <= price p /\ In (condition p) condition_enum)
         (coll (after_events regex_i cond_op query_accepted es w)).
Proof.
  intros N V.
  assert (V' : Forall (fun p => valid_doc p = true)
                      (coll (after_events regex_i cond_op query_accepted es w))).
  { revert w V. induction es as [|e es IH]; intros w V; [exact V|].
    inversion N as [|? ? Ne Nes]; subst.
    unfold after_events. simpl.
    fold (after_events regex_i cond_op query_accepted es
            (after_event regex_i cond_op query_accepted e w)).
    apply IH; [exact Nes|]. destruct e as [r|ms]; [|exact V].
    apply route_keeps_valid; assumption. }
  eapply Forall_impl; [|exact V']. intros p Hp. split; [exact Hp|].
  unfold valid_doc in Hp. repeat (apply andb_prop in Hp as [Hp ?]).
  repeat split; auto.
  - apply test_anchored_str. assumption.
  - apply Z.leb_le. assumption.
  - match goal with H : in_enum _ = true |- _ =>
      unfold in_enum in H; apply existsb_exists in H as (c & Hc & E) end.
    apply String.eqb_eq in E. subst. exact Hc.
Qed.


(** X9: [PUT /api/products/:id]: a body the validators accept replaces the
    named fields of the addressed listing (and applies its operators, when
    it has any and the store takes them), and the result is answered and is
    what a later lookup finds, under the same id, while every other listing
    is untouched; an update the store refuses is answered 500 and changes
    nothing; an id not in use is answered 404 and nothing changes; a body
    the validators refuse is answered 500 before the store is asked. *)
Theorem update_cases (i : oid) (u : update) (w : world) :
  (forall p p', lookup i w = Some p -> update_valid u = true ->
                fails 0 w = false -> update_result u p = Some p' ->
     let rw := serve regex_i cond_op query_accepted (put_product (IdHex i) u) w in
     fst rw = res_json (JProduct p')
     /\ lookup i (snd rw) = Some p'
     /\ _id p' = i
     /\ (forall j, j <> i -> lookup j (snd rw) = lookup j w))
  /\ (forall p, lookup i w = Some p -> update_valid u = true ->
                fails 0 w = false -> update_result u p = None ->
      let rw := serve regex_i cond_op query_accepted (put_product (IdHex i) u) w in
      fst rw = res_status_json 500 (JError "Failed to update product")
      /\ coll (snd rw) = coll w)
  /\ (lookup i w = None -> update_valid u = true -> fails 0 w = false ->
      let rw := serve regex_i cond_op query_accepted (put_product (IdHex i) u) w in
      fst rw = res_status_json 404 (JError "Product not found")
      /\ coll (snd rw) = coll w)
  /\ (update_valid u = false ->
      serve regex_i cond_op query_accepted (put_product (IdHex i) u) w
      = (res_status_json 500 (JError "Failed to update product"), w)).
Proof.
  unfold fails, lookup, Mongo.serve, put_product.
  split; [|split; [|split]].
  - intros p p' Hl Hu F Hr. cbv zeta. w_run_on. rewrite Hu. w_run_on.
    cbn [coll].
    pose proof (proj2 (find_some _ _ Hl)) as Hid.
    assert (Hid' : has_id i p' = true).
    { unfold has_id in *. rewrite (update_result_id _ _ _ Hr). exact Hid. }
    destruct (faults w) as [|[] fs]; try discriminate;
      w_run_on; rewrite Hl, Hr; w_run_on;
      (split; [reflexivity|]);
      (split; [apply (find_replace_same i _ p); assumption|]);
      (split; [apply N.eqb_eq; exact Hid'|]);
      intros j Hj; apply find_replace_other;
      [exact Hj | apply N.eqb_eq; exact Hid'
      | exact Hj | apply N.eqb_eq; exact Hid'].
  - intros p Hl Hu F Hr. cbv zeta. w_run_on. rewrite Hu. w_run_on.
    cbn [coll].
    destruct (faults w) as [|[] fs]; try discriminate;
      w_run_on; rewrite Hl, Hr; w_run_on; split; reflexivity.
  - intros Hl Hu F. cbv zeta. w_run_on. rewrite Hu. w_run_on. cbn [coll].
    destruct (faults w) as [|[] fs]; try discriminate;
      w_run_on; rewrite Hl; w_run_on; split; reflexivity.
  - intros Hu. w_run_on. rewrite Hu. reflexivity.
Qed.

Lemma build_query_no_params : build_query no_params = Some active_only.
Proof. reflexivity. Qed.

Lemma schema_validate_active (d : draft) (p : product) :
  schema_validate d = Some p -> isActive p = draft_isActive d.
Proof.
  unfold schema_validate.
  destruct (d_price (draft_data d)); [discriminate|].
  destruct (d_condition (draft_data d)); try discriminate.
  match goal with |- (if ?c then _ else _) = _ -> _ => destruct c end;
    [|discriminate].
  intros H. injection H as <-. reflexivity.
Qed.

(** X10: a listing created through the multipart route is on the list: the
    next [GET /api/products] without parameters, when its query goes
    through, has the created listing in its answer. *)
Theorem created_listing_is_listed (b : body_fields) (image : file)
        (w w1 : world) (r : response) :
  serve regex_i cond_op query_accepted (post_product b (Some image)) w = (r, w1) ->
  status r = 201 ->
  option_map query_accepted (build_query no_params) = Some true ->
  fails 0 w1 = false ->
  exists p l,
    r = res_status_json 201 (JProduct p)
    /\ fst (serve regex_i cond_op query_accepted (get_products no_params) w1)
       = res_json (JProducts l)
    /\ In p l.
Proof.
  intros H S Hq F.
  apply post_product_created in H; [|lia|lia].
  destruct H as (file' & nm & sl & wa & ds & pr & p & _ & _ & _ & _ & _ & _
                 & _ & Hv & -> & Hc).
  rewrite build_query_no_params in Hq. cbn [option_map] in Hq.
  injection Hq as Hq.
  exists p.
  exists (sort_docs (sort_option VUndefined)
            (filter (doc_matches regex_i cond_op active_only) (coll w1))).
  split; [reflexivity|]. split.
  - unfold Mongo.serve, get_products. rewrite build_query_no_params.
    w_run_on. rewrite Hq.
    unfold fails in F. w_run_on.
    destruct (faults w1) as [|[] fs]; try discriminate; reflexivity.
  - apply (Permutation_in _ (Permutation_sym (sort_docs_perm _ _))).
    apply filter_In. split.
    + rewrite Hc. apply in_or_app. right. left. reflexivity.
    + rewrite matches_active_only.
      rewrite (schema_validate_active _ _ Hv). reflexivity.
Qed.

End MongoWrites.

(** The three sample listings between 600 and 2000. *)
Lemma listing_query_selects_witness :
  Forall (fun p => 600 <= Mongo.price p /\ Mongo.price p <= 2000)
    [ Samples.listing 2 "Lamp" 900 "A" 300;
      Samples.listing 0 "Desk" 2000 "A" 100 ].
Proof.
  destruct (listing_query_selects
              Samples.no_match Samples.no_cond Samples.accept_all
              Samples.price_between Samples.three_listings
              (snd (Mongo.serve Samples.no_match Samples.no_cond
                      Samples.accept_all
                      (Mongo.get_products Samples.price_between)
                      Samples.three_listings))
              [ Samples.listing 2 "Lamp" 900 "A" 300;
                Samples.listing 0 "Desk" 2000 "A" 100 ])
    as (mq & _ & _ & _ & Hlo & Hhi & _).
  - intros n E. injection E as <-.
    change (JS.safe_integer (JS.Num 600)).
    unfold JS.safe_integer, JS.MAX_SAFE_INTEGER. lia.
  - intros n E. injection E as <-.
    change (JS.safe_integer (JS.Num 2000)).
    unfold JS.safe_integer, JS.MAX_SAFE_INTEGER. lia.
  - reflexivity.
  - specialize (Hlo 600 eq_refl eq_refl).
    specialize (Hhi 2000 eq_refl eq_refl).
    rewrite Forall_forall in *. intros p Hp. split; auto.
Defined.

(** The statistics of the sample store leave it as it is. *)
Lemma read_routes_leave_store_witness :
  Mongo.coll (snd (Mongo.serve Samples.no_match Samples.no_cond Samples.accept_all
                     (Mongo.route Mongo.GetStats) Samples.three_listings))
  = Mongo.coll Samples.three_listings.
Proof.
  apply (read_routes_leave_store Samples.no_match Samples.no_cond Samples.accept_all
                                 Mongo.GetStats Samples.three_listings).
  reflexivity.
Defined.

(** Deleting the desk of the sample store. *)
Lemma delete_removes_witness :
  Mongo.lookup 0%N
    (snd (Mongo.serve Samples.no_match Samples.no_cond Samples.accept_all
            (Mongo.delete_product (Mongo.IdHex 0%N)) Samples.three_listings))
  = None
  /\ Mongo.images
       (snd (Mongo.serve Samples.no_match Samples.no_cond Samples.accept_all
               (Mongo.delete_product (Mongo.IdHex 0%N))
               Samples.three_listings))
     = [].
Proof.
  destruct (delete_removes_listing_and_image
              Samples.no_match Samples.no_cond Samples.accept_all 0%N
              (Samples.listing 0 "Desk" 2000 "A" 100) "img"
              Samples.three_listings)
    as (_ & H1 & _ & H2 & _);
    try reflexivity; try discriminate.
  split; [exact H1 | exact H2].
Defined.

(** The image host fails while the desk is deleted: the desk stays. *)
Lemma delete_partial_failure_witness :
  Mongo.status
    (fst (Mongo.serve Samples.no_match Samples.no_cond Samples.accept_all
            (Mongo.delete_product (Mongo.IdHex 0%N))
            (Samples.failing [false; true] Samples.three_listings)))
  = 500
  /\ Mongo.coll
       (snd (Mongo.serve Samples.no_match Samples.no_cond Samples.accept_all
               (Mongo.delete_product (Mongo.IdHex 0%N))
               (Samples.failing [false; true] Samples.three_listings)))
     = Mongo.coll Samples.three_listings.
Proof.
  destruct (delete_partial_failure
              Samples.no_match Samples.no_cond Samples.accept_all 0%N
              (Samples.listing 0 "Desk" 2000 "A" 100) "img"
              (Samples.failing [false; true] Samples.three_listings))
    as [H _]; try reflexivity; try discriminate.
  destruct (H eq_refl) as (E & C & _).
  split; [rewrite E; reflexivity | exact C].
Defined.

(** The sample store stays valid through the sample history. *)
Lemma stored_listings_stay_valid_witness :
  Forall (fun p => JS.test_anchored JS.whatsapp_re
                     (JS.VStr (Mongo.whatsapp p)) = Some true)
         (Mongo.coll (Mongo.after_events Samples.no_match Samples.no_cond
                        Samples.accept_all
                        Samples.history Samples.three_listings)).
Proof.
  eapply Forall_impl;
    [|apply (stored_listings_stay_valid
               Samples.no_match Samples.no_cond Samples.accept_all
               Samples.history Samples.three_listings)].
  - intros p H. apply H.
  - repeat constructor.
  - repeat constructor.
Defined.

(** The desk is on the list once it is created. *)
Lemma created_listing_is_listed_witness :
  exists p l,
    fst (Mongo.serve Samples.no_match Samples.no_cond Samples.accept_all
           (Mongo.post_product Samples.desk (Some Samples.desk_image))
           Samples.empty_store)
    = Mongo.res_status_json 201 (Mongo.JProduct p)
    /\ In p l /\ Mongo.name p = "Desk".
Proof.
  destruct (created_listing_is_listed
              Samples.no_match Samples.no_cond Samples.accept_all Samples.desk
              Samples.desk_image Samples.empty_store
              (snd (Mongo.serve Samples.no_match Samples.no_cond Samples.accept_all
                      (Mongo.post_product Samples.desk
                                          (Some Samples.desk_image))
                      Samples.empty_store))
              (fst (Mongo.serve Samples.no_match Samples.no_cond Samples.accept_all
                      (Mongo.post_product Samples.desk
                                          (Some Samples.desk_image))
                      Samples.empty_store)))
    as (p & l & E & _ & Hin).
  - apply surjective_pairing.
  - reflexivity.
  - reflexivity.
  - reflexivity.
  - exists p, l. split; [exact E|]. split; [exact Hin|].
    vm_compute in E. injection E as <-. reflexivity.
Defined.


(** ** The file-backed server: creating, listing and deleting *)

Section GithubMore.
Import JS Github.

Ltac gm_exec :=
  cbn [run handler_try bind bind_prog await perform ret throw try_catch
       handle Github.serve call_trim or_throw fst snd negb repo now faults
       journal tl
       set_repo content sha status body].

Lemma findIndex_first {A} (f : A -> bool) (l : list A) (x : A) :
  In x l -> f x = true ->
  exists before d after,
    l = (before ++ d :: after)%list /\ f d = true
    /\ Forall (fun y => f y = false) before
    /\ findIndex f l = Some (List.length before)
    /\ nth_error l (List.length before) = Some d
    /\ splice1 (List.length before) l = (before ++ after)%list.
Proof.
  induction l as [|a l IH]; intros Hin Hx; [destruct Hin|].
  destruct (f a) eqn:Ha.
  - exists [], a, l. cbn [findIndex]. rewrite Ha.
    repeat (split; [reflexivity || assumption || constructor|]).
    reflexivity.
  - destruct Hin as [->|Hin]; [congruence|].
    destruct (IH Hin Hx) as (before & d & after & -> & Hd & Hb & Hi & Hn & Hs).
    exists (a :: before), d, after. cbn [findIndex]. rewrite Ha, Hi.
    split; [reflexivity|]. split; [assumption|].
    split; [constructor; assumption|].
    split; [reflexivity|]. split; [exact Hn|].
    cbn [List.length splice1 app]. rewrite Hs. reflexivity.
Qed.

Lemma fails_0 (w : world) :
  fails 0 w = false ->
  faults w = [] \/ exists fs, faults w = false :: fs.
Proof.
  unfold fails. destruct (faults w) as [|[] fs]; cbn [nth]; intros H;
    [left; reflexivity | discriminate | right; eexists; reflexivity].
Qed.

(** A read that is answered gives the array of the file, as it is stored. *)
Lemma gh_get_products_reads (w : world) (f : file) :
  repo w = Some f -> fails 0 w = false ->
  serve get_products w
  = (res_json (JList true (content f) "github"),
     mkWorld (repo w) (now w) (tl (faults w)) (OpGet :: journal w)).
Proof.
  intros Hr Hf. unfold serve, get_products. gm_exec. unfold remote.
  destruct (fails_0 w Hf) as [E | (fs & E)]; rewrite E; gm_exec;
    rewrite Hr; gm_exec; reflexivity.
Qed.

(** What a delete that finds its listing does, when both calls are
    answered. *)
Lemma gh_delete_found (param : string) (f : file) (w : world)
      (before after : list product) (d : product) :
  repo w = Some f ->
  content f = (before ++ d :: after)%list ->
  id_is (parseInt_string param) d = true ->
  Forall (fun y => id_is (parseInt_string param) y = false) before ->
  fails 0 w = false -> fails 1 w = false ->
  serve (delete_product param) w
  = (res_json (JDeleted true "Product deleted successfully" d),
     mkWorld (Some (mkFile (before ++ after) (N.succ (sha f)))) (now w)
             (tl (tl (faults w)))
             (OpPut (before ++ after) (Some (sha f)) :: OpGet :: journal w)).
Proof.
  intros Hr Hc Hd Hb F0 F1.
  assert (Hin : In d (content f)).
  { rewrite Hc. apply in_or_app. right. left. reflexivity. }
  destruct (findIndex_first _ _ _ Hin Hd)
    as (b' & d' & a' & Hc' & Hd' & Hb' & Hi & Hn & Hs).
  assert (Hlen : List.length b' = List.length before).
  { clear - Hc Hc' Hd Hd' Hb Hb'. rewrite Hc in Hc'. clear Hc.
    revert b' Hc' Hb'.
    induction before as [|x before IH]; intros [|y b'] E Hb'; cbn in *.
    - reflexivity.
    - injection E as <- _. inversion Hb'; congruence.
    - injection E as -> _. inversion Hb; congruence.
    - injection E as <- E. f_equal.
      inversion Hb; inversion Hb'; subst. apply IH; assumption. }
  rewrite Hc in Hc'.
  assert (Hb_eq : b' = before).
  { apply (f_equal (firstn (List.length before))) in Hc'.
    rewrite firstn_app, Nat.sub_diag, firstn_all in Hc'. cbn [firstn] in Hc'.
    rewrite app_nil_r in Hc'. rewrite <- Hlen in Hc'.
    rewrite firstn_app, Nat.sub_diag, firstn_all in Hc'. cbn [firstn] in Hc'.
    rewrite app_nil_r in Hc'. symmetry. exact Hc'. }
  subst b'. apply app_inv_head in Hc'. injection Hc' as <- <-.
  unfold serve, delete_product. gm_exec. unfold remote at 1.
  unfold fails in F0, F1.
  destruct (faults w) as [|[] [|[] fs]] eqn:Ef; cbn [nth] in F0, F1;
    try discriminate; gm_exec; rewrite Hr; gm_exec;
    rewrite Hi, Hn; gm_exec; rewrite Hs; unfold remote; gm_exec;
    rewrite N.eqb_refl; reflexivity.
Qed.

(** X11: in the file-backed server a listing that was created heads the list
    read next, before the listings the create had read, which keep their
    order; the list is marked as coming from the repository. *)
Theorem gh_created_listing_heads_the_list
        (b : body_fields) (w w1 : world) (r : response) :
  serve (post_product b) w = (r, w1) ->
  status r = 200 ->
  fails 0 w1 = false ->
  exists p,
    body r = JAdded true "Product added successfully" p
    /\ fst (serve get_products w1)
       = res_json (JList true (p :: content_read w) "github")
    /\ repo (snd (serve get_products w1)) = repo w1.
Proof.
  intros H S F.
  destruct (gh_post_product_created b w r w1 H) as
    (nm & sl & wa & ds & pr & _ & _ & _ & _ & _ & _ & -> & Hc).
  - rewrite S. discriminate.
  - rewrite S. discriminate.
  - eexists. split; [reflexivity|].
    destruct (repo w1) as [f|] eqn:Hr; [|discriminate].
    cbn [option_map] in Hc. injection Hc as Hc.
    rewrite (gh_get_products_reads w1 f Hr F). cbn [fst snd repo].
    rewrite Hc. split; [reflexivity | exact Hr].
Qed.

(** X12: a delete in the file-backed server removes the first listing of
    the file whose id is the number parsed from the path, and no other: the
    array written back is the array read without that entry, under the token
    that was read, and the response carries the removed listing. *)
Theorem gh_delete_removes_first_match
        (param : string) (z : Z) (f : file) (w : world) :
  repo w = Some f ->
  parseInt (VStr param) = Some (Num z) ->
  In z (map id (content f)) ->
  fails 0 w = false -> fails 1 w = false ->
  let rw := serve (delete_product param) w in
  exists before d after,
    content f = (before ++ d :: after)%list
    /\ id d = z
    /\ Forall (fun y => id y <> z) before
    /\ fst rw = res_json (JDeleted true "Product deleted successfully" d)
    /\ repo (snd rw) = Some (mkFile (before ++ after) (N.succ (sha f)))
    /\ journal (snd rw)
       = OpPut (before ++ after) (Some (sha f)) :: OpGet :: journal w.
Proof.
  intros Hr Hp Hin F0 F1. cbv zeta.
  unfold parseInt in Hp. cbn [ToString option_map] in Hp.
  injection Hp as Hp.
  apply in_map_iff in Hin. destruct Hin as (x & Hx & Hin).
  assert (Hfx : id_is (Num z) x = true).
  { unfold id_is. rewrite Hx. apply Z.eqb_refl. }
  destruct (findIndex_first _ _ _ Hin Hfx)
    as (before & d & after & Hc & Hd & Hb & _).
  exists before, d, after.
  rewrite (gh_delete_found param f w before after d Hr Hc);
    try assumption; try (rewrite Hp; assumption).
  cbn [fst snd repo journal].
  split; [exact Hc|].
  split; [unfold id_is in Hd; apply Z.eqb_eq; exact Hd|].
  split; [|repeat split].
  eapply Forall_impl; [|exact Hb].
  intros y Hy. unfold id_is in Hy. apply Z.eqb_neq. exact Hy.
Qed.

(** X13: create, then delete by the id the create returned, written in
    decimal: the delete removes the listing just created, also when an
    older listing has the same id, and the file holds again the array the
    create had read. *)
Theorem gh_create_then_delete_restores
        (b : body_fields) (w w1 : world) (r : response) :
  serve (post_product b) w = (r, w1) ->
  status r = 200 ->
  fails 0 w1 = false -> fails 1 w1 = false ->
  let rw := serve (delete_product (string_of_Z (now w))) w1 in
  exists p,
    r = res_json (JAdded true "Product added successfully" p)
    /\ id p = now w
    /\ fst rw = res_json (JDeleted true "Product deleted successfully" p)
    /\ option_map content (repo (snd rw)) = Some (content_read w).
Proof.
  intros H S F0 F1. cbv zeta.
  destruct (gh_post_product_created b w r w1 H) as
    (nm & sl & wa & ds & pr & _ & _ & _ & _ & _ & _ & -> & Hc).
  - rewrite S. discriminate.
  - rewrite S. discriminate.
  - eexists. split; [reflexivity|]. split; [reflexivity|].
    destruct (repo w1) as [f|] eqn:Hr; [|discriminate].
    cbn [option_map] in Hc. injection Hc as Hc.
    assert (Hp : parseInt_string (string_of_Z (now w)) = Num (now w))
      by apply parseInt_string_of_Z.
    rewrite (gh_delete_found _ f w1 [] (content_read w) _ Hr Hc);
      try assumption.
    + split; reflexivity.
    + rewrite Hp. unfold id_is. cbn [id]. apply Z.eqb_refl.
    + constructor.
Qed.


End GithubMore.

Lemma gh_created_listing_heads_witness :
  exists p,
    Github.body
      (fst (Github.serve (Github.post_product Samples.gh_desk)
                         Samples.two_in_file))
    = Github.JAdded true "Product added successfully" p
    /\ fst (Github.serve Github.get_products
              (snd (Github.serve (Github.post_product Samples.gh_desk)
                                 Samples.two_in_file)))
       = Github.res_json
           (Github.JList true
              (p :: Github.content_read Samples.two_in_file) "github").
Proof.
  destruct (gh_created_listing_heads_the_list
              Samples.gh_desk Samples.two_in_file
              (snd (Github.serve (Github.post_product Samples.gh_desk)
                                 Samples.two_in_file))
              (fst (Github.serve (Github.post_product Samples.gh_desk)
                                 Samples.two_in_file)))
    as (p & E1 & E2 & _).
  - reflexivity.
  - reflexivity.
  - reflexivity.
  - exists p. split; assumption.
Defined.

Lemma gh_delete_removes_witness :
  exists before d after,
    [Samples.gh_listing 1700000000002 "Chair";
     Samples.gh_listing 1700000000001 "Desk"]
    = (before ++ d :: after)%list
    /\ Github.id d = 1700000000001
    /\ fst (Github.serve (Github.delete_product "1700000000001")
                         Samples.two_in_file)
       = Github.res_json
           (Github.JDeleted true "Product deleted successfully" d)
    /\ Github.repo (snd (Github.serve
                           (Github.delete_product "1700000000001")
                           Samples.two_in_file))
       = Some (Github.mkFile (before ++ after) 8%N).
Proof.
  destruct (gh_delete_removes_first_match
              "1700000000001" 1700000000001
              (Github.mkFile [Samples.gh_listing 1700000000002 "Chair";
                              Samples.gh_listing 1700000000001 "Desk"] 7%N)
              Samples.two_in_file)
    as (before & d & after & Hc & Hd & Hb & E1 & E2 & _).
  - reflexivity.
  - reflexivity.
  - right. left. reflexivity.
  - reflexivity.
  - reflexivity.
  - exists before, d, after. auto.
Defined.

Lemma gh_create_then_delete_witness :
  option_map Github.content
    (Github.repo
       (snd (Github.serve (Github.delete_product "1700000000003")
               (snd (Github.serve (Github.post_product Samples.gh_desk)
                                  Samples.two_in_file)))))
  = Some (Github.content_read Samples.two_in_file).
Proof.
  destruct (gh_create_then_delete_restores
              Samples.gh_desk Samples.two_in_file
              (snd (Github.serve (Github.post_product Samples.gh_desk)
                                 Samples.two_in_file))
              (fst (Github.serve (Github.post_product Samples.gh_desk)
                                 Samples.two_in_file)))
    as (p & _ & _ & _ & E).
  - reflexivity.
  - reflexivity.
  - reflexivity.
  - reflexivity.
  - exact E.
Defined.


(** ** The search route *)

Section SearchFacts.
Import JS Github Search.

Lemma list_ascii_of_string_app (a b : string) :
  list_ascii_of_string (a ++ b)
  = (list_ascii_of_string a ++ list_ascii_of_string b)%list.
Proof.
  induction a as [|c a IH]; cbn; [reflexivity|]. rewrite IH. reflexivity.
Qed.

Lemma starts_with_spec (t l : list ascii) :
  starts_with t l = true <-> exists post, l = (t ++ post)%list.
Proof.
  revert l. induction t as [|a t IH]; intros l; cbn [starts_with].
  - split; [intros _; exists l; reflexivity | reflexivity].
  - destruct l as [|b l].
    + split; [discriminate | intros (post & E); discriminate].
    + rewrite Bool.andb_true_iff, Ascii.eqb_eq, IH. split.
      * intros (-> & post & ->). exists post. reflexivity.
      * intros (post & E). injection E as -> ->. split; [reflexivity|].
        exists post. reflexivity.
Qed.

Lemma occurs_in_spec (t l : list ascii) :
  occurs_in t l = true <-> exists pre post, l = (pre ++ t ++ post)%list.
Proof.
  induction l as [|b l IH]; cbn [occurs_in];
    rewrite Bool.orb_true_iff, starts_with_spec.
  - split.
    + intros [(post & E) | H]; [|discriminate].
      exists [], post. exact E.
    + intros (pre & post & E). left.
      destruct pre as [|x pre]; [|discriminate]. exists post. exact E.
  - rewrite IH. split.
    + intros [(post & E) | (pre & post & E)].
      * exists [], post. exact E.
      * exists (b :: pre), post. rewrite E. reflexivity.
    + intros (pre & post & E). destruct pre as [|x pre].
      * left. exists post. exact E.
      * right. injection E as _ E. exists pre, post. exact E.
Qed.

Lemma includes_spec (s t : string) :
  includes s t = true <-> contains s t.
Proof.
  unfold includes, contains. rewrite occurs_in_spec. split.
  - intros (pre & post & E).
    exists (string_of_list_ascii pre), (string_of_list_ascii post).
    rewrite <- (string_of_list_ascii_of_string s), E.
    rewrite <- (string_of_list_ascii_of_string t) at 2.
    rewrite <- (list_ascii_of_string_of_list_ascii
                  (pre ++ list_ascii_of_string t ++ post)).
    rewrite string_of_list_ascii_of_string.
    rewrite <- (string_of_list_ascii_of_string
                  (string_of_list_ascii pre
                   ++ string_of_list_ascii (list_ascii_of_string t)
                   ++ string_of_list_ascii post)).
    rewrite !list_ascii_of_string_app, !list_ascii_of_string_of_list_ascii.
    reflexivity.
  - intros (pre & post & ->).
    exists (list_ascii_of_string pre), (list_ascii_of_string post).
    rewrite !list_ascii_of_string_app. reflexivity.
Qed.

Lemma includes_empty (s : string) : includes s "" = true.
Proof.
  unfold includes. cbn [list_ascii_of_string].
  destruct (list_ascii_of_string s); reflexivity.
Qed.

Lemma includes_false (s t : string) :
  includes s t = false <-> ~ contains s t.
Proof.
  rewrite <- includes_spec. destruct (includes s t); split.
  - discriminate.
  - intros H. exfalso. apply H. reflexivity.
  - intros _ E. discriminate.
  - reflexivity.
Qed.

Lemma hit_true (term : string) (p : product) :
  hit term p = Normal true -> found_in term p.
Proof.
  unfold hit, found_in.
  destruct (includes (toLowerCase (name p)) term) eqn:E1;
    [intros _; left; apply includes_spec; exact E1|].
  destruct (includes (toLowerCase (description p)) term) eqn:E2;
    [intros _; right; left; apply includes_spec; exact E2|].
  destruct (includes (toLowerCase (seller p)) term) eqn:E3;
    [intros _; right; right; left; apply includes_spec; exact E3|].
  cbn [orb]. destruct (condition p) as [| | | |c|]; try discriminate.
  intros H. injection H as H. right; right; right.
  exists c. split; [reflexivity | apply includes_spec; exact H].
Qed.

Lemma hit_false (term : string) (p : product) :
  hit term p = Normal false -> ~ found_in term p.
Proof.
  unfold hit, found_in.
  destruct (includes (toLowerCase (name p)) term) eqn:E1; [discriminate|].
  destruct (includes (toLowerCase (description p)) term) eqn:E2;
    [discriminate|].
  destruct (includes (toLowerCase (seller p)) term) eqn:E3; [discriminate|].
  cbn [orb]. apply includes_false in E1, E2, E3.
  destruct (condition p) as [| | | |c|]; try discriminate.
  intros H. injection H as H. apply includes_false in H.
  intros [F | [F | [F | (c' & E & F)]]]; try contradiction.
  injection E as <-. contradiction.
Qed.

Lemma hit_thrown (term : string) (p : product) :
  (forall c, condition p <> VStr c) ->
  ~ contains (toLowerCase (name p)) term ->
  ~ contains (toLowerCase (description p)) term ->
  ~ contains (toLowerCase (seller p)) term ->
  exists msg, hit term p = Thrown msg.
Proof.
  intros Hc H1 H2 H3. unfold hit.
  apply includes_false in H1, H2, H3. rewrite H1, H2, H3. cbn [orb].
  destruct (condition p) as [| | | |c|]; try (eexists; reflexivity).
  exfalso. apply (Hc c). reflexivity.
Qed.

Lemma filter_throwing_normal {A} (f : A -> outcome bool) (l r : list A) :
  filter_throwing f l = Normal r ->
  r = filter (answered f) l
  /\ Forall (fun x => exists b, f x = Normal b) l.
Proof.
  revert r. induction l as [|x l IH]; intros r; cbn [filter_throwing filter].
  - intros H. injection H as <-. split; [reflexivity | constructor].
  - unfold answered at 1. destruct (f x) as [b|m] eqn:Ex; [|discriminate].
    destruct (filter_throwing f l) as [r'|m]; [|discriminate].
    intros H. injection H as <-.
    destruct (IH r' eq_refl) as (-> & Hall).
    split; [destruct b; reflexivity|].
    constructor; [exists b; exact Ex | exact Hall].
Qed.

Lemma filter_throwing_thrown {A} (f : A -> outcome bool) (l : list A)
      (x : A) (m : string) :
  In x l -> f x = Thrown m -> exists m', filter_throwing f l = Thrown m'.
Proof.
  induction l as [|y l IH]; intros Hin Hx; [destruct Hin|].
  cbn [filter_throwing]. destruct (f y) as [b|m1] eqn:Ey;
    [|eexists; reflexivity].
  destruct Hin as [->|Hin]; [congruence|].
  destruct (IH Hin Hx) as (m' & ->). eexists; reflexivity.
Qed.

Lemma filter_throwing_all {A} (f : A -> outcome bool) (l : list A) :
  (forall x, In x l -> f x = Normal true) -> filter_throwing f l = Normal l.
Proof.
  induction l as [|y l IH]; intros H; cbn [filter_throwing];
    [reflexivity|].
  rewrite (H y) by (left; reflexivity).
  rewrite IH; [reflexivity|]. intros x Hx. apply H. right. exact Hx.
Qed.

(** What the listing handler answers, whatever the state of the
    repository. *)
Lemma gh_get_products_total (w : world) :
  exists src,
    Github.serve get_products w
    = (Github.res_json (JList true (read_or_demo w) src),
       mkWorld (repo w) (now w) (tl (faults w)) (OpGet :: journal w)).
Proof.
  unfold Github.serve, get_products, read_or_demo.
  cbn [run handler_try bind bind_prog await perform ret try_catch
       Github.handle].
  unfold remote.
  destruct (faults w) as [|[] fs]; destruct (repo w) as [f|];
    cbn [run handler_try bind bind_prog await perform ret try_catch
         Github.handle repo now faults journal tl];
    eexists; reflexivity.
Qed.

Ltac s_exec :=
  cbn [run handler_try bind bind_prog await perform ret throw try_catch
       Search.serve call_lower fst snd negb repo now faults
       journal tl Github.body Github.status Github.res_json success_of products_of
       Search.status Search.body].

Ltac s_exec_in H :=
  cbn [run handler_try bind bind_prog await perform ret throw try_catch
       Search.serve call_lower fst snd negb repo now faults
       journal tl Github.body Github.status Github.res_json success_of products_of
       Search.status Search.body] in H.

(** The request to the own server, when the connection holds. *)
Lemma fetch_answered (w : world) :
  Github.fails 0 w = false ->
  exists src,
    Search.handle _ FetchProducts w
    = (Normal (Github.res_json (JList true (listed w) src)),
       mkWorld (repo w) (now w) (tl (tl (faults w))) (OpGet :: journal w)).
Proof.
  intros F. unfold listed.
  destruct (gh_get_products_total
              (mkWorld (repo w) (now w) (tl (faults w)) (journal w)))
    as (src & E).
  exists src. cbn [Search.handle]. rewrite E.
  cbn [repo now faults journal].
  unfold Github.fails in F.
  destruct (faults w) as [|[] fs]; cbn [nth] in F; try discriminate;
    reflexivity.
Qed.

Lemma fetch_refused (w : world) :
  Github.fails 0 w = true ->
  exists e,
    Search.handle _ FetchProducts w
    = (Thrown e, mkWorld (repo w) (now w) (tl (faults w)) (journal w)).
Proof.
  intros F. unfold Github.fails in F. cbn [Search.handle].
  destruct (faults w) as [|[] fs]; cbn [nth] in F; try discriminate.
  eexists; reflexivity.
Qed.

(** X15: a search that answers 200 returns, in the order in which they are
    listed, exactly the listings that have the query (in lower case, and
    trimmed) inside their name, description, seller or condition, case
    apart, with their number; the query is a string, and the file is not
    written. *)
Theorem search_finds_exactly (q : jsval) (w w' : world) (r : response) :
  serve (search q) w = (r, w') ->
  status r = 200 ->
  exists s found keep,
    q = VStr s
    /\ r = res_json (JFound true found q (List.length found))
    /\ found = filter keep (listed w)
    /\ (forall p, In p (listed w) ->
          (keep p = true <-> found_in (trim (toLowerCase s)) p))
    /\ repo w' = repo w.
Proof.
  unfold Search.serve, search. intros H S.
  destruct (truthy q) eqn:Tq;
    [|s_exec_in H; injection H as <- <-; discriminate].
  s_exec_in H.
  destruct (Github.fails 0 w) eqn:F.
  - destruct (fetch_refused w F) as (e & E). rewrite E in H. s_exec_in H.
    injection H as <- <-. discriminate.
  - destruct (fetch_answered w F) as (src & E). rewrite E in H. s_exec_in H.
    destruct q as [| | | |s|]; s_exec_in H;
      try (injection H as <- <-; discriminate).
    destruct (filter_throwing (hit (trim (toLowerCase s))) (listed w))
      as [found|m] eqn:Ef; s_exec_in H;
      [|injection H as <- <-; discriminate].
    injection H as <- <-.
    destruct (filter_throwing_normal _ _ _ Ef) as (Hfound & Hall).
    exists s, found, (answered (hit (trim (toLowerCase s)))).
    split; [reflexivity|]. split; [reflexivity|]. split; [exact Hfound|].
    split; [|reflexivity].
    intros p Hp. rewrite Forall_forall in Hall.
    destruct (Hall p Hp) as (b & Eb). unfold answered. rewrite Eb.
    destruct b; split; intros K; try reflexivity; try discriminate.
    + apply hit_true. exact Eb.
    + exfalso. apply (hit_false _ _ Eb). exact K.
Qed.

(** X16: one listing whose condition is no string (the create handler
    stores the condition as given) makes every search fail with 500 whose
    term is not found in the name, description or seller of that listing. *)
Theorem search_fails_on_condition_that_is_no_string
        (s : string) (p : product) (w : world) :
  truthy (VStr s) = true ->
  Github.fails 0 w = false ->
  In p (listed w) ->
  (forall c, condition p <> VStr c) ->
  ~ contains (toLowerCase (name p)) (trim (toLowerCase s)) ->
  ~ contains (toLowerCase (description p)) (trim (toLowerCase s)) ->
  ~ contains (toLowerCase (seller p)) (trim (toLowerCase s)) ->
  exists e,
    fst (serve (search (VStr s)) w)
    = res_status_json 500 (JFail false "Failed to search products" (Some e)).
Proof.
  intros Tq F Hin Hc H1 H2 H3. unfold Search.serve, search. rewrite Tq.
  s_exec.
  destruct (fetch_answered w F) as (src & E). rewrite E. s_exec.
  destruct (hit_thrown _ p Hc H1 H2 H3) as (m & Hm).
  destruct (filter_throwing_thrown _ _ _ _ Hin Hm) as (m' & ->).
  s_exec. eexists; reflexivity.
Qed.

(** X17: a query of white space only is not refused: its term is the empty
    string, which is inside every name, and the search returns every
    listing. *)
Theorem search_for_white_space_lists_all (s : string) (w : world) :
  truthy (VStr s) = true ->
  trim (toLowerCase s) = "" ->
  Github.fails 0 w = false ->
  fst (serve (search (VStr s)) w)
  = res_json (JFound true (listed w) (VStr s) (List.length (listed w))).
Proof.
  intros Tq Tt F. unfold Search.serve, search. rewrite Tq. s_exec.
  destruct (fetch_answered w F) as (src & E). rewrite E. s_exec.
  rewrite Tt. rewrite filter_throwing_all; [reflexivity|].
  intros p _. unfold hit. rewrite includes_empty. reflexivity.
Qed.

(** X18: a search without query (absent or empty) is refused with 400
    before any call; and no search writes the file: it makes at most one
    read of it. *)
Theorem search_never_writes (q : jsval) (w : world) :
  (truthy q = false ->
   serve (search q) w
   = (res_status_json 400 (JFail false "Search query is required" None), w))
  /\ repo (snd (serve (search q) w)) = repo w
  /\ (journal (snd (serve (search q) w)) = journal w
      \/ journal (snd (serve (search q) w)) = OpGet :: journal w).
Proof.
  unfold Search.serve, search. split; [intros ->; reflexivity|].
  destruct (truthy q) eqn:Tq; [|s_exec; split; [reflexivity | left; reflexivity]].
  s_exec.
  destruct (Github.fails 0 w) eqn:F.
  - destruct (fetch_refused w F) as (e & E). rewrite E. s_exec.
    split; [reflexivity | left; reflexivity].
  - destruct (fetch_answered w F) as (src & E). rewrite E. s_exec.
    destruct q as [| | | |s|]; s_exec;
      try (split; [reflexivity | right; reflexivity]).
    destruct (filter_throwing (hit (trim (toLowerCase s))) (listed w));
      s_exec; split; try reflexivity; right; reflexivity.
Qed.

End SearchFacts.

Lemma search_finds_exactly_witness :
  exists s found keep,
    JS.VStr " DESK " = JS.VStr s
    /\ fst (Search.serve (Search.search (JS.VStr " DESK "))
                         Samples.two_in_file)
       = Search.res_json
           (Search.JFound true found (JS.VStr " DESK ") (List.length found))
    /\ found = filter keep (Search.listed Samples.two_in_file)
    /\ (forall p, In p (Search.listed Samples.two_in_file) ->
          (keep p = true
           <-> Search.found_in (JS.trim (Search.toLowerCase s)) p)).
Proof.
  destruct (search_finds_exactly
              (JS.VStr " DESK ") Samples.two_in_file
              (snd (Search.serve (Search.search (JS.VStr " DESK "))
                                 Samples.two_in_file))
              (fst (Search.serve (Search.search (JS.VStr " DESK "))
                                 Samples.two_in_file)))
    as (s & found & keep & E1 & E2 & E3 & E4 & _).
  - reflexivity.
  - reflexivity.
  - exists s, found, keep. auto.
Defined.

Lemma search_fails_on_condition_witness :
  exists e,
    fst (Search.serve (Search.search (JS.VStr "lamp"))
                      Samples.file_with_condition_5)
    = Search.res_status_json 500
        (Search.JFail false "Failed to search products" (Some e)).
Proof.
  apply (search_fails_on_condition_that_is_no_string
           "lamp"
           (Github.mkProduct 1000 "Desk" (JS.Num 2000) "A" "919999999999"
                             (JS.VNum 5) "x"
                             (JS.VStr "https://example.org/desk.png") 1000)
           Samples.file_with_condition_5).
  - reflexivity.
  - reflexivity.
  - left. reflexivity.
  - intros c. discriminate.
  - apply includes_false. reflexivity.
  - apply includes_false. reflexivity.
  - apply includes_false. reflexivity.
Defined.

Lemma search_for_white_space_witness :
  fst (Search.serve (Search.search (JS.VStr " ")) Samples.two_in_file)
  = Search.res_json
      (Search.JFound true (Search.listed Samples.two_in_file) (JS.VStr " ")
                     (List.length (Search.listed Samples.two_in_file))).
Proof.
  apply (search_for_white_space_lists_all " " Samples.two_in_file);
    reflexivity.
Defined.

(** ** The minimal server: the list and what a create stores *)

Section MinimalMore.
Import Minimal.

Lemma insert_newest_perm (x : product) (l : list product) :
  Permutation (insert_newest x l) (x :: l).
Proof.
  induction l as [|y l IH]; cbn [insert_newest]; [reflexivity|].
  destruct (dateAdded y <=? dateAdded x); [reflexivity|].
  rewrite IH. apply perm_swap.
Qed.

Lemma newest_first_perm (l : list product) :
  Permutation (fold_right insert_newest [] l) l.
Proof.
  induction l as [|x l IH]; cbn [fold_right]; [reflexivity|].
  rewrite insert_newest_perm. apply perm_skip. exact IH.
Qed.

Lemma insert_newest_sorted (x : product) (l : list product) :
  StronglySorted (fun a b => dateAdded b <= dateAdded a) l ->
  StronglySorted (fun a b => dateAdded b <= dateAdded a) (insert_newest x l).
Proof.
  induction 1 as [|y l Hs IH Hy]; cbn [insert_newest].
  - constructor; constructor.
  - destruct (dateAdded y <=? dateAdded x) eqn:E.
    + apply Z.leb_le in E. constructor.
      * constructor; assumption.
      * constructor; [exact E|].
        eapply Forall_impl; [|exact Hy]. cbv beta. intros z Hz. lia.
    + apply Z.leb_gt in E. constructor; [exact IH|].
      apply (Permutation_Forall (Permutation_sym (insert_newest_perm x l))).
      constructor; [lia | exact Hy].
Qed.

Lemma newest_first_sorted (l : list product) :
  StronglySorted (fun a b => dateAdded b <= dateAdded a)
                 (fold_right insert_newest [] l).
Proof.
  induction l as [|x l IH]; cbn [fold_right]; [constructor|].
  apply insert_newest_sorted. exact IH.
Qed.

(** X19: the list of the minimal server holds every stored listing once,
    newest first by [dateAdded], and reading it changes nothing; the
    handler responds only when the store answers. *)
Theorem min_list_is_newest_first (w w' : world) (r : response) :
  serve get_products w = (Normal r, w') ->
  exists l,
    r = res_json (JProducts l)
    /\ Permutation l (coll w)
    /\ StronglySorted (fun a b => dateAdded b <= dateAdded a) l
    /\ coll w' = coll w
    /\ hd false (faults w) = false.
Proof.
  unfold serve, get_products.
  cbn [run bind bind_prog await perform ret handle].
  unfold remote. cbn [coll next_oid now faults].
  destruct (faults w) as [|[] fs]; cbn [run bind bind_prog ret hd];
    intros H; try discriminate; injection H as <- <-;
    (eexists; split; [reflexivity|]; split; [apply newest_first_perm|];
     split; [apply newest_first_sorted|]; split; reflexivity).
Qed.

Lemma min_post_product_stored (b : body_fields) (w w1 : world)
      (r : response) :
  serve (post_product b) w = (Normal r, w1) ->
  let p := mkProduct (match b__id b with Some i => i | None => next_oid w end)
                     b
                     (match b_dateAdded b with Some d => d | None => now w end)
  in
  r = res_json (JProduct p)
  /\ ~ In (_id p) (map _id (coll w))
  /\ coll w1 = (coll w ++ [p])%list
  /\ faults w1 = tl (faults w).
Proof.
  unfold serve, post_product. cbv zeta.
  cbn [run bind bind_prog await perform ret handle].
  unfold remote. cbn [coll next_oid now faults].
  set (p := mkProduct _ b _).
  assert (K : existsb (fun q => N.eqb (_id q) (_id p)) (coll w) = false ->
              ~ In (_id p) (map _id (coll w))).
  { intros E Hin. apply in_map_iff in Hin as (q & Hq & Hin).
    assert (T : existsb (fun q => N.eqb (_id q) (_id p)) (coll w) = true).
    { apply existsb_exists. exists q. split; [exact Hin|].
      apply N.eqb_eq. exact Hq. }
    congruence. }
  destruct (faults w) as [|[] fs]; cbn [run bind bind_prog ret tl];
    try (intros H; discriminate);
    (destruct (existsb (fun q => N.eqb (_id q) (_id p)) (coll w)) eqn:E;
     cbn [run bind bind_prog ret]; intros H; [discriminate|]);
    injection H as <- <-; cbn [coll faults];
    (split; [reflexivity|]); (split; [apply K; reflexivity|]);
    split; reflexivity.
Qed.

(** X20: the minimal server checks nothing: a body (with values of the
    types of its paths) is stored as given, under the [_id] it names if it
    names one and under a generated id otherwise, with the creation time it
    names if it names one.  The save is answered only when that [_id] was
    not in use; and the stored listing is in the list read next, which has
    grown by one. *)
Theorem min_created_listing_is_listed
        (b : body_fields) (w w1 : world) (r : response) :
  serve (post_product b) w = (Normal r, w1) ->
  hd false (faults w1) = false ->
  exists p l,
    r = res_json (JProduct p)
    /\ fields p = b
    /\ _id p = match b__id b with Some i => i | None => next_oid w end
    /\ ~ In (_id p) (map _id (coll w))
    /\ dateAdded p = match b_dateAdded b with Some d => d | None => now w end
    /\ fst (serve get_products w1) = Normal (res_json (JProducts l))
    /\ In p l
    /\ List.length l = S (List.length (coll w)).
Proof.
  intros H F.
  destruct (min_post_product_stored b w w1 r H) as (-> & Hn & Hc & _).
  eexists. exists (fold_right insert_newest [] (coll w1)).
  split; [reflexivity|]. split; [reflexivity|]. split; [reflexivity|].
  split; [exact Hn|]. split; [reflexivity|].
  split; [|split].
  - unfold serve, get_products.
    cbn [run bind bind_prog await perform ret handle].
    unfold remote. cbn [coll next_oid now faults].
    destruct (faults w1) as [|[] fs]; cbn [hd] in F; try discriminate;
      reflexivity.
  - apply (Permutation_in _ (Permutation_sym (newest_first_perm _))).
    rewrite Hc. apply in_or_app. right. left. reflexivity.
  - rewrite (Permutation_length (newest_first_perm _)), Hc.
    rewrite length_app. cbn [List.length]. lia.
Qed.

End MinimalMore.

Lemma min_list_is_newest_first_witness :
  exists l,
    fst (Minimal.serve Minimal.get_products
           (snd (Minimal.serve (Minimal.post_product Samples.min_desk)
                               Samples.min_empty)))
    = Normal (Minimal.res_json (Minimal.JProducts l))
    /\ Permutation l
         (Minimal.coll
            (snd (Minimal.serve (Minimal.post_product Samples.min_desk)
                                Samples.min_empty))).
Proof.
  destruct (min_list_is_newest_first
              (snd (Minimal.serve (Minimal.post_product Samples.min_desk)
                                  Samples.min_empty))
              (snd (Minimal.serve Minimal.get_products
                      (snd (Minimal.serve
                              (Minimal.post_product Samples.min_desk)
                              Samples.min_empty))))
              (Minimal.res_json
                 (Minimal.JProducts
                    (Minimal.coll
                       (snd (Minimal.serve
                               (Minimal.post_product Samples.min_desk)
                               Samples.min_empty))))))
    as (l & E & P & _).
  - reflexivity.
  - exists l. split; [rewrite <- E; reflexivity | exact P].
Defined.

Lemma min_created_listing_is_listed_witness :
  exists p l,
    Minimal.fields p = Samples.min_bad_phone
    /\ fst (Minimal.serve Minimal.get_products
              (snd (Minimal.serve
                      (Minimal.post_product Samples.min_bad_phone)
                      Samples.min_empty)))
       = Normal (Minimal.res_json (Minimal.JProducts l))
    /\ In p l.
Proof.
  destruct (min_created_listing_is_listed
              Samples.min_bad_phone Samples.min_empty
              (snd (Minimal.serve
                      (Minimal.post_product Samples.min_bad_phone)
                      Samples.min_empty))
              (Minimal.res_json
                 (Minimal.JProduct
                    (Minimal.mkProduct 0%N Samples.min_bad_phone 1000))))
    as (p & l & _ & Hf & _ & _ & _ & E & Hin & _).
  - reflexivity.
  - reflexivity.
  - exists p, l. auto.
Defined.

(** ** Statistics at the sample store *)

Lemma get_stats_result_witness :
  fst (Mongo.serve Samples.no_match Samples.no_cond Samples.accept_all Mongo.get_stats
                   Samples.three_listings)
  = Mongo.res_json
      (Mongo.JStats
         (List.length
            (filter Mongo.isActive (Mongo.coll Samples.three_listings)))
         JS.VUndefined
         (Mongo.first_avg_or_0
            (Mongo.avg_price
               (filter Mongo.isActive (Mongo.coll Samples.three_listings))))).
Proof.
  apply (get_stats_result
           Samples.no_match Samples.no_cond Samples.accept_all Samples.three_listings
           (snd (Mongo.serve Samples.no_match Samples.no_cond Samples.accept_all
                             Mongo.get_stats Samples.three_listings))).
  - reflexivity.
  - reflexivity.
Defined.

(** ** The cases of the handlers at the sample store *)

Lemma fetch_by_id_witness :
  fst (Mongo.serve Samples.no_match Samples.no_cond Samples.accept_all
                   (Mongo.get_product (Mongo.IdHex 1%N))
                   Samples.three_listings)
  = Mongo.res_json (Mongo.JProduct (Samples.listing 1 "Chair" 500 "B" 200)).
Proof.
  apply (proj1 (fetch_by_id_cases Samples.no_match Samples.no_cond Samples.accept_all
                                  Samples.three_listings)).
  - reflexivity.
  - reflexivity.
Defined.


Lemma update_cases_witness :
  Mongo.lookup 0%N
    (snd (Mongo.serve Samples.no_match Samples.no_cond Samples.accept_all
            (Mongo.put_product (Mongo.IdHex 0%N) Samples.rename_desk)
            Samples.three_listings))
  = Some (Mongo.apply_update Samples.rename_desk
                             (Samples.listing 0 "Desk" 2000 "A" 100)).
Proof.
  apply (proj1 (update_cases Samples.no_match Samples.no_cond
                             Samples.accept_all 0%N
                             Samples.rename_desk Samples.three_listings)
               (Samples.listing 0 "Desk" 2000 "A" 100)
               (Mongo.apply_update Samples.rename_desk
                                   (Samples.listing 0 "Desk" 2000 "A" 100))).
  - reflexivity.
  - reflexivity.
  - reflexivity.
  - reflexivity.
Defined.

Lemma search_without_query_witness :
  Search.serve (Search.search JS.VUndefined) Samples.two_in_file
  = (Search.res_status_json 400
       (Search.JFail false "Search query is required" None),
     Samples.two_in_file).
Proof.
  apply (proj1 (search_never_writes JS.VUndefined Samples.two_in_file)).
  reflexivity.
Defined.
